(** * charon/backends/virtualbox.py: the VirtualBox machine state

    A shallow embedding of [VirtualBoxState]: the persisted record and its
    [serialise]/[deserialise] pair, the provisioning sequence [create], and
    the lifecycle operations [start], [stop] and [destroy].

    The program talks to the outside through [subprocess] ([VBoxManage],
    [nix-build]), the file system, the deployment's state file and the
    [known_hosts] module.  Every such interaction is recorded as an [event];
    the answers of the outside world are read from a [World], a script of
    answers per kind of interaction. *)

From Stdlib Require Import ZArith List Ascii String Lia Bool.
From stdpp Require Import base option gmap strings.
Import ListNotations.

Local Open Scope string_scope.
Local Open Scope list_scope.

(** ** Strings as Python uses them *)

Module PyStr.

(** The truth value of a [str]: only the empty string is false. *)
Definition nonempty (s : string) : bool :=
  match s with
  | EmptyString => false
  | String _ _ => true
  end.

(** [s[0:n]] *)
Fixpoint take (n : nat) (s : string) : string :=
  match n, s with
  | O, _ => EmptyString
  | S _, EmptyString => EmptyString
  | S n', String c s' => String c (take n' s')
  end.

(** [s[n:]] *)
Fixpoint drop (n : nat) (s : string) : string :=
  match n, s with
  | O, _ => s
  | S _, EmptyString => EmptyString
  | S n', String _ s' => drop n' s'
  end.

(** The characters [str.rstrip()] removes: space, tab, line feed, vertical
    tab, form feed and carriage return. *)
Definition is_space (c : ascii) : bool :=
  let n := nat_of_ascii c in
  (n =? 32)%nat || ((9 <=? n)%nat && (n <=? 13)%nat).

(** [s.rstrip()] *)
Fixpoint rstrip (s : string) : string :=
  match s with
  | EmptyString => EmptyString
  | String c s' =>
      match rstrip s' with
      | EmptyString => if is_space c then EmptyString else String c EmptyString
      | r => String c r
      end
  end.

(** [sep.join(l)] *)
Fixpoint join (sep : string) (l : list string) : string :=
  match l with
  | [] => EmptyString
  | [x] => x
  | x :: rest => x +:+ sep +:+ join sep rest
  end.

(** [s.replace(c, '')] for a one-character [c]. *)
Fixpoint remove_char (c : ascii) (s : string) : string :=
  match s with
  | EmptyString => EmptyString
  | String d s' =>
      if Ascii.eqb c d then remove_char c s' else String d (remove_char c s')
  end.

(** [s.split(c, 1)] when [c] occurs in [s]: the text before the first [c]
    and the text after it; [None] when [c] does not occur (the list then
    has one element only). *)
Fixpoint split_once (c : ascii) (s : string) : option (string * string) :=
  match s with
  | EmptyString => None
  | String d s' =>
      if Ascii.eqb c d then Some (EmptyString, s')
      else match split_once c s' with
           | Some (k, v) => Some (String d k, v)
           | None => None
           end
  end.

Definition dquote : ascii := ascii_of_nat 34.
Definition equals : ascii := ascii_of_nat 61.

End PyStr.

(** ** Data model *)

(** [VirtualBoxDefinition]: the three attributes read from the XML.
    [memory_size] is kept as the attribute's text, as the constructor does. *)
Record VirtualBoxDefinition := {
  base_image : string;
  memory_size : string;
  headless : bool
}.

(** The fields [VirtualBoxState.__init__] declares.  The string fields start
    as [None], the flags as [False]. *)
Record VirtualBoxState := {
  _vm_id : option string;
  _ipv4 : option string;
  _disk : option string;
  _disk_attached : bool;
  _started : bool;
  _client_private_key : option string;
  _client_public_key : option string
}.

Definition init_state : VirtualBoxState :=
  {| _vm_id := None; _ipv4 := None; _disk := None;
     _disk_attached := false; _started := false;
     _client_private_key := None; _client_public_key := None |}.

(** The test [if self._f:] on a string field: neither [None] nor empty. *)
Definition truthy (f : option string) : bool :=
  match f with
  | Some s => PyStr.nonempty s
  | None => false
  end.

(** ** The persisted form *)

(** Values of the nested mapping of the state file. *)
#[warnings="-register-all"]
Inductive value :=
| VNone
| VStr (s : string)
| VBool (b : bool)
| VDict (d : gmap string value).

Inductive exn :=
| AttributeError        (* [y.get] on something that is not a mapping *)
| TypeError             (* [None] in an argument vector *)
| KeyError              (* [os.environ['HOME']] *)
| ValueError            (* a report line without [=] *)
| IllTyped              (* a stored value the record has no type for *)
| UnableToGetInfo
| UnableToGetState
| UnableToClearIP
| UnableToSetClientKey
| UnableToStart
| UnableToGetIP
| UnableToCreate
| CannotFindDirectory
| UnableToBuildBaseImage
| UnableToCopyDisk
| UnableToCreateController
| UnableToAttachDisk
| UnableToModify
| UnableToUnregister
| OutOfFuel.            (* the model's bound on a polling loop was reached *)

Definition set_if (c : bool) (k : string) (v : value)
    (m : gmap string value) : gmap string value :=
  if c then <[k := v]> m else m.

Definition str_value (f : option string) : value :=
  match f with
  | Some s => VStr s
  | None => VNone
  end.

(** [VirtualBoxState.serialise].  [base] is the mapping
    [MachineState.serialise(self)] returns. *)
Definition serialise (base : gmap string value) (self : VirtualBoxState)
    : gmap string value :=
  let x := base in
  let x := set_if (truthy (_vm_id self)) "vmId" (str_value (_vm_id self)) x in
  let x := set_if (truthy (_ipv4 self)) "privateIpv4" (str_value (_ipv4 self)) x in
  let y : gmap string value := ∅ in
  let y := set_if (truthy (_disk self)) "disk" (str_value (_disk self)) y in
  let y := set_if (truthy (_client_private_key self)) "clientPrivateKey"
             (str_value (_client_private_key self)) y in
  let y := set_if (truthy (_client_public_key self)) "clientPublicKey"
             (str_value (_client_public_key self)) y in
  let y := <["diskAttached" := VBool (_disk_attached self)]> y in
  let y := <["started" := VBool (_started self)]> y in
  <["virtualbox" := VDict y]> x.

(** [d.get(k, None)] read into a string field.  The record's string fields
    hold a string or [None]; any other stored value is reported as
    [IllTyped]. *)
Definition get_str (d : gmap string value) (k : string)
    : exn + option string :=
  match d !! k with
  | None | Some VNone => inr None
  | Some (VStr s) => inr (Some s)
  | Some _ => inl IllTyped
  end.

(** [d.get(k, False)] read into a flag. *)
Definition get_flag (d : gmap string value) (k : string) : exn + bool :=
  match d !! k with
  | None => inr false
  | Some (VBool b) => inr b
  | Some _ => inl IllTyped
  end.

Definition bind_exn {A B} (r : exn + A) (f : A -> exn + B) : exn + B :=
  match r with
  | inl e => inl e
  | inr a => f a
  end.

(** [VirtualBoxState.deserialise].  [y = x.get('virtualbox')] is [None] when
    the key is absent, and [y.get] then raises. *)
Definition deserialise (x : gmap string value) : exn + VirtualBoxState :=
  bind_exn (get_str x "vmId") (fun vm_id =>
  bind_exn (get_str x "privateIpv4") (fun ipv4 =>
  match x !! "virtualbox" with
  | Some (VDict y) =>
      bind_exn (get_str y "disk") (fun disk =>
      bind_exn (get_flag y "diskAttached") (fun disk_attached =>
      bind_exn (get_str y "clientPrivateKey") (fun priv =>
      bind_exn (get_str y "clientPublicKey") (fun pub =>
      bind_exn (get_flag y "started") (fun started =>
      inr {| _vm_id := vm_id; _ipv4 := ipv4; _disk := disk;
             _disk_attached := disk_attached; _started := started;
             _client_private_key := priv;
             _client_public_key := pub |})))))
  | _ => inl AttributeError
  end)).

(** What a field is after a round trip: itself when the test [if self._f:]
    holds, [None] otherwise. *)
Definition kept (f : option string) : option string :=
  if truthy f then f else None.

(** ** The outside world *)

(** The deployment a machine belongs to: the attributes of [self.depl] that
    the backend reads. *)
Record Deployment := {
  uuid : string;
  expr_path : string;
  nix_exprs : list string;
  tempdir : string
}.

(** Every interaction with the outside, with the answer it received. *)
Inductive event :=
| Call (argv : list string) (rc : Z)
    (* [subprocess.call(argv)] and its exit status *)
| CheckOutput (argv : list string) (out : option string)
    (* [subprocess.check_output(argv)]; [None]: [CalledProcessError] *)
| Popen (argv : list string) (lines : list string)
    (* [Popen(argv).communicate()[0].splitlines()] *)
| IsDir (path : string) (b : bool)          (* [os.path.isdir] *)
| CreateKeyPair (priv pub : string)         (* [self._create_key_pair()] *)
| Write (st : VirtualBoxState)              (* [self.write()] *)
| KnownHostsRemove (addr : string)          (* [charon.known_hosts.remove] *)
| Sleep (secs : nat)                        (* [time.sleep] *)
| Log (msg : string)                        (* [self.log] *)
| Warn (msg : string)                       (* [self.warn] *)
| Stderr (text : string).                   (* [sys.stderr.write] *)

(** The answers of the outside world, one script per kind of interaction:
    the [n]-th call of a kind receives the [n]-th answer of its script. *)
Record World := {
  exit_status : nat -> Z;
  output : nat -> option string;
  report : nat -> list string;
  is_dir : nat -> bool;
  key_pair : nat -> string * string;
  home : option string               (* [os.environ['HOME']], if defined *)
}.

(** The object in memory, the record in the state file, and how many
    answers of each script have been used. *)
Record Machine := {
  self : VirtualBoxState;
  stored : VirtualBoxState;
  n_call : nat;
  n_output : nat;
  n_report : nat;
  n_isdir : nat;
  n_keys : nat
}.

Definition with_self (f : VirtualBoxState -> VirtualBoxState) (m : Machine)
    : Machine :=
  {| self := f (self m); stored := stored m; n_call := n_call m;
     n_output := n_output m; n_report := n_report m; n_isdir := n_isdir m;
     n_keys := n_keys m |}.

(** A computation: a result or an exception, the machine it leaves, and
    the events it caused, oldest first. *)
Definition M (A : Type) : Type := Machine -> (exn + A) * Machine * list event.

Definition ret {A} (a : A) : M A := fun m => (inr a, m, []).

Definition raise {A} (e : exn) : M A := fun m => (inl e, m, []).

Definition bind {A B} (c : M A) (f : A -> M B) : M B :=
  fun m =>
    match c m with
    | (inl e, m1, t1) => (inl e, m1, t1)
    | (inr a, m1, t1) =>
        match f a m1 with
        | (r, m2, t2) => (r, m2, t1 ++ t2)
        end
    end.

#[global] Instance M_ret : MRet M := @ret.
#[global] Instance M_bind : MBind M := fun A B f c => bind c f.

Definition emit (e : event) : M unit := fun m => (inr tt, m, [e]).

Definition get_self : M VirtualBoxState := fun m => (inr (self m), m, []).

Definition set_self (f : VirtualBoxState -> VirtualBoxState) : M unit :=
  fun m => (inr tt, with_self f m, []).

(** [if c: body] *)
Definition when (c : bool) (body : M unit) : M unit :=
  if c then body else ret tt.

(** A field placed in an argument vector or concatenated to a string:
    [None] there raises [TypeError]. *)
Definition as_str (f : option string) : M string :=
  match f with
  | Some s => ret s
  | None => raise TypeError
  end.

Definition set_vm_id v (s : VirtualBoxState) :=
  {| _vm_id := v; _ipv4 := _ipv4 s; _disk := _disk s;
     _disk_attached := _disk_attached s; _started := _started s;
     _client_private_key := _client_private_key s;
     _client_public_key := _client_public_key s |}.
Definition set_ipv4 v (s : VirtualBoxState) :=
  {| _vm_id := _vm_id s; _ipv4 := v; _disk := _disk s;
     _disk_attached := _disk_attached s; _started := _started s;
     _client_private_key := _client_private_key s;
     _client_public_key := _client_public_key s |}.
Definition set_disk v (s : VirtualBoxState) :=
  {| _vm_id := _vm_id s; _ipv4 := _ipv4 s; _disk := v;
     _disk_attached := _disk_attached s; _started := _started s;
     _client_private_key := _client_private_key s;
     _client_public_key := _client_public_key s |}.
Definition set_disk_attached v (s : VirtualBoxState) :=
  {| _vm_id := _vm_id s; _ipv4 := _ipv4 s; _disk := _disk s;
     _disk_attached := v; _started := _started s;
     _client_private_key := _client_private_key s;
     _client_public_key := _client_public_key s |}.
Definition set_started v (s : VirtualBoxState) :=
  {| _vm_id := _vm_id s; _ipv4 := _ipv4 s; _disk := _disk s;
     _disk_attached := _disk_attached s; _started := v;
     _client_private_key := _client_private_key s;
     _client_public_key := _client_public_key s |}.
Definition set_keys priv pub (s : VirtualBoxState) :=
  {| _vm_id := _vm_id s; _ipv4 := _ipv4 s; _disk := _disk s;
     _disk_attached := _disk_attached s; _started := _started s;
     _client_private_key := priv;
     _client_public_key := pub |}.

(** Modelled from the spec: [MachineState.write], which the backend inherits
    and the sources do not include.  It persists the current in-memory
    record to durable storage. *)
Definition write : M unit :=
  fun m =>
    (inr tt,
     {| self := self m; stored := self m; n_call := n_call m;
        n_output := n_output m; n_report := n_report m;
        n_isdir := n_isdir m; n_keys := n_keys m |},
     [Write (self m)]).

Definition log (msg : string) : M unit := emit (Log msg).
Definition warn (msg : string) : M unit := emit (Warn msg).
Definition stderr_write (text : string) : M unit := emit (Stderr text).
Definition sleep (secs : nat) : M unit := emit (Sleep secs).
Definition known_hosts_remove (addr : string) : M unit :=
  emit (KnownHostsRemove addr).

Section Backend.

Variable w : World.

(** [subprocess.call(argv)] *)
Definition call (argv : list string) : M Z :=
  fun m =>
    let rc := exit_status w (n_call m) in
    (inr rc,
     {| self := self m; stored := stored m; n_call := S (n_call m);
        n_output := n_output m; n_report := n_report m;
        n_isdir := n_isdir m; n_keys := n_keys m |},
     [Call argv rc]).

(** [res = subprocess.call(argv)] followed by
    [if res != 0: raise Exception(...)]. *)
Definition checked_call (argv : list string) (e : exn) : M unit :=
  rc ← call argv;
  if (rc =? 0)%Z then ret tt else raise e.

(** [subprocess.check_output(argv)] *)
Definition check_output (argv : list string) : M (option string) :=
  fun m =>
    let out := output w (n_output m) in
    (inr out,
     {| self := self m; stored := stored m; n_call := n_call m;
        n_output := S (n_output m); n_report := n_report m;
        n_isdir := n_isdir m; n_keys := n_keys m |},
     [CheckOutput argv out]).

(** [Popen(argv, stdout=PIPE).communicate()[0].splitlines()] *)
Definition popen_lines (argv : list string) : M (list string) :=
  fun m =>
    let lines := report w (n_report m) in
    (inr lines,
     {| self := self m; stored := stored m; n_call := n_call m;
        n_output := n_output m; n_report := S (n_report m);
        n_isdir := n_isdir m; n_keys := n_keys m |},
     [Popen argv lines]).

(** [os.path.isdir(path)] *)
Definition isdir (path : string) : M bool :=
  fun m =>
    let b := is_dir w (n_isdir m) in
    (inr b,
     {| self := self m; stored := stored m; n_call := n_call m;
        n_output := n_output m; n_report := n_report m;
        n_isdir := S (n_isdir m); n_keys := n_keys m |},
     [IsDir path b]).

(** [os.environ['HOME']] *)
Definition environ_home : M string :=
  match home w with
  | Some h => ret h
  | None => raise KeyError
  end.

(** Modelled from the spec: [MachineState._create_key_pair], the
    credential generator, which the sources do not include:
    [generate() -> (privateKey, publicKey)]. *)
Definition _create_key_pair : M (string * string) :=
  fun m =>
    let kp := key_pair w (n_keys m) in
    (inr kp,
     {| self := self m; stored := stored m; n_call := n_call m;
        n_output := n_output m; n_report := n_report m;
        n_isdir := n_isdir m; n_keys := S (n_keys m) |},
     [CreateKeyPair (fst kp) (snd kp)]).

End Backend.

(** ** The operations of [VirtualBoxState] *)

Definition newline : string := String (ascii_of_nat 10) EmptyString.

(** The dictionary [_get_vm_info] builds from the lines of the report:
    [(k, v) = l.split("=", 1)] and [vminfo[k] = v] for each line. *)
Fixpoint parse_vm_info (lines : list string) (vminfo : gmap string string)
    : exn + gmap string string :=
  match lines with
  | [] => inr vminfo
  | l :: rest =>
      match PyStr.split_once PyStr.equals l with
      | Some (k, v) => parse_vm_info rest (<[k := v]> vminfo)
      | None => inl ValueError
      end
  end.

(** What [_get_vm_state] makes of the lines of a report. *)
Definition parse_vm_state (lines : list string) : exn + string :=
  match lines with
  | [] => inl UnableToGetInfo
  | _ =>
      match parse_vm_info lines ∅ with
      | inl e => inl e
      | inr vminfo =>
          match vminfo !! "VMState" with
          | None => inl UnableToGetState
          | Some v => inr (PyStr.remove_char PyStr.dquote v)
          end
      end
  end.

Definition lift_exn {A} (r : exn + A) : M A :=
  match r with
  | inl e => raise e
  | inr a => ret a
  end.

Definition ip_property : string := "/VirtualBox/GuestInfo/Net/1/V4/IP".
Definition key_property : string :=
  "/VirtualBox/GuestInfo/Charon/ClientPublicKey".

Section Operations.

Variable w : World.
Variable depl : Deployment.
Variable name : string.

(** [_get_vm_info]: the exit code of [showvminfo] is ignored. *)
Definition _get_vm_info : M (gmap string string) :=
  s ← get_self;
  vm_id ← as_str (_vm_id s);
  lines ← popen_lines w
    ["VBoxManage"; "showvminfo"; "--machinereadable"; vm_id];
  match lines with
  | [] => raise UnableToGetInfo
  | _ => lift_exn (parse_vm_info lines ∅)
  end.

(** [_get_vm_state] *)
Definition _get_vm_state : M string :=
  vminfo ← _get_vm_info;
  match vminfo !! "VMState" with
  | None => raise UnableToGetState
  | Some v => ret (PyStr.remove_char PyStr.dquote v)
  end.

(** [_start(headless)] *)
Definition _start (headless : bool) : M unit :=
  s ← get_self;
  vm_id ← as_str (_vm_id s);
  checked_call w
    ["VBoxManage"; "guestproperty"; "set"; vm_id; ip_property; EmptyString]
    UnableToClearIP;;
  s ← get_self;
  vm_id ← as_str (_vm_id s);
  pub ← as_str (_client_public_key s);
  checked_call w
    ["VBoxManage"; "guestproperty"; "set"; vm_id; key_property; pub]
    UnableToSetClientKey;;
  s ← get_self;
  vm_id ← as_str (_vm_id s);
  checked_call w
    (["VBoxManage"; "startvm"; vm_id]
       ++ (if headless then ["--type"; "headless"] else []))
    UnableToStart;;
  set_self (set_started true);;
  write.

(** The [while True] loop of [_wait_for_ip]; [fuel] bounds the number of
    times the guest property is read. *)
Fixpoint poll_ip (fuel : nat) : M unit :=
  match fuel with
  | O => raise OutOfFuel
  | S fuel' =>
      s ← get_self;
      vm_id ← as_str (_vm_id s);
      out ← check_output w
        ["VBoxManage"; "guestproperty"; "get"; vm_id; ip_property];
      match out with
      | None => raise UnableToGetIP
      | Some o =>
          let res := PyStr.rstrip o in
          if String.eqb (PyStr.take 7 res) "Value: " then
            set_self (set_ipv4 (Some (PyStr.drop 7 res)));;
            stderr_write (" " +:+ PyStr.drop 7 res +:+ newline)
          else
            sleep 1;;
            stderr_write ".";;
            poll_ip fuel'
      end
  end.

(** [_wait_for_ip] *)
Definition _wait_for_ip (fuel : nat) : M unit :=
  stderr_write ("waiting for IP address of ‘" +:+ name +:+ "’...");;
  poll_ip fuel;;
  s ← get_self;
  addr ← as_str (_ipv4 s);
  known_hosts_remove addr;;
  write.

(** [create], lines 172-182: [if not self._vm_id:] *)
Definition create_vm : M unit :=
  s ← get_self;
  when (negb (truthy (_vm_id s))) (
    log "creating VirtualBox VM...";;
    let vm_id := "charon-" +:+ uuid depl +:+ "-" +:+ name in
    checked_call w
      ["VBoxManage"; "createvm"; "--name"; vm_id; "--ostype"; "Linux";
       "--register"]
      UnableToCreate;;
    set_self (set_vm_id (Some vm_id));;
    write).

(** [create], lines 184-207: [if not self._disk:] *)
Definition create_disk (defn : VirtualBoxDefinition) : M unit :=
  s ← get_self;
  when (negb (truthy (_disk s))) (
    h ← environ_home w;
    id ← as_str (_vm_id s);
    let vm_dir := h +:+ "/VirtualBox VMs/" +:+ id in
    d ← isdir w vm_dir;
    when (negb d) (raise CannotFindDirectory);;
    let disk := vm_dir +:+ "/disk1.vdi" in
    image ←
      (if String.eqb (base_image defn) "drv" return M string then
         out ← check_output w
           ["nix-build"; "-I"; "charon=" +:+ expr_path depl; "--show-trace";
            "<charon/eval-machine-info.nix>";
            "--arg"; "networkExprs";
            "[ " +:+ PyStr.join " " (nix_exprs depl) +:+ " ]";
            "-A";
            "nodes." +:+ name +:+ ".config.deployment.virtualbox.baseImage";
            "-o"; tempdir depl +:+ "/vbox-image-" +:+ name];
         match out with
         | Some o => ret (PyStr.rstrip o)
         | None => raise UnableToBuildBaseImage
         end
       else ret (base_image defn));
    checked_call w ["VBoxManage"; "clonehd"; image; disk] UnableToCopyDisk;;
    set_self (set_disk (Some disk));;
    write).

(** [create], lines 209-223: [if not self._disk_attached:] *)
Definition attach_disk : M unit :=
  s ← get_self;
  when (negb (_disk_attached s)) (
    vm_id ← as_str (_vm_id s);
    checked_call w
      ["VBoxManage"; "storagectl"; vm_id;
       "--name"; "SATA"; "--add"; "sata"; "--sataportcount"; "2";
       "--bootable"; "on"; "--hostiocache"; "on"]
      UnableToCreateController;;
    disk ← as_str (_disk s);
    checked_call w
      ["VBoxManage"; "storageattach"; vm_id;
       "--storagectl"; "SATA"; "--port"; "0"; "--device"; "0";
       "--type"; "hdd"; "--medium"; disk]
      UnableToAttachDisk;;
    set_self (set_disk_attached true);;
    write).

(** [create], lines 225-231: [if check:] *)
Definition check_running (check : bool) : M unit :=
  when check (
    st ← _get_vm_state;
    if String.eqb st "running" then
      set_self (set_started true)
    else
      log "VirtualBox VM went down, restarting...";;
      set_self (set_started false);;
      write).

(** [create], lines 233-234: [if not self._client_private_key:] *)
Definition ensure_key_pair : M unit :=
  s ← get_self;
  when (negb (truthy (_client_private_key s))) (
    kp ← _create_key_pair w;
    set_self (set_keys (Some (fst kp)) (Some (snd kp)))).

(** [create], lines 236-245: [if not self._started:] *)
Definition start_vm (defn : VirtualBoxDefinition) : M unit :=
  s ← get_self;
  when (negb (_started s)) (
    vm_id ← as_str (_vm_id s);
    checked_call w
      ["VBoxManage"; "modifyvm"; vm_id;
       "--memory"; memory_size defn; "--vram"; "10";
       "--nictype1"; "virtio"; "--nictype2"; "virtio";
       "--nic2"; "hostonly"; "--hostonlyadapter2"; "vboxnet0";
       "--nestedpaging"; "off"]
      UnableToModify;;
    _start (headless defn)).

(** [create], lines 247-248: [if not self._ipv4 or check:] *)
Definition discover_ip (check : bool) (fuel : nat) : M unit :=
  s ← get_self;
  when (negb (truthy (_ipv4 s)) || check) (_wait_for_ip fuel).

(** [create(defn, check)] *)
Definition create (defn : VirtualBoxDefinition) (check : bool) (fuel : nat)
    : M unit :=
  create_vm;;
  create_disk defn;;
  attach_disk;;
  check_running check;;
  ensure_key_pair;;
  start_vm defn;;
  discover_ip check fuel.

(** The loop [while self._get_vm_state() not in ['poweroff', 'aborted']]
    of [destroy]; [fuel] bounds the number of times the state is read. *)
Fixpoint wait_off (fuel : nat) : M unit :=
  match fuel with
  | O => raise OutOfFuel
  | S fuel' =>
      st ← _get_vm_state;
      if String.eqb st "poweroff" || String.eqb st "aborted" then ret tt
      else sleep 1;; wait_off fuel'
  end.

(** [destroy]: the exit status of [controlvm poweroff] is not looked at. *)
Definition destroy (fuel : nat) : M unit :=
  log "destroying VirtualBox VM...";;
  st ← _get_vm_state;
  when (String.eqb st "running") (
    s ← get_self;
    vm_id ← as_str (_vm_id s);
    _ ← call w ["VBoxManage"; "controlvm"; vm_id; "poweroff"];
    ret tt);;
  wait_off fuel;;
  sleep 1;;
  s ← get_self;
  vm_id ← as_str (_vm_id s);
  checked_call w ["VBoxManage"; "unregistervm"; "--delete"; vm_id]
    UnableToUnregister.

(** [start] *)
Definition start (fuel : nat) : M unit :=
  st ← _get_vm_state;
  if String.eqb st "running" then ret tt
  else
    log "restarting...";;
    s ← get_self;
    let prev_ipv4 := _ipv4 s in
    _start false;;
    _wait_for_ip fuel;;
    s ← get_self;
    when (negb (bool_decide (prev_ipv4 = _ipv4 s))) (
      warn "IP address has changed, you may need to run ‘charon deploy’").

End Operations.

(** ** Further operations of [VirtualBoxState] *)

(** [get_ssh_name]: [assert self._ipv4] and then [return self._ipv4];
    [None] stands for the failed assertion. *)
Definition get_ssh_name (s : VirtualBoxState) : option string :=
  if truthy (_ipv4 s) then _ipv4 s else None.

Section Stop.

Variable w : World.

(** Modelled from the spec: [MachineState.run_command], which the backend
    inherits and the sources do not include: the graceful in-guest shutdown
    request, handled by an external collaborator.  It is a parameter. *)
Variable run_command : string -> M unit.

(** The loop [while self._get_vm_state() not in ['poweroff']] of [stop];
    [fuel] bounds the number of times the state is read. *)
Fixpoint wait_poweroff (fuel : nat) : M unit :=
  match fuel with
  | O => raise OutOfFuel
  | S fuel' =>
      st ← _get_vm_state w;
      if String.eqb st "poweroff" then ret tt
      else sleep 1;; wait_poweroff fuel'
  end.

(** [stop] *)
Definition stop (fuel : nat) : M unit :=
  st ← _get_vm_state w;
  if negb (String.eqb st "running") then ret tt
  else
    log "shutting down...";;
    run_command "poweroff &";;
    wait_poweroff fuel;;
    set_self (set_started false);;
    write.

End Stop.

(** * Vocabulary of the properties *)

(** ** The persisted form *)

(** The record a round trip yields. *)
Definition round_trip (x : VirtualBoxState) : VirtualBoxState :=
  {| _vm_id := kept (_vm_id x); _ipv4 := kept (_ipv4 x);
     _disk := kept (_disk x);
     _disk_attached := _disk_attached x; _started := _started x;
     _client_private_key := kept (_client_private_key x);
     _client_public_key := kept (_client_public_key x) |}.

(** No string field holds the empty string. *)
Definition no_empty_field (x : VirtualBoxState) : Prop :=
  _vm_id x ≠ Some EmptyString ∧ _ipv4 x ≠ Some EmptyString ∧
  _disk x ≠ Some EmptyString ∧
  _client_private_key x ≠ Some EmptyString ∧
  _client_public_key x ≠ Some EmptyString.

(** The nested group of a serialised record. *)
Definition group (d : gmap string value) : gmap string value :=
  match d !! "virtualbox" with
  | Some (VDict y) => y
  | _ => ∅
  end.

(** A field after the round trip, against the field before it. *)
Definition restored (before after : option string) : Prop :=
  (truthy before = true -> after = before) /\
  (truthy before = false -> after = None).

Definition sample_state : VirtualBoxState :=
  {| _vm_id := Some "charon-u1-m1"; _ipv4 := None;
     _disk := Some "/home/alice/VirtualBox VMs/charon-u1-m1/disk1.vdi";
     _disk_attached := true; _started := false;
     _client_private_key := Some "PRIV"; _client_public_key := None |}.

(** ** Runs and their traces *)

(** The machine a process starts with: the object holds what the state file
    holds, and no answer of the world has been used. *)
Definition boot (s : VirtualBoxState) : Machine :=
  {| self := s; stored := s; n_call := 0; n_output := 0; n_report := 0;
     n_isdir := 0; n_keys := 0 |}.

Definition result_of {A} (run : (exn + A) * Machine * list event) : exn + A :=
  fst (fst run).
Definition machine_of {A} (run : (exn + A) * Machine * list event) : Machine :=
  snd (fst run).
Definition trace_of {A} (run : (exn + A) * Machine * list event) : list event :=
  snd run.

Definition failed {A} (r : exn + A) : Prop :=
  match r with
  | inl _ => True
  | inr _ => False
  end.

(** The backend operation a [VBoxManage] invocation stands for: the
    subcommand, its second word. *)
Definition subcommand (sub : string) (e : event) : bool :=
  match e with
  | Call (_ :: s :: _) _ => String.eqb s sub
  | _ => false
  end.

Definition createResource := subcommand "createvm".
Definition cloneDisk := subcommand "clonehd".
Definition configureResource := subcommand "modifyvm".
Definition startResource := subcommand "startvm".
Definition setGuestFact := subcommand "guestproperty".
Definition powerOff := subcommand "controlvm".
Definition deleteResource := subcommand "unregistervm".

(** One-shot commands: everything run through [subprocess.call]. *)
Definition mutating (e : event) : bool :=
  match e with
  | Call _ _ => true
  | _ => false
  end.

(** A one-shot command that returned a non-zero exit status. *)
Definition failed_call (e : event) : bool :=
  match e with
  | Call _ rc => negb (rc =? 0)%Z
  | _ => false
  end.

Definition invalidation (e : event) : bool :=
  match e with
  | KnownHostsRemove _ => true
  | _ => false
  end.

(** The record the last [write()] of a trace committed; [s0] when the trace
    has none. *)
Fixpoint last_write (tr : list event) (s0 : VirtualBoxState)
    : VirtualBoxState :=
  match tr with
  | [] => s0
  | Write s :: rest => last_write rest s
  | _ :: rest => last_write rest s0
  end.

(** Every event a computation causes satisfies [P], from any machine. *)
Definition emits {A} (P : event -> Prop) (c : M A) : Prop :=
  forall m, Forall P (trace_of (c m)).

(** A failed one-shot command is the last event of the run, and the run
    ends in an exception. *)
Definition aborts_at_failure {A} (run : (exn + A) * Machine * list event)
    : Prop :=
  forall pre e post,
    trace_of run = pre ++ e :: post -> failed_call e = true ->
    post = [] /\ failed (result_of run).

Definition fatal {A} (c : M A) : Prop :=
  forall m, aborts_at_failure (c m).

(** The state file holds what the last [write()] of the run committed. *)
Definition committed {A} (c : M A) : Prop :=
  forall m, stored (machine_of (c m)) = last_write (trace_of (c m)) (stored m).

(** A computation without events that leaves the state file alone. *)
Definition silent {A} (c : M A) : Prop :=
  forall m, trace_of (c m) = [] /\ stored (machine_of (c m)) = stored m.

(** All provisioning fields are set. *)
Definition provisioned (s : VirtualBoxState) : Prop :=
  truthy (_vm_id s) = true /\ truthy (_disk s) = true /\
  _disk_attached s = true /\
  truthy (_client_private_key s) = true /\
  truthy (_client_public_key s) = true /\
  _started s = true /\ truthy (_ipv4 s) = true.

(** Neither [createvm] nor [clonehd]. *)
Definition not_create_or_clone (e : event) : Prop :=
  createResource e = false /\ cloneDisk e = false.

(** Neither [modifyvm], nor [guestproperty], nor [startvm]. *)
Definition not_starting (e : event) : Prop :=
  configureResource e = false /\ setGuestFact e = false /\
  startResource e = false.

(** Not an invalidation of a trust record. *)
Definition not_invalidating (e : event) : Prop := invalidation e = false.

(** ** Argument vectors *)

Definition createvm_argv (vm_id : string) : list string :=
  ["VBoxManage"; "createvm"; "--name"; vm_id; "--ostype"; "Linux";
   "--register"].
Definition storagectl_argv (vm_id : string) : list string :=
  ["VBoxManage"; "storagectl"; vm_id;
   "--name"; "SATA"; "--add"; "sata"; "--sataportcount"; "2";
   "--bootable"; "on"; "--hostiocache"; "on"].
Definition storageattach_argv (vm_id disk : string) : list string :=
  ["VBoxManage"; "storageattach"; vm_id;
   "--storagectl"; "SATA"; "--port"; "0"; "--device"; "0";
   "--type"; "hdd"; "--medium"; disk].
Definition modifyvm_argv (vm_id memory : string) : list string :=
  ["VBoxManage"; "modifyvm"; vm_id;
   "--memory"; memory; "--vram"; "10";
   "--nictype1"; "virtio"; "--nictype2"; "virtio";
   "--nic2"; "hostonly"; "--hostonlyadapter2"; "vboxnet0";
   "--nestedpaging"; "off"].
Definition set_property_argv (vm_id key val : string) : list string :=
  ["VBoxManage"; "guestproperty"; "set"; vm_id; key; val].
Definition get_property_argv (vm_id key : string) : list string :=
  ["VBoxManage"; "guestproperty"; "get"; vm_id; key].
Definition startvm_argv (vm_id : string) (headless : bool) : list string :=
  if headless then ["VBoxManage"; "startvm"; vm_id; "--type"; "headless"]
  else ["VBoxManage"; "startvm"; vm_id].
Definition showvminfo_argv (vm_id : string) : list string :=
  ["VBoxManage"; "showvminfo"; "--machinereadable"; vm_id].
Definition poweroff_argv (vm_id : string) : list string :=
  ["VBoxManage"; "controlvm"; vm_id; "poweroff"].
Definition unregistervm_argv (vm_id : string) : list string :=
  ["VBoxManage"; "unregistervm"; "--delete"; vm_id].

(** ** Expected traces *)

(** The address a line [Value: a] of [guestproperty get] publishes. *)
Definition address_of (out : string) : string :=
  PyStr.drop 7 (PyStr.rstrip out).

(** Whether the output of [guestproperty get] publishes a value. *)
Definition published (out : string) : bool :=
  String.eqb (PyStr.take 7 (PyStr.rstrip out)) "Value: ".

(** The events of the polls that found no address yet, one triple per
    output read. *)
Definition still_waiting (vm_id : string) (outs : list string) : list event :=
  flat_map
    (fun o =>
       [CheckOutput (get_property_argv vm_id ip_property) (Some o);
        Sleep 1; Stderr "."])
    outs.

(** The events of a completed [_wait_for_ip]: the polls without an
    address, the poll that reads [out], the invalidation, and the write of
    [st]. *)
Definition discovery_events (name vm_id : string) (outs : list string)
    (out : string) (st : VirtualBoxState) : list event :=
  Stderr ("waiting for IP address of ‘" +:+ name +:+ "’...")
    :: still_waiting vm_id outs
    ++ [CheckOutput (get_property_argv vm_id ip_property) (Some out);
        Stderr (" " +:+ address_of out +:+ newline);
        KnownHostsRemove (address_of out);
        Write st].

(** The events of a completed [_start]. *)
Definition start_events (vm_id pub : string) (headless : bool)
    (st : VirtualBoxState) : list event :=
  [Call (set_property_argv vm_id ip_property EmptyString) 0;
   Call (set_property_argv vm_id key_property pub) 0;
   Call (startvm_argv vm_id headless) 0;
   Write st].

(** The events of a state query. *)
Definition query_event (w : World) (vm_id : string) (n : nat) : event :=
  Popen (showvminfo_argv vm_id) (report w n).

(** One event comes before another in a trace: every occurrence of the
    first kind is at a smaller position than every occurrence of the second
    kind. *)
Definition precedes (P Q : event -> bool) (tr : list event) : Prop :=
  forall i j e1 e2,
    tr !! i = Some e1 -> P e1 = true ->
    tr !! j = Some e2 -> Q e2 = true ->
    (i < j)%nat.

(** What the steps before the consistency check leave alone. *)
Definition same_power (m m' : Machine) : Prop :=
  n_report m' = n_report m /\ _started (self m') = _started (self m).

Definition keeps {A} (R : Machine -> Machine -> Prop) (c : M A) : Prop :=
  forall m, R m (machine_of (c m)).

(** [startvm] without [--type headless]. *)
Definition plain_start (e : event) : Prop :=
  startResource e = true ->
  exists vm_id rc, e = Call ["VBoxManage"; "startvm"; vm_id] rc.

(** The trust record a run invalidates is the one of the address the state
    file held when the run began. *)
Definition invalidates_previous (m : Machine) (tr : list event) : Prop :=
  forall a, In (KnownHostsRemove a) tr -> _ipv4 (stored m) = Some a.

(** ** Sample deployments *)

Definition quoted (s : string) : string :=
  String PyStr.dquote (s +:+ String PyStr.dquote EmptyString).

(** A [showvminfo] report of a machine in state [st]. *)
Definition state_report (st : string) : list string :=
  ["name=" +:+ quoted "charon-u1-m1"; "VMState=" +:+ quoted st].

(** A world that answers from scripts: the exit statuses [codes] and then
    0, the machine states [states] and then [poweroff], the outputs [outs]
    and then the published address 192.168.56.102. *)
Definition scripted (codes : list Z) (states : list string)
    (outs : list string) : World :=
  {| exit_status := fun n => nth n codes 0%Z;
     output := fun n =>
       nth n (map Some outs) (Some ("Value: 192.168.56.102" +:+ newline));
     report := fun n => state_report (nth n states "poweroff");
     is_dir := fun _ => true;
     key_pair := fun _ => ("PRIV", "PUB");
     home := Some "/home/alice" |}.

Definition sample_depl : Deployment :=
  {| uuid := "u1"; expr_path := "/etc/charon"; nix_exprs := ["net.nix"];
     tempdir := "/tmp/charon" |}.

Definition sample_defn : VirtualBoxDefinition :=
  {| base_image := "/images/base.vdi"; memory_size := "512";
     headless := true |}.

(** A fully provisioned record. *)
Definition sample_provisioned : VirtualBoxState :=
  {| _vm_id := Some "charon-u1-m1"; _ipv4 := Some "192.168.56.101";
     _disk := Some "/home/alice/VirtualBox VMs/charon-u1-m1/disk1.vdi";
     _disk_attached := true; _started := true;
     _client_private_key := Some "PRIV"; _client_public_key := Some "PUB" |}.

(** A record whose machine and disk exist, the disk not yet attached. *)
Definition sample_detached : VirtualBoxState :=
  {| _vm_id := Some "charon-u1-m1"; _ipv4 := None;
     _disk := Some "/home/alice/VirtualBox VMs/charon-u1-m1/disk1.vdi";
     _disk_attached := false; _started := false;
     _client_private_key := None; _client_public_key := None |}.

(** Every command succeeds; the address is published at the second poll. *)
Definition calm : World := scripted [] [] ["No value set!"].

(** [clonehd], the second command, fails. *)
Definition clone_fails : World := scripted [0; 1]%Z [] [].

(** [modifyvm], the fifth command, fails. *)
Definition modify_fails : World := scripted [0; 0; 0; 0; 1]%Z [] [].

(** The machine is reported powered off, then running. *)
Definition found_down : World := scripted [] ["poweroff"] [].

(** The machine is reported running. *)
Definition found_running : World := scripted [] ["running"] [].

(** The machine is reported running, then stopping, then powered off. *)
Definition shutting_down : World :=
  scripted [] ["running"; "stopping"; "poweroff"] [].

(** A first [create] on a fresh record, every command succeeding. *)
Definition first_create : (exn + unit) * Machine * list event :=
  create calm sample_depl "m1" sample_defn false 5 (boot init_state).

(** ** Report lines *)

(** The text has no [=]. *)
Definition no_equals (s : string) : Prop :=
  ~ In PyStr.equals (list_ascii_of_string s).

(** A report line [k=v], with [k] the text before the first [=]. *)
Definition line (k v : string) : string := k +:+ String PyStr.equals v.

(** Every line of a report has a key, and the key is none of [k]. *)
Definition all_keyed_but (k : string) (lines : list string) : Prop :=
  forall l, In l lines ->
    exists k' v, l = line k' v /\ no_equals k' /\ k' <> k.

(** ** Strings *)

(** The last character of the text is one that [rstrip] removes. *)
Fixpoint ends_with_space (s : string) : bool :=
  match s with
  | EmptyString => false
  | String c EmptyString => PyStr.is_space c
  | String _ s' => ends_with_space s'
  end.

(** Neither a write of the record nor an invalidation of a trust record. *)
Definition quiet (e : event) : Prop :=
  match e with
  | Write _ | KnownHostsRemove _ => False
  | _ => True
  end.

(** ** Kinds of events *)

(** Neither [controlvm] nor [unregistervm]. *)
Definition not_destroying (e : event) : Prop :=
  powerOff e = false /\ deleteResource e = false.

(** If a one-shot command, then [guestproperty] or [startvm]. *)
Definition starting_only (e : event) : Prop :=
  mutating e = true -> setGuestFact e = true \/ startResource e = true.

(** Not a write of the record. *)
Definition not_writing (e : event) : Prop :=
  match e with
  | Write _ => False
  | _ => True
  end.

(** The record in memory and the record in the state file are those of
    [m]. *)
Definition same_record (m m' : Machine) : Prop :=
  self m' = self m /\ stored m' = stored m.

(** Not a warning. *)
Definition not_warning (e : event) : Prop :=
  match e with
  | Warn _ => False
  | _ => True
  end.

(** The machine after one more report has been read. *)
Definition after_query (m : Machine) : Machine :=
  {| self := self m; stored := stored m; n_call := n_call m;
     n_output := n_output m; n_report := S (n_report m);
     n_isdir := n_isdir m; n_keys := n_keys m |}.

(** The warning of [start]. *)
Definition address_changed : event :=
  Warn "IP address has changed, you may need to run ‘charon deploy’".

(** A world in which the machine is reported [aborted] for ever. *)
Definition stays_aborted : World :=
  {| exit_status := fun _ => 0%Z;
     output := fun _ => None;
     report := fun _ => state_report "aborted";
     is_dir := fun _ => true;
     key_pair := fun _ => ("PRIV", "PUB");
     home := Some "/home/alice" |}.

(** A world in which the directory of the machine does not exist. *)
Definition no_directory : World :=
  {| exit_status := fun _ => 0%Z;
     output := fun _ => None;
     report := fun _ => state_report "poweroff";
     is_dir := fun _ => false;
     key_pair := fun _ => ("PRIV", "PUB");
     home := Some "/home/alice" |}.

(** ** The field of a step *)

(** [attachStorage]: the creation of the controller and the attachment of
    the disk. *)
Definition attachStorage (e : event) : bool :=
  subcommand "storagectl" e || subcommand "storageattach" e.

(** Whether a record holds the field that [create] sets once the step of
    the one-shot command [e] is complete: [_vm_id] for [createvm], [_disk]
    for [clonehd], [_disk_attached] for [storagectl] and [storageattach],
    [_started] for [modifyvm], [guestproperty set] and [startvm]. *)
Definition step_done (e : event) (s : VirtualBoxState) : bool :=
  if createResource e then truthy (_vm_id s)
  else if cloneDisk e then truthy (_disk s)
  else if attachStorage e then _disk_attached s
  else if configureResource e || setGuestFact e || startResource e
  then _started s
  else false.

(** The state file is not ahead of the object in memory on the field of
    the step of [e]: from [m] to [m'], either the state file is untouched
    and the field, unset in memory at the end, was unset at the beginning;
    or the field, unset in memory at the end, is unset in the state file. *)
Definition settled (e : event) (m m' : Machine) : Prop :=
  (stored m' = stored m /\
   (step_done e (self m') = false -> step_done e (self m) = false)) \/
  (step_done e (self m') = false -> step_done e (stored m') = false).

(** When a one-shot command of the computation fails, the field of its
    step is unset in the object in memory at the end of the run. *)
Definition fails_unfinished {A} (c : M A) : Prop :=
  forall m pre e post,
    trace_of (c m) = pre ++ e :: post -> failed_call e = true ->
    step_done e (self (machine_of (c m))) = false.

(** The state file and the four fields that guard the steps of [create]
    are those of [m]. *)
Definition same_progress (m m' : Machine) : Prop :=
  stored m' = stored m /\
  _vm_id (self m') = _vm_id (self m) /\
  _disk (self m') = _disk (self m) /\
  _disk_attached (self m') = _disk_attached (self m) /\
  _started (self m') = _started (self m).

(** No failed one-shot command. *)
Definition not_failing (e : event) : Prop := failed_call e = false.

(** ** The commands of the start step *)

(** The events of a sequence of one-shot commands each of which is issued
    only once the one before it has succeeded: the commands up to and
    including the first that fails. *)
Fixpoint until_failure (calls : list event) : list event :=
  match calls with
  | [] => []
  | e :: rest => e :: (if failed_call e then [] else until_failure rest)
  end.

(** No command of the sequence fails. *)
Definition all_succeed (calls : list event) : bool :=
  forallb (fun e => negb (failed_call e)) calls.

(** The four commands of the start step of [create], in the order of the
    code: [modifyvm] (line 237), then the three of [_start] (lines 134, 138
    and 142); their exit statuses are those the world gives from its
    [n]-th command on. *)
Definition start_step_calls (w : World) (defn : VirtualBoxDefinition)
    (vm_id pub : string) (n : nat) : list event :=
  [Call (modifyvm_argv vm_id (memory_size defn)) (exit_status w n);
   Call (set_property_argv vm_id ip_property EmptyString)
        (exit_status w (S n));
   Call (set_property_argv vm_id key_property pub)
        (exit_status w (S (S n)));
   Call (startvm_argv vm_id (headless defn))
        (exit_status w (S (S (S n))))].

(** The machine [m] once the start step is complete: [up] is the record
    in memory and in the state file, and four more commands have run. *)
Definition started_machine (m : Machine) (up : VirtualBoxState) : Machine :=
  {| self := up; stored := up; n_call := S (S (S (S (n_call m))));
     n_output := n_output m; n_report := n_report m;
     n_isdir := n_isdir m; n_keys := n_keys m |}.

(** The next outputs of [guestproperty get] are [outs], none of which
    publishes a value, and then [out], which does. *)
Definition publishes_after (w : World) (n : nat) (outs : list string)
    (out : string) : Prop :=
  (forall i o, outs !! i = Some o ->
     output w (n + i) = Some o /\ published o = false) /\
  output w (n + length outs) = Some out /\
  published out = true.

(** ** The completion of the discovery *)

(** The argument vector of a [guestproperty get]. *)
Definition reads_guest_fact (argv : list string) : bool :=
  match argv with
  | _ :: sub :: verb :: _ =>
      String.eqb sub "guestproperty" && String.eqb verb "get"
  | _ => false
  end.

(** The address with which the discovery completes at an event: the event
    is a [guestproperty get] whose output is a line [Value: a]. *)
Definition discovered (e : event) : option string :=
  match e with
  | CheckOutput argv out =>
      if reads_guest_fact argv then
        match out with
        | Some o => if published o then Some (address_of o) else None
        | None => None
        end
      else None
  | _ => None
  end.

(** Not the completion of a discovery. *)
Definition not_discovering (e : event) : Prop := discovered e = None.

(** ** The fields of the later steps *)

(** The step of [create] a one-shot command belongs to, in the order of
    the code: 1 the machine, 2 the disk, 3 the attachment, 4 the
    consistency check, 5 the key pair, 6 the start, 7 the discovery. *)
Definition stage (e : event) : nat :=
  if createResource e then 1
  else if cloneDisk e then 2
  else if attachStorage e then 3
  else if configureResource e || setGuestFact e || startResource e then 6
  else 7.

(** The fields that the steps after step [i] set are the same in [s] as
    in [s0]: the disk after step 1, the attachment after step 2, the start
    flag after step 3, the keys after step 4, the address after step 6. *)
Definition later_fields (i : nat) (s0 s : VirtualBoxState) : Prop :=
  (i < 2 -> _disk s = _disk s0) /\
  (i < 3 -> _disk_attached s = _disk_attached s0) /\
  (i < 4 -> _started s = _started s0) /\
  (i < 5 ->
   _client_private_key s = _client_private_key s0 /\
   _client_public_key s = _client_public_key s0) /\
  (i < 7 -> _ipv4 s = _ipv4 s0).

(** Neither the object in memory nor the state file is ahead of step [i]:
    the fields of the later steps are those the object in memory had at
    [m0], in memory and, unless it is untouched, in the state file. *)
Definition not_ahead (i : nat) (m0 m : Machine) : Prop :=
  later_fields i (self m0) (self m) /\
  (stored m = stored m0 \/ later_fields i (self m0) (stored m)).

(** What step [i] may do: it leaves the fields of the later steps alone in
    memory, and leaves the state file alone or writes the object. *)
Definition framed (i : nat) (m m' : Machine) : Prop :=
  later_fields i (self m) (self m') /\
  (stored m' = stored m \/ stored m' = self m').

(** The one-shot commands of the computation that fail belong to step
    [i]. *)
Definition staged (i : nat) {A} (c : M A) : Prop :=
  forall m pre e post,
    trace_of (c m) = pre ++ e :: post -> failed_call e = true ->
    stage e = i.

(** The rest of [create] after step [i]: when one of its one-shot commands
    fails, nothing is ahead of the step of that command. *)
Definition stays_behind (i : nat) {A} (c : M A) : Prop :=
  forall m0 m pre e post,
    not_ahead i m0 m ->
    trace_of (c m) = pre ++ e :: post -> failed_call e = true ->
    not_ahead (stage e) m0 (machine_of (c m)).

(** * Properties *)

(** ** The persisted form *)

Lemma kept_id (f : option string) : f ≠ Some EmptyString -> kept f = f.
Proof.
  destruct f as [[|c s]|]; unfold kept; simpl; congruence.
Qed.

Lemma get_str_set_if_eq c k f (d : gmap string value) :
  c = truthy f -> d !! k = None ->
  get_str (set_if c k (str_value f) d) k = inr (kept f).
Proof.
  intros -> Hd. unfold get_str, set_if, kept.
  destruct (truthy f) eqn:Ht.
  - rewrite lookup_insert_eq. destruct f; simpl in *; [done | discriminate].
  - by rewrite Hd.
Qed.

Lemma lookup_set_if_ne c k k' v (d : gmap string value) :
  k ≠ k' -> set_if c k v d !! k' = d !! k'.
Proof.
  intros Hne. unfold set_if. destruct c; [by rewrite lookup_insert_ne | done].
Qed.

Lemma get_str_ne_insert k k' v (d : gmap string value) :
  k ≠ k' -> get_str (<[k := v]> d) k' = get_str d k'.
Proof. intros Hne. unfold get_str. by rewrite lookup_insert_ne. Qed.

Lemma get_str_ne_set_if c k k' v (d : gmap string value) :
  k ≠ k' -> get_str (set_if c k v d) k' = get_str d k'.
Proof. intros Hne. unfold get_str. by rewrite lookup_set_if_ne. Qed.

Lemma get_flag_ne_insert k k' v (d : gmap string value) :
  k ≠ k' -> get_flag (<[k := v]> d) k' = get_flag d k'.
Proof. intros Hne. unfold get_flag. by rewrite lookup_insert_ne. Qed.

Lemma get_flag_insert_eq k b (d : gmap string value) :
  get_flag (<[k := VBool b]> d) k = inr b.
Proof. unfold get_flag. by rewrite lookup_insert_eq. Qed.

Lemma deserialise_serialise (base : gmap string value) (x : VirtualBoxState) :
  base !! "vmId" = None -> base !! "privateIpv4" = None ->
  deserialise (serialise base x) = inr (round_trip x).
Proof.
  intros Hv Hi. unfold deserialise, serialise. cbv zeta.
  repeat first
    [ rewrite get_str_ne_insert by done
    | rewrite get_str_ne_set_if by done
    | rewrite get_flag_ne_insert by done
    | rewrite get_flag_insert_eq
    | rewrite get_str_set_if_eq by (by rewrite ?lookup_set_if_ne)
    | rewrite lookup_insert_eq
    | progress cbn [bind_exn] ].
  reflexivity.
Qed.

Lemma bind_exn_inr {A B} (r : exn + A) (f : A -> exn + B) b :
  bind_exn r f = inr b -> exists a, r = inr a /\ f a = inr b.
Proof. destruct r as [e|a]; simpl; [discriminate | eauto]. Qed.

Lemma deserialise_inr (d : gmap string value) (s : VirtualBoxState) :
  deserialise d = inr s ->
  exists y, d !! "virtualbox" = Some (VDict y) /\
    get_str d "vmId" = inr (_vm_id s) /\
    get_str d "privateIpv4" = inr (_ipv4 s) /\
    get_str y "disk" = inr (_disk s) /\
    get_flag y "diskAttached" = inr (_disk_attached s) /\
    get_str y "clientPrivateKey" = inr (_client_private_key s) /\
    get_str y "clientPublicKey" = inr (_client_public_key s) /\
    get_flag y "started" = inr (_started s).
Proof.
  unfold deserialise. intros H.
  apply bind_exn_inr in H as (vm_id & Hvm & H).
  apply bind_exn_inr in H as (ipv4 & Hip & H).
  destruct (d !! "virtualbox") as [[| | |y]|] eqn:Hy; try discriminate.
  apply bind_exn_inr in H as (disk & Hdisk & H).
  apply bind_exn_inr in H as (att & Hatt & H).
  apply bind_exn_inr in H as (priv & Hpriv & H).
  apply bind_exn_inr in H as (pub & Hpub & H).
  apply bind_exn_inr in H as (st & Hst & H).
  injection H as <-. exists y. simpl. tauto.
Qed.

Lemma get_str_absent (d : gmap string value) k f :
  get_str d k = inr f -> d !! k = None -> f = None.
Proof. unfold get_str. intros H Hk. rewrite Hk in H. congruence. Qed.

Lemma get_flag_absent (d : gmap string value) k b :
  get_flag d k = inr b -> d !! k = None -> b = false.
Proof. unfold get_flag. intros H Hk. rewrite Hk in H. congruence. Qed.

Lemma lookup_set_if_unset k f (d : gmap string value) :
  truthy f = false -> set_if (truthy f) k (str_value f) d !! k = d !! k.
Proof. intros ->. reflexivity. Qed.

Lemma group_serialise base x :
  group (serialise base x)
  = <["started" := VBool (_started x)]>
      (<["diskAttached" := VBool (_disk_attached x)]>
         (set_if (truthy (_client_public_key x)) "clientPublicKey"
            (str_value (_client_public_key x))
            (set_if (truthy (_client_private_key x)) "clientPrivateKey"
               (str_value (_client_private_key x))
               (set_if (truthy (_disk x)) "disk" (str_value (_disk x)) ∅)))).
Proof. unfold group, serialise. cbv zeta. by rewrite lookup_insert_eq. Qed.

Lemma restored_kept f : restored f (kept f).
Proof. unfold restored, kept. destruct (truthy f); split; congruence. Qed.

(** C4 (round-trip persistence).  [base] is what the inherited
    [MachineState.serialise] contributes; it does not use the keys of this
    backend.  A string field counts as set when the test [if self._f:] of
    [serialise] holds for it.  Then: (1) [deserialise] after [serialise]
    succeeds, returns every set field unchanged, turns every other string
    field into [None], and returns both flags unchanged; (2) when no string
    field holds the empty string the record is returned exactly; (3) an
    unset string field has no key in the serialised mapping, neither at the
    top level nor in the nested group, and the nested group always carries
    the two flags; (4) for any mapping that deserialises, a string field
    whose key is absent is [None] and a flag whose key is absent is
    [false]. *)
Theorem round_trip_persistence
    (base : gmap string value) (x : VirtualBoxState)
    (Hvm : base !! "vmId" = None) (Hip : base !! "privateIpv4" = None) :
  (exists x', deserialise (serialise base x) = inr x' /\
     restored (_vm_id x) (_vm_id x') /\
     restored (_ipv4 x) (_ipv4 x') /\
     restored (_disk x) (_disk x') /\
     restored (_client_private_key x) (_client_private_key x') /\
     restored (_client_public_key x) (_client_public_key x') /\
     _disk_attached x' = _disk_attached x /\
     _started x' = _started x) /\
  (no_empty_field x -> deserialise (serialise base x) = inr x) /\
  ((truthy (_vm_id x) = false -> serialise base x !! "vmId" = None) /\
   (truthy (_ipv4 x) = false -> serialise base x !! "privateIpv4" = None) /\
   (truthy (_disk x) = false ->
      group (serialise base x) !! "disk" = None) /\
   (truthy (_client_private_key x) = false ->
      group (serialise base x) !! "clientPrivateKey" = None) /\
   (truthy (_client_public_key x) = false ->
      group (serialise base x) !! "clientPublicKey" = None) /\
   group (serialise base x) !! "diskAttached"
     = Some (VBool (_disk_attached x)) /\
   group (serialise base x) !! "started" = Some (VBool (_started x))) /\
  (forall (d : gmap string value) (s : VirtualBoxState),
     deserialise d = inr s ->
     (d !! "vmId" = None -> _vm_id s = None) /\
     (d !! "privateIpv4" = None -> _ipv4 s = None) /\
     (group d !! "disk" = None -> _disk s = None) /\
     (group d !! "clientPrivateKey" = None ->
        _client_private_key s = None) /\
     (group d !! "clientPublicKey" = None ->
        _client_public_key s = None) /\
     (group d !! "diskAttached" = None -> _disk_attached s = false) /\
     (group d !! "started" = None -> _started s = false)).
Proof.
  split; [|split; [|split]].
  - exists (round_trip x). split; [by apply deserialise_serialise|].
    simpl. repeat split; try apply restored_kept.
  - intros (H1 & H2 & H3 & H4 & H5).
    rewrite deserialise_serialise by done. unfold round_trip.
    rewrite !kept_id by done. by destruct x.
  - rewrite group_serialise. unfold serialise. cbv zeta.
    repeat split; try intros Hf;
      repeat first
        [ rewrite lookup_insert_eq
        | rewrite lookup_insert_ne by done
        | rewrite lookup_set_if_unset by done
        | rewrite lookup_set_if_ne by done ];
      done.
  - intros d s Hd.
    apply deserialise_inr in Hd as (y & Hy & Hd).
    unfold group. rewrite Hy.
    destruct Hd as (G1 & G2 & G3 & G4 & G5 & G6 & G7).
    repeat split; eauto using get_str_absent, get_flag_absent.
Qed.

Lemma round_trip_persistence_witness :
  (∅ : gmap string value) !! "vmId" = None /\
  (∅ : gmap string value) !! "privateIpv4" = None /\
  deserialise (serialise ∅ sample_state) = inr sample_state.
Proof.
  assert (Hvm : (∅ : gmap string value) !! "vmId" = None) by reflexivity.
  assert (Hip : (∅ : gmap string value) !! "privateIpv4" = None)
    by reflexivity.
  split; [exact Hvm | split; [exact Hip |]].
  apply (round_trip_persistence ∅ sample_state Hvm Hip).
  unfold no_empty_field, sample_state; simpl.
  repeat split; discriminate.
Defined.

(** ** Reasoning about computations *)

Lemma split_at_event {E} (pre : list E) e post t1 t2 :
  pre ++ e :: post = t1 ++ t2 ->
  (exists post1, t1 = pre ++ e :: post1 /\ post = post1 ++ t2) \/
  (exists pre2, pre = t1 ++ pre2 /\ t2 = pre2 ++ e :: post).
Proof.
  revert t1. induction pre as [|x pre IH]; intros [|y t1] H; simpl in *.
  - right. by exists [].
  - injection H as <- ->. left. by exists t1.
  - right. by exists (x :: pre).
  - injection H as <- H. destruct (IH _ H) as [(p & -> & ->)|(p & -> & ->)].
    + left. by exists p.
    + right. by exists p.
Qed.

Lemma last_write_app t1 t2 s0 :
  last_write (t1 ++ t2) s0 = last_write t2 (last_write t1 s0).
Proof.
  revert s0. induction t1 as [|e t1 IH]; intros s0; [done|].
  destruct e; simpl; apply IH.
Qed.

Section Computations.

Context {A B : Type}.

Lemma bind_run (c : M A) (f : A -> M B) (m : Machine) :
  mbind f c m =
    match c m with
    | (inl e, m1, t1) => (inl e, m1, t1)
    | (inr a, m1, t1) =>
        match f a m1 with
        | (r, m2, t2) => (r, m2, t1 ++ t2)
        end
    end.
Proof. reflexivity. Qed.

Lemma bind_pure (c : M A) (f : A -> M B) m a :
  c m = (inr a, m, []) -> mbind f c m = f a m.
Proof.
  intros H. rewrite bind_run, H. by destruct (f a m) as [[r m2] t2].
Qed.

Lemma bind_err (c : M A) (f : A -> M B) m e m1 t1 :
  c m = (inl e, m1, t1) -> mbind f c m = (inl e, m1, t1).
Proof. intros H. by rewrite bind_run, H. Qed.

Lemma bind_inr (c : M A) (f : A -> M B) m b m2 tr :
  mbind f c m = (inr b, m2, tr) ->
  exists a m1 t1 t2,
    c m = (inr a, m1, t1) /\ f a m1 = (inr b, m2, t2) /\ tr = t1 ++ t2.
Proof.
  rewrite bind_run. destruct (c m) as [[[e|a] m1] t1]; [discriminate|].
  destruct (f a m1) as [[r m2'] t2] eqn:Hf. intros [= -> -> <-].
  by exists a, m1, t1, t2.
Qed.

Lemma emits_bind P (c : M A) (f : A -> M B) :
  emits P c -> (forall a, emits P (f a)) -> emits P (mbind f c).
Proof.
  intros Hc Hf m. rewrite bind_run. specialize (Hc m).
  destruct (c m) as [[[e|a] m1] t1]; [exact Hc|].
  specialize (Hf a m1). destruct (f a m1) as [[r m2] t2].
  unfold trace_of in *. simpl in *. by apply Forall_app.
Qed.

Lemma fatal_bind (c : M A) (f : A -> M B) :
  fatal c -> (forall a, fatal (f a)) -> fatal (mbind f c).
Proof.
  intros Hc Hf m. rewrite bind_run. specialize (Hc m).
  destruct (c m) as [[[e|a] m1] t1]; [exact Hc|].
  specialize (Hf a m1). destruct (f a m1) as [[r m2] t2].
  unfold aborts_at_failure, trace_of, result_of in *. simpl in *.
  intros pre e post Heq He.
  symmetry in Heq.
  apply split_at_event in Heq as [(p & -> & ->)|(p & -> & ->)].
  - by destruct (Hc pre e p eq_refl He).
  - by apply (Hf p e post).
Qed.

Lemma committed_bind (c : M A) (f : A -> M B) :
  committed c -> (forall a, committed (f a)) -> committed (mbind f c).
Proof.
  intros Hc Hf m. rewrite bind_run. specialize (Hc m).
  destruct (c m) as [[[e|a] m1] t1]; [exact Hc|].
  specialize (Hf a m1). destruct (f a m1) as [[r m2] t2].
  unfold machine_of, trace_of in *. simpl in *.
  by rewrite last_write_app, <- Hc.
Qed.

End Computations.

(** A silent computation has the three properties. *)
Lemma silent_emits {A} P (c : M A) : silent c -> emits P c.
Proof. intros H m. destruct (H m) as [-> _]. constructor. Qed.

Lemma silent_fatal {A} (c : M A) : silent c -> fatal c.
Proof.
  intros H m pre e post Heq. destruct (H m) as [Ht _]. rewrite Ht in Heq.
  by destruct pre.
Qed.

Lemma silent_committed {A} (c : M A) : silent c -> committed c.
Proof. intros H m. destruct (H m) as [-> ->]. done. Qed.

Lemma silent_ret {A} (a : A) : silent (mret a).
Proof. by intros m. Qed.

Lemma silent_ret' {A} (a : A) : silent (ret a).
Proof. by intros m. Qed.

Lemma silent_raise {A} e : silent (raise (A := A) e).
Proof. by intros m. Qed.

Lemma silent_get_self : silent get_self.
Proof. by intros m. Qed.

Lemma silent_set_self f : silent (set_self f).
Proof. by intros m. Qed.

Lemma silent_as_str f : silent (as_str f).
Proof. by destruct f. Qed.

Lemma silent_lift_exn {A} (r : exn + A) : silent (lift_exn r).
Proof. by destruct r. Qed.

Lemma silent_environ_home w : silent (environ_home w).
Proof. unfold environ_home. by destruct (home w). Qed.

(** Events and the one property or the other. *)

Lemma emits_emit (P : event -> Prop) e : P e -> emits P (emit e).
Proof. intros H m. by repeat constructor. Qed.

Lemma fatal_emit e : failed_call e = false -> fatal (emit e).
Proof.
  intros H m pre e' post Heq He. unfold trace_of in Heq. simpl in Heq.
  destruct pre as [|? [|? ?]]; simpl in Heq; simplify_eq; congruence.
Qed.

Lemma committed_emit e :
  (forall s, e <> Write s) -> committed (emit e).
Proof. intros H m. unfold machine_of, trace_of. simpl. destruct e; try done. by destruct (H st). Qed.

Lemma emits_write (P : event -> Prop) : (forall s, P (Write s)) -> emits P write.
Proof. intros H m. by repeat constructor. Qed.

Lemma fatal_write : fatal write.
Proof.
  intros m pre e' post Heq He. unfold trace_of in Heq. simpl in Heq.
  destruct pre as [|? [|? ?]]; simpl in Heq; simplify_eq; done.
Qed.

Lemma committed_write : committed write.
Proof. by intros m. Qed.

Section WorldCalls.

Variable w : World.

Lemma emits_call (P : event -> Prop) argv :
  (forall rc, P (Call argv rc)) -> emits P (call w argv).
Proof. intros H m. by repeat constructor. Qed.

Lemma committed_call argv : committed (call w argv).
Proof. by intros m. Qed.

Lemma emits_checked_call (P : event -> Prop) argv e :
  (forall rc, P (Call argv rc)) -> emits P (checked_call w argv e).
Proof.
  intros H. apply emits_bind; [by apply emits_call|].
  intros rc. destruct (rc =? 0)%Z; apply silent_emits;
    [apply silent_ret' | apply silent_raise].
Qed.

Lemma fatal_checked_call argv e : fatal (checked_call w argv e).
Proof.
  intros m. unfold checked_call. rewrite bind_run. unfold call.
  destruct (exit_status w (n_call m) =? 0)%Z eqn:Hrc;
    intros pre e' post Heq He; unfold trace_of, result_of in *;
    simpl in Heq; destruct pre as [|? [|? ?]]; simpl in Heq; simplify_eq.
  - simpl in He. rewrite Hrc in He. discriminate.
  - done.
Qed.

Lemma committed_checked_call argv e : committed (checked_call w argv e).
Proof.
  apply committed_bind; [apply committed_call|].
  intros rc. destruct (rc =? 0)%Z; apply silent_committed;
    [apply silent_ret' | apply silent_raise].
Qed.

Lemma emits_check_output (P : event -> Prop) argv :
  (forall out, P (CheckOutput argv out)) -> emits P (check_output w argv).
Proof. intros H m. by repeat constructor. Qed.

Lemma fatal_check_output argv : fatal (check_output w argv).
Proof.
  intros m pre e' post Heq He. unfold trace_of in Heq. simpl in Heq.
  destruct pre as [|? [|? ?]]; simpl in Heq; simplify_eq; done.
Qed.

Lemma committed_check_output argv : committed (check_output w argv).
Proof. by intros m. Qed.

Lemma emits_popen_lines (P : event -> Prop) argv :
  (forall lines, P (Popen argv lines)) -> emits P (popen_lines w argv).
Proof. intros H m. by repeat constructor. Qed.

Lemma fatal_popen_lines argv : fatal (popen_lines w argv).
Proof.
  intros m pre e' post Heq He. unfold trace_of in Heq. simpl in Heq.
  destruct pre as [|? [|? ?]]; simpl in Heq; simplify_eq; done.
Qed.

Lemma committed_popen_lines argv : committed (popen_lines w argv).
Proof. by intros m. Qed.

Lemma emits_isdir (P : event -> Prop) path :
  (forall b, P (IsDir path b)) -> emits P (isdir w path).
Proof. intros H m. by repeat constructor. Qed.

Lemma fatal_isdir path : fatal (isdir w path).
Proof.
  intros m pre e' post Heq He. unfold trace_of in Heq. simpl in Heq.
  destruct pre as [|? [|? ?]]; simpl in Heq; simplify_eq; done.
Qed.

Lemma committed_isdir path : committed (isdir w path).
Proof. by intros m. Qed.

Lemma emits_create_key_pair (P : event -> Prop) :
  (forall priv pub, P (CreateKeyPair priv pub)) -> emits P (_create_key_pair w).
Proof. intros H m. by repeat constructor. Qed.

Lemma fatal_create_key_pair : fatal (_create_key_pair w).
Proof.
  intros m pre e' post Heq He. unfold trace_of in Heq. simpl in Heq.
  destruct pre as [|? [|? ?]]; simpl in Heq; simplify_eq; done.
Qed.

Lemma committed_create_key_pair : committed (_create_key_pair w).
Proof. by intros m. Qed.

End WorldCalls.

(** ** The three properties, operation by operation *)

Create HintDb runs.

#[local] Hint Resolve silent_ret silent_ret' silent_raise silent_get_self
  silent_set_self silent_as_str silent_lift_exn silent_environ_home : runs.
#[local] Hint Resolve fatal_write fatal_checked_call fatal_check_output
  fatal_popen_lines fatal_isdir fatal_create_key_pair : runs.
#[local] Hint Resolve committed_write committed_checked_call committed_call
  committed_check_output committed_popen_lines committed_isdir
  committed_create_key_pair : runs.

(** Closes the side condition of an event rule: the property of one event,
    by computation. *)
Ltac event_fact :=
  intros; simpl;
  solve [ discriminate | done | auto
        | unfold plain_start; simpl; intros; solve [discriminate | eauto] ].

Ltac leaf :=
  first
    [ apply silent_emits; solve [auto with runs]
    | apply silent_fatal; solve [auto with runs]
    | apply silent_committed; solve [auto with runs]
    | solve [auto with runs]
    | apply emits_emit; event_fact
    | apply fatal_emit; event_fact
    | apply committed_emit; event_fact
    | apply emits_write; event_fact
    | apply emits_call; event_fact
    | apply emits_checked_call; event_fact
    | apply emits_check_output; event_fact
    | apply emits_popen_lines; event_fact
    | apply emits_isdir; event_fact
    | apply emits_create_key_pair; event_fact ].

(** Runs a computation symbolically as far as its tests are decided. *)
Ltac exec :=
  cbv [mbind M_bind bind mret M_ret ret raise when as_str get_self set_self
       emit log warn stderr_write sleep known_hosts_remove write call
       checked_call check_output popen_lines isdir environ_home
       _create_key_pair lift_exn with_self];
  cbn [negb orb andb fst snd app self stored n_call n_output n_report
       n_isdir n_keys _vm_id _ipv4 _disk _disk_attached _started
       _client_private_key _client_public_key trace_of result_of machine_of
       set_vm_id set_ipv4 set_disk set_disk_attached set_started set_keys].

Ltac exec_in H :=
  cbv [mbind M_bind bind mret M_ret ret raise when as_str get_self set_self
       emit log warn stderr_write sleep known_hosts_remove write call
       checked_call check_output popen_lines isdir environ_home
       _create_key_pair lift_exn with_self] in H;
  cbn [negb orb andb fst snd app self stored n_call n_output n_report
       n_isdir n_keys _vm_id _ipv4 _disk _disk_attached _started
       _client_private_key _client_public_key trace_of result_of machine_of
       set_vm_id set_ipv4 set_disk set_disk_attached set_started set_keys]
    in H.

(** The same, reading the fields of the record from the hypotheses. *)
Ltac use_fields :=
  repeat match goal with
         | H : _ (self _) = _ |- _ => rewrite H
         end.
Ltac run := exec; repeat (progress use_fields; exec).

(** A run that ended in an exception is not a successful one. *)
Ltac no_run := let H := fresh in intros H; discriminate H.

(** Walks through a computation along its binds and branches. *)
Ltac walk :=
  repeat
    (intros;
     lazymatch goal with
     | |- emits _ (mbind _ _) => apply emits_bind
     | |- fatal (mbind _ _) => apply fatal_bind
     | |- committed (mbind _ _) => apply committed_bind
     | |- _ (when ?c _) => unfold when
     | |- _ (match ?x with _ => _ end) => destruct x
     | |- _ => first [assumption | leaf]
     end).

Section OperationRuns.

Variable w : World.
Variable depl : Deployment.
Variable name : string.

Lemma fatal_get_vm_state : fatal (_get_vm_state w).
Proof. unfold _get_vm_state, _get_vm_info. walk. Qed.

Lemma committed_get_vm_state : committed (_get_vm_state w).
Proof. unfold _get_vm_state, _get_vm_info. walk. Qed.

Lemma fatal_start headless : fatal (_start w headless).
Proof. unfold _start. walk. Qed.

Lemma committed_start headless : committed (_start w headless).
Proof. unfold _start. walk. Qed.

Lemma fatal_poll_ip fuel : fatal (poll_ip w fuel).
Proof. induction fuel as [|fuel IH]; simpl; walk. Qed.

Lemma committed_poll_ip fuel : committed (poll_ip w fuel).
Proof. induction fuel as [|fuel IH]; simpl; walk. Qed.

Lemma fatal_wait_for_ip fuel : fatal (_wait_for_ip w name fuel).
Proof. unfold _wait_for_ip. walk. apply fatal_poll_ip. Qed.

Lemma committed_wait_for_ip fuel : committed (_wait_for_ip w name fuel).
Proof. unfold _wait_for_ip. walk. apply committed_poll_ip. Qed.

Lemma fatal_create defn check fuel : fatal (create w depl name defn check fuel).
Proof.
  unfold create, create_vm, create_disk, attach_disk, check_running,
    ensure_key_pair, start_vm, discover_ip.
  walk; auto using fatal_get_vm_state, fatal_start, fatal_wait_for_ip.
Qed.

Lemma committed_create defn check fuel :
  committed (create w depl name defn check fuel).
Proof.
  unfold create, create_vm, create_disk, attach_disk, check_running,
    ensure_key_pair, start_vm, discover_ip.
  walk;
    auto using committed_get_vm_state, committed_start, committed_wait_for_ip.
Qed.

End OperationRuns.

(** ** Steps whose guard is already satisfied *)

Section Provisioning.

Variable w : World.
Variable depl : Deployment.
Variable name : string.

Lemma create_vm_skip m :
  truthy (_vm_id (self m)) = true ->
  create_vm w depl name m = (inr tt, m, []).
Proof. intros H. unfold create_vm. rewrite bind_run. simpl. by rewrite H. Qed.

Lemma create_disk_skip defn m :
  truthy (_disk (self m)) = true ->
  create_disk w depl name defn m = (inr tt, m, []).
Proof. intros H. unfold create_disk. rewrite bind_run. simpl. by rewrite H. Qed.

Lemma attach_disk_skip m :
  _disk_attached (self m) = true -> attach_disk w m = (inr tt, m, []).
Proof. intros H. unfold attach_disk. rewrite bind_run. simpl. by rewrite H. Qed.

Lemma check_running_skip m : check_running w false m = (inr tt, m, []).
Proof. reflexivity. Qed.

Lemma ensure_key_pair_skip m :
  truthy (_client_private_key (self m)) = true ->
  ensure_key_pair w m = (inr tt, m, []).
Proof.
  intros H. unfold ensure_key_pair. rewrite bind_run. simpl. by rewrite H.
Qed.

Lemma start_vm_skip defn m :
  _started (self m) = true -> start_vm w defn m = (inr tt, m, []).
Proof. intros H. unfold start_vm. rewrite bind_run. simpl. by rewrite H. Qed.

Lemma discover_ip_skip fuel m :
  truthy (_ipv4 (self m)) = true ->
  discover_ip w name false fuel m = (inr tt, m, []).
Proof.
  intros H. unfold discover_ip. rewrite bind_run. simpl. by rewrite H.
Qed.

(** C1 (idempotence of create).  On a record whose provisioning fields are
    all set, [create] with [check = false] succeeds, causes no event at all
    (so no [createvm], [clonehd], [storagectl], [storageattach], [modifyvm],
    [startvm] or [guestproperty set] is issued, and nothing is written), and
    leaves the object in memory, the state file and the world untouched. *)
Theorem create_idempotent defn fuel m :
  provisioned (self m) ->
  create w depl name defn false fuel m = (inr tt, m, []) /\
  Forall (fun e => mutating e = false)
    (trace_of (create w depl name defn false fuel m)).
Proof.
  intros (Hvm & Hdisk & Hatt & Hpriv & Hpub & Hst & Hip).
  assert (create w depl name defn false fuel m = (inr tt, m, [])) as ->.
  { unfold create.
    rewrite (bind_pure _ _ _ _ (create_vm_skip _ Hvm)).
    rewrite (bind_pure _ _ _ _ (create_disk_skip _ _ Hdisk)).
    rewrite (bind_pure _ _ _ _ (attach_disk_skip _ Hatt)).
    rewrite (bind_pure _ _ _ _ (check_running_skip _)).
    rewrite (bind_pure _ _ _ _ (ensure_key_pair_skip _ Hpriv)).
    rewrite (bind_pure _ _ _ _ (start_vm_skip _ _ Hst)).
    by apply discover_ip_skip. }
  split; [done | constructor].
Qed.

(** *** Events of the later steps *)

Lemma later_steps_not_create_or_clone defn check fuel :
  emits not_create_or_clone
    (attach_disk w;; check_running w check;; ensure_key_pair w;;
     start_vm w defn;; discover_ip w name check fuel).
Proof.
  assert (forall n, emits not_create_or_clone (poll_ip w n)) as Hpoll.
  { induction n as [|n IH]; simpl; walk. }
  unfold attach_disk, check_running, ensure_key_pair, start_vm, discover_ip,
    _get_vm_state, _get_vm_info, _start, _wait_for_ip.
  walk; apply Hpoll.
Qed.

Lemma attach_disk_run m vm_id disk :
  _vm_id (self m) = Some vm_id -> _disk (self m) = Some disk ->
  _disk_attached (self m) = false ->
  exists r m' rest,
    attach_disk w m
      = (r, m', Call (storagectl_argv vm_id) (exit_status w (n_call m)) :: rest)
    /\ (exit_status w (n_call m) = 0%Z ->
        exists rest',
          rest = Call (storageattach_argv vm_id disk)
                      (exit_status w (S (n_call m))) :: rest').
Proof.
  intros Evm Edisk Hatt. unfold attach_disk. exec.
  rewrite Hatt, Evm, Edisk. exec.
  destruct (exit_status w (n_call m) =? 0)%Z eqn:Hrc0; exec.
  - destruct (exit_status w (S (n_call m)) =? 0)%Z eqn:Hrc1; exec;
      do 3 eexists; (split; [reflexivity|]); intros _; by eexists.
  - do 3 eexists. split; [reflexivity|]. intros H0. rewrite H0 in Hrc0.
    discriminate.
Qed.

(** C2 (resumability of create).  On a record with [_vm_id] and [_disk] set
    and [_disk_attached] false, [create] with [check = false] first runs
    [storagectl] on the machine; when that succeeds the next event is
    [storageattach] of the recorded disk; and no event of the whole run is a
    [createvm] or a [clonehd]. *)
Theorem create_resumes_at_attach defn fuel m :
  truthy (_vm_id (self m)) = true ->
  truthy (_disk (self m)) = true ->
  _disk_attached (self m) = false ->
  exists vm_id disk rest,
    _vm_id (self m) = Some vm_id /\ _disk (self m) = Some disk /\
    trace_of (create w depl name defn false fuel m)
      = Call (storagectl_argv vm_id) (exit_status w (n_call m)) :: rest /\
    (exit_status w (n_call m) = 0%Z ->
       exists rest',
         rest = Call (storageattach_argv vm_id disk)
                     (exit_status w (S (n_call m))) :: rest') /\
    Forall not_create_or_clone
      (trace_of (create w depl name defn false fuel m)).
Proof.
  intros Hvm Hdisk Hatt.
  destruct (_vm_id (self m)) as [vm_id|] eqn:Evm; [|discriminate].
  destruct (_disk (self m)) as [disk|] eqn:Edisk; [|discriminate].
  assert (truthy (_vm_id (self m)) = true) as Hvm' by by rewrite Evm.
  assert (truthy (_disk (self m)) = true) as Hdisk' by by rewrite Edisk.
  unfold create.
  rewrite (bind_pure _ _ _ _ (create_vm_skip _ Hvm')).
  rewrite (bind_pure _ _ _ _ (create_disk_skip _ _ Hdisk')).
  pose proof (later_steps_not_create_or_clone defn false fuel m) as Hall.
  revert Hall.
  generalize (check_running w false;; ensure_key_pair w;; start_vm w defn;;
              discover_ip w name false fuel).
  intros k Hall.
  destruct (attach_disk_run m vm_id disk Evm Edisk Hatt)
    as (r & m1 & rest & Hrun & Hnext).
  rewrite bind_run in *. rewrite Hrun in *.
  exists vm_id, disk.
  destruct r as [e|[]].
  - exists rest. by repeat split.
  - destruct (k m1) as [[r2 m2] t2].
    exists (rest ++ t2). repeat split; [|exact Hall].
    intros H0. destruct (Hnext H0) as [rest' ->]. by eexists.
Qed.

End Provisioning.

(** ** Runs of the building blocks *)

Section Blocks.

Variable w : World.
Variable name : string.

Lemma get_vm_state_run m :
  _get_vm_state w m =
    match _vm_id (self m) with
    | None => (inl TypeError, m, [])
    | Some vm_id =>
        (parse_vm_state (report w (n_report m)),
         {| self := self m; stored := stored m; n_call := n_call m;
            n_output := n_output m; n_report := S (n_report m);
            n_isdir := n_isdir m; n_keys := n_keys m |},
         [query_event w vm_id (n_report m)])
    end.
Proof.
  unfold _get_vm_state, _get_vm_info, parse_vm_state, query_event. exec.
  destruct (_vm_id (self m)) as [vm_id|]; exec; [|done].
  destruct (report w (n_report m)) as [|l ls]; [done|].
  destruct (parse_vm_info (l :: ls) ∅) as [e|info]; exec; [done|].
  by destruct (info !! "VMState").
Qed.

Lemma start_inr headless m m' tr :
  _start w headless m = (inr tt, m', tr) ->
  exists vm_id pub,
    _vm_id (self m) = Some vm_id /\
    _client_public_key (self m) = Some pub /\
    tr = start_events vm_id pub headless (set_started true (self m)) /\
    self m' = set_started true (self m) /\
    stored m' = self m' /\
    n_output m' = n_output m /\ n_report m' = n_report m.
Proof.
  unfold _start, start_events, startvm_argv. exec.
  destruct (_vm_id (self m)) as [vm_id|] eqn:Evm; run; [|no_run].
  destruct (exit_status w (n_call m) =? 0)%Z eqn:H0; run; [|no_run].
  destruct (_client_public_key (self m)) as [pub|] eqn:Epub; run; [|no_run].
  destruct (exit_status w (S (n_call m)) =? 0)%Z eqn:H1; run; [|no_run].
  destruct (exit_status w (S (S (n_call m))) =? 0)%Z eqn:H2; run; [|no_run].
  apply Z.eqb_eq in H0, H1, H2. rewrite H0, H1, H2.
  intros [= <- <-]. exists vm_id, pub. by destruct headless.
Qed.

Lemma poll_ip_inr fuel m m' tr :
  poll_ip w fuel m = (inr tt, m', tr) ->
  exists vm_id outs out,
    _vm_id (self m) = Some vm_id /\
    published out = true /\
    tr = still_waiting vm_id outs
           ++ [CheckOutput (get_property_argv vm_id ip_property) (Some out);
               Stderr (" " +:+ address_of out +:+ newline)] /\
    self m' = set_ipv4 (Some (address_of out)) (self m) /\
    stored m' = stored m.
Proof.
  revert m tr. induction fuel as [|fuel IH]; intros m tr; cbn [poll_ip]; exec;
    [no_run|].
  destruct (_vm_id (self m)) as [vm_id|] eqn:Evm; run; [|no_run].
  destruct (output w (n_output m)) as [o|] eqn:Eo; run; [|no_run].
  destruct (String.eqb (PyStr.take 7 (PyStr.rstrip o)) "Value: ") eqn:Ep; run.
  - intros [= <- <-]. exists vm_id, [], o. by repeat split.
  - match goal with
    | |- context [poll_ip w fuel ?m1] =>
        destruct (poll_ip w fuel m1) as [[[e|[]] m2] t2] eqn:Hrec
    end; [no_run|].
    intros [= <- <-].
    apply IH in Hrec as (vm_id' & outs & out & Evm' & Hp & -> & Hs & Hst).
    exec_in Evm'. exec_in Hs. exec_in Hst.
    rewrite Evm in Evm'. injection Evm' as <-.
    exists vm_id, (o :: outs), out. by repeat split.
Qed.

Lemma wait_for_ip_inr fuel m m' tr :
  _wait_for_ip w name fuel m = (inr tt, m', tr) ->
  exists vm_id outs out,
    _vm_id (self m) = Some vm_id /\
    published out = true /\
    tr = discovery_events name vm_id outs out (self m') /\
    self m' = set_ipv4 (Some (address_of out)) (self m) /\
    stored m' = self m'.
Proof.
  unfold _wait_for_ip. intros H.
  apply bind_inr in H as ([] & m1 & t1 & t2 & H1 & H & ->).
  apply bind_inr in H as ([] & m2 & t2' & t3 & H2 & H & ->).
  apply poll_ip_inr in H2 as (vm_id & outs & out & Evm & Hp & -> & Hs & Hst).
  exec_in H1. injection H1 as <- <-. exec_in H. rewrite Hs in H. exec_in H.
  injection H as <- <-. exists vm_id, outs, out. exec.
  repeat split; try done.
  unfold discovery_events. rewrite Hs. by rewrite <- app_assoc.
Qed.

End Blocks.

(** ** What the early steps leave alone *)

Lemma same_power_trans a b c : same_power a b -> same_power b c -> same_power a c.
Proof. unfold same_power. intros [-> ->] [-> ->]. done. Qed.

Lemma keeps_bind {A B} (c : M A) (f : A -> M B) :
  keeps same_power c -> (forall a, keeps same_power (f a)) ->
  keeps same_power (mbind f c).
Proof.
  intros Hc Hf m. rewrite bind_run. specialize (Hc m).
  destruct (c m) as [[[e|a] m1] t1]; [exact Hc|].
  specialize (Hf a m1). destruct (f a m1) as [[r m2] t2].
  unfold machine_of in *. simpl in *. by eapply same_power_trans.
Qed.

Lemma keeps_silent_read {A} (c : M A) :
  (forall m, machine_of (c m) = m) -> keeps same_power c.
Proof. intros H m. by rewrite H. Qed.

Lemma keeps_set_self f :
  (forall s, _started (f s) = _started s) -> keeps same_power (set_self f).
Proof. intros H m. split; [done | apply H]. Qed.

Lemma keeps_checked_call w argv e : keeps same_power (checked_call w argv e).
Proof.
  intros m. unfold checked_call. exec.
  by destruct (exit_status w (n_call m) =? 0)%Z.
Qed.

Lemma keeps_as_str f : keeps same_power (as_str f).
Proof. by destruct f. Qed.

Ltac keeps_leaf :=
  first
    [ apply keeps_checked_call
    | apply keeps_as_str
    | apply keeps_set_self; intros; reflexivity
    | apply keeps_silent_read; intros; reflexivity
    | intros ?; split; reflexivity ].

Ltac keeps_walk :=
  repeat
    (intros;
     lazymatch goal with
     | |- keeps _ (mbind _ _) => apply keeps_bind
     | |- keeps _ (when ?c _) => unfold when
     | |- keeps _ (match ?x with _ => _ end) => destruct x
     | |- keeps _ _ => keeps_leaf
     end).

Section Create.

Variable w : World.
Variable depl : Deployment.
Variable name : string.

Lemma keeps_create_vm : keeps same_power (create_vm w depl name).
Proof. unfold create_vm. keeps_walk. Qed.

Lemma keeps_create_disk defn : keeps same_power (create_disk w depl name defn).
Proof. unfold create_disk, environ_home. keeps_walk. Qed.

Lemma keeps_attach_disk : keeps same_power (attach_disk w).
Proof. unfold attach_disk. keeps_walk. Qed.

(** A successful [create] is a successful run of each of its seven steps. *)
Lemma create_inr defn check fuel m m' tr :
  create w depl name defn check fuel m = (inr tt, m', tr) ->
  exists m1 m2 m3 m4 m5 m6 t1 t2 t3 t4 t5 t6 t7,
    create_vm w depl name m = (inr tt, m1, t1) /\
    create_disk w depl name defn m1 = (inr tt, m2, t2) /\
    attach_disk w m2 = (inr tt, m3, t3) /\
    check_running w check m3 = (inr tt, m4, t4) /\
    ensure_key_pair w m4 = (inr tt, m5, t5) /\
    start_vm w defn m5 = (inr tt, m6, t6) /\
    discover_ip w name check fuel m6 = (inr tt, m', t7) /\
    tr = (t1 ++ t2 ++ t3) ++ t4 ++ t5 ++ t6 ++ t7.
Proof.
  unfold create. intros H.
  apply bind_inr in H as ([] & m1 & t1 & ? & H1 & H & ->).
  apply bind_inr in H as ([] & m2 & t2 & ? & H2 & H & ->).
  apply bind_inr in H as ([] & m3 & t3 & ? & H3 & H & ->).
  apply bind_inr in H as ([] & m4 & t4 & ? & H4 & H & ->).
  apply bind_inr in H as ([] & m5 & t5 & ? & H5 & H & ->).
  apply bind_inr in H as ([] & m6 & t6 & t7 & H6 & H & ->).
  exists m1, m2, m3, m4, m5, m6, t1, t2, t3, t4, t5, t6, t7.
  repeat split; try done. by rewrite <- !app_assoc.
Qed.

Lemma early_steps_same_power defn m m1 m2 m3 r1 r2 r3 t1 t2 t3 :
  create_vm w depl name m = (r1, m1, t1) ->
  create_disk w depl name defn m1 = (r2, m2, t2) ->
  attach_disk w m2 = (r3, m3, t3) ->
  same_power m m3.
Proof.
  intros H1 H2 H3.
  pose proof (keeps_create_vm m) as K1. rewrite H1 in K1.
  pose proof (keeps_create_disk defn m1) as K2. rewrite H2 in K2.
  pose proof (keeps_attach_disk m2) as K3. rewrite H3 in K3.
  eauto using same_power_trans.
Qed.

(** The consistency check when the machine is reported down. *)
Lemma check_running_down m m' tr s :
  parse_vm_state (report w (n_report m)) = inr s -> s <> "running" ->
  check_running w true m = (inr tt, m', tr) ->
  exists vm_id,
    _vm_id (self m) = Some vm_id /\
    tr = [query_event w vm_id (n_report m);
          Log "VirtualBox VM went down, restarting...";
          Write (set_started false (self m))] /\
    self m' = set_started false (self m) /\
    stored m' = self m'.
Proof.
  intros Hs Hne. unfold check_running. cbn [when].
  rewrite bind_run, get_vm_state_run.
  destruct (_vm_id (self m)) as [vm_id|] eqn:Evm; [|no_run].
  rewrite Hs. apply String.eqb_neq in Hne. rewrite Hne. run.
  intros [= <- <-]. by exists vm_id.
Qed.

Lemma ensure_key_pair_inr m m' tr :
  ensure_key_pair w m = (inr tt, m', tr) ->
  (tr = [] \/ exists priv pub, tr = [CreateKeyPair priv pub]) /\
  _vm_id (self m') = _vm_id (self m) /\
  _started (self m') = _started (self m) /\
  _ipv4 (self m') = _ipv4 (self m) /\
  stored m' = stored m.
Proof.
  unfold ensure_key_pair. exec.
  destruct (truthy (_client_private_key (self m))); run; intros [= <- <-].
  - split; [by left | done].
  - split; [right; by do 2 eexists | done].
Qed.

Lemma start_vm_inr defn m m' tr :
  _started (self m) = false ->
  start_vm w defn m = (inr tt, m', tr) ->
  exists vm_id pub,
    _vm_id (self m) = Some vm_id /\
    _client_public_key (self m) = Some pub /\
    tr = Call (modifyvm_argv vm_id (memory_size defn)) 0
           :: start_events vm_id pub (headless defn)
                (set_started true (self m)) /\
    self m' = set_started true (self m) /\
    stored m' = self m'.
Proof.
  intros Hst. unfold start_vm. rewrite bind_run. cbn [get_self].
  rewrite Hst. cbn [negb when]. rewrite bind_run.
  destruct (_vm_id (self m)) as [vm_id|] eqn:Evm; cbn [as_str ret raise];
    [|no_run].
  rewrite bind_run. unfold checked_call at 1. exec.
  destruct (exit_status w (n_call m) =? 0)%Z eqn:H0; exec; [|no_run].
  match goal with
  | |- context [_start w ?h ?m1] =>
      destruct (_start w h m1) as [[[e|[]] m2] t2] eqn:Hrun
  end; [no_run|].
  intros [= <- <-].
  apply start_inr in Hrun
    as (vm_id' & pub & Evm' & Epub & -> & Hs & Hstore & _).
  exec_in Evm'. exec_in Epub. exec_in Hs.
  rewrite Evm in Evm'. injection Evm' as <-.
  apply Z.eqb_eq in H0. rewrite H0.
  exists vm_id, pub. by repeat split.
Qed.

Lemma discover_ip_run check fuel m :
  discover_ip w name check fuel m =
    if negb (truthy (_ipv4 (self m))) || check
    then _wait_for_ip w name fuel m
    else (inr tt, m, []).
Proof.
  unfold discover_ip.
  rewrite (bind_pure get_self _ m (self m)) by reflexivity.
  by destruct (negb (truthy (_ipv4 (self m))) || check).
Qed.

(** The shape of a successful run of [create] with [check] on a machine
    that is reported down, whatever the record: the events of the first
    three steps; the query, the log line and a write of the record with
    [_started] reset to false; the generation of a key pair if there was
    none; [modifyvm], the two [guestproperty set] and [startvm], and a
    write of the record with [_started] true; and the address discovery,
    ending with the write of the record that is both in memory and in the
    state file. *)
Lemma create_restart_inr defn fuel m m' tr s :
  _started (self m) = true ->
  parse_vm_state (report w (n_report m)) = inr s ->
  s <> "running" ->
  create w depl name defn true fuel m = (inr tt, m', tr) ->
  exists early keys vm_id pub outs out down up,
    tr = early
         ++ [query_event w vm_id (n_report m);
             Log "VirtualBox VM went down, restarting...";
             Write down]
         ++ keys
         ++ (Call (modifyvm_argv vm_id (memory_size defn)) 0
               :: start_events vm_id pub (headless defn) up)
         ++ discovery_events name vm_id outs out (self m') /\
    _started down = false /\
    (keys = [] \/ exists priv pub', keys = [CreateKeyPair priv pub']) /\
    _started up = true /\
    published out = true /\
    _started (self m') = true /\
    _ipv4 (self m') = Some (address_of out) /\
    stored m' = self m'.
Proof.
  intros Hst Hs Hne H.
  apply create_inr in H
    as (m1 & m2 & m3 & m4 & m5 & m6 & t1 & t2 & t3 & t4 & t5 & t6 & t7
        & H1 & H2 & H3 & H4 & H5 & H6 & H7 & ->).
  destruct (early_steps_same_power _ _ _ _ _ _ _ _ _ _ _ H1 H2 H3)
    as [Hrep Hst3].
  rewrite <- Hrep in Hs.
  apply (check_running_down _ _ _ _ Hs Hne) in H4
    as (vm_id & Evm & -> & Hs4 & Hstore4).
  apply ensure_key_pair_inr in H5 as (Hkeys & Evm5 & Hst5 & _ & _).
  rewrite Hs4 in Hst5, Evm5. cbn in Hst5, Evm5.
  apply (start_vm_inr _ _ _ _ Hst5) in H6
    as (vm_id' & pub & Evm' & Epub & -> & Hs6 & Hstore6).
  rewrite Evm5, Evm in Evm'. injection Evm' as <-.
  rewrite discover_ip_run, orb_true_r in H7.
  apply wait_for_ip_inr in H7
    as (vm_id' & outs & out & Evm' & Hp & -> & Hs7 & Hstore7).
  rewrite Hs6 in Evm'. cbn in Evm'. rewrite Evm5, Evm in Evm'.
  injection Evm' as <-.
  exists (t1 ++ t2 ++ t3), t5, vm_id, pub, outs, out,
    (set_started false (self m3)), (set_started true (self m5)).
  rewrite Hrep. repeat split; try done.
  - rewrite Hs7, Hs6. done.
  - rewrite Hs7. done.
Qed.

End Create.

(** ** Locating an event in a run *)

Section Locate.

Context {A B : Type}.

(** An event the first part of a sequence cannot cause comes from the second
    part, which then ran. *)
Lemma bind_event_later (P : event -> Prop) (c : M A) (f : A -> M B)
    m r m' pre e post :
  emits P c -> ~ P e ->
  mbind f c m = (r, m', pre ++ e :: post) ->
  exists a m1 t1 pre2,
    c m = (inr a, m1, t1) /\ pre = t1 ++ pre2 /\
    f a m1 = (r, m', pre2 ++ e :: post).
Proof.
  intros Hc Hne. rewrite bind_run. specialize (Hc m).
  destruct (c m) as [[[x|a] m1] t1]; unfold trace_of in *; simpl in *.
  - intros [= <- <- ->]. apply Forall_app in Hc as [_ Hc].
    apply Forall_cons in Hc as [Hc _]. done.
  - destruct (f a m1) as [[r2 m2] t2] eqn:Hf. intros [= <- <- Heq].
    symmetry in Heq.
    apply split_at_event in Heq as [(p & -> & ->)|(p & -> & ->)].
    + apply Forall_app in Hc as [_ Hc].
      apply Forall_cons in Hc as [Hc _]. done.
    + by exists a, m1, t1, p.
Qed.

(** An event the second part of a sequence cannot cause comes from the
    first part. *)
Lemma bind_event_earlier (P : event -> Prop) (c : M A) (f : A -> M B)
    m r m' pre e post :
  (forall a, emits P (f a)) -> ~ P e ->
  mbind f c m = (r, m', pre ++ e :: post) ->
  exists post1 rest,
    trace_of (c m) = pre ++ e :: post1 /\ post = post1 ++ rest /\
    (forall a m1,
       c m = (inr a, m1, pre ++ e :: post1) -> f a m1 = (r, m', rest)).
Proof.
  intros Hf Hne. rewrite bind_run.
  destruct (c m) as [[[x|a] m1] t1]; unfold trace_of in *; simpl in *.
  - intros [= <- <- ->]. exists post, []. rewrite app_nil_r. by repeat split.
  - specialize (Hf a m1). destruct (f a m1) as [[r2 m2] t2] eqn:Ef.
    simpl in *. intros [= <- <- Heq]. symmetry in Heq.
    apply split_at_event in Heq as [(p & -> & ->)|(p & -> & ->)].
    + exists p, t2. repeat split. intros a' m1' [= <- <-]. by rewrite Ef.
    + apply Forall_app in Hf as [_ Hf].
      apply Forall_cons in Hf as [Hf _]. done.
Qed.

Lemma run_eta (run : (exn + A) * Machine * list event) :
  run = (result_of run, machine_of run, trace_of run).
Proof. by destruct run as [[r m] t]. Qed.

End Locate.

(** Finds where an event of a given kind sits in a trace that is known
    event by event. *)
Ltac locate Heq :=
  repeat
    match type of Heq with
    | _ :: _ = ?pre ++ _ :: _ =>
        destruct pre; simpl in Heq;
        [ injection Heq as ? Heq | injection Heq as ? Heq ]
    | [] = ?pre ++ _ :: _ => destruct pre; discriminate Heq
    end.

Section StartOrder.

Variable w : World.
Variable depl : Deployment.
Variable name : string.

Lemma steps_before_start_not_starting defn check :
  emits not_starting (create_vm w depl name) /\
  emits not_starting (create_disk w depl name defn) /\
  emits not_starting (attach_disk w) /\
  emits not_starting (check_running w check) /\
  emits not_starting (ensure_key_pair w).
Proof.
  unfold create_vm, create_disk, attach_disk, check_running, ensure_key_pair,
    _get_vm_state, _get_vm_info.
  repeat split; walk.
Qed.

Lemma discover_ip_not_starting check fuel :
  emits not_starting (discover_ip w name check fuel).
Proof.
  assert (forall n, emits not_starting (poll_ip w n)) as Hpoll.
  { induction n as [|n IH]; simpl; walk. }
  unfold discover_ip, _wait_for_ip. walk; apply Hpoll.
Qed.

Lemma not_not_starting e : startResource e = true -> ~ not_starting e.
Proof. intros H (_ & _ & H'). congruence. Qed.

(** Where [startvm] sits in the start step. *)
Lemma start_vm_event defn m pre e post :
  trace_of (start_vm w defn m) = pre ++ e :: post ->
  startResource e = true ->
  exists vm_id pub,
    _vm_id (self m) = Some vm_id /\
    _client_public_key (self m) = Some pub /\
    pre = [Call (modifyvm_argv vm_id (memory_size defn)) 0;
           Call (set_property_argv vm_id ip_property EmptyString) 0;
           Call (set_property_argv vm_id key_property pub) 0] /\
    e = Call (startvm_argv vm_id (headless defn))
             (exit_status w (S (S (S (n_call m))))) /\
    post = (if (exit_status w (S (S (S (n_call m)))) =? 0)%Z
            then [Write (set_started true (self m))] else []).
Proof.
  unfold start_vm, _start, startvm_argv. intros Heq He. revert Heq. exec.
  destruct (_started (self m)) eqn:Hst; run; [by destruct pre|].
  destruct (_vm_id (self m)) as [vm_id|] eqn:Evm; run; [|by destruct pre].
  destruct (exit_status w (n_call m) =? 0)%Z eqn:H0; run;
    [|intros Heq; locate Heq; subst; discriminate].
  destruct (exit_status w (S (n_call m)) =? 0)%Z eqn:H1; run;
    [|intros Heq; locate Heq; subst; discriminate].
  destruct (_client_public_key (self m)) as [pub|] eqn:Epub; run;
    [|intros Heq; locate Heq; subst; discriminate].
  destruct (exit_status w (S (S (n_call m))) =? 0)%Z eqn:H2; run;
    [|intros Heq; locate Heq; subst; discriminate].
  apply Z.eqb_eq in H0, H1, H2. rewrite H0, H1, H2.
  destruct (exit_status w (S (S (S (n_call m)))) =? 0)%Z eqn:H3; run;
    intros Heq; exists vm_id, pub;
    locate Heq; subst; try discriminate;
    by destruct (headless defn).
Qed.

(** Wherever [startvm] is issued in a run of [create], the three events
    just before it are [modifyvm] with the definition's memory size, the
    [guestproperty set] that clears the address and the [guestproperty set]
    that publishes the public key, all three successful and in this order;
    none of the events before them configures, starts or sets a guest
    property; [startvm] carries the definition's headless flag; when it
    succeeds the next event is the write of a record with [_started] true,
    and when it fails the run stops there. *)
Lemma create_startvm_event defn check fuel m r m' pre e post :
  create w depl name defn check fuel m = (r, m', pre ++ e :: post) ->
  startResource e = true ->
  exists before vm_id pub rc,
    pre = before
          ++ [Call (modifyvm_argv vm_id (memory_size defn)) 0;
              Call (set_property_argv vm_id ip_property EmptyString) 0;
              Call (set_property_argv vm_id key_property pub) 0] /\
    Forall not_starting before /\
    e = Call (startvm_argv vm_id (headless defn)) rc /\
    (rc = 0%Z ->
       exists up rest,
         post = Write up :: rest /\ _started up = true /\
         _client_public_key up = Some pub) /\
    (rc <> 0%Z -> post = [] /\ failed r).
Proof.
  intros Htr He.
  pose proof (fatal_create w depl name defn check fuel m pre e post) as Hfatal.
  rewrite Htr in Hfatal. specialize (Hfatal eq_refl).
  pose proof (not_not_starting e He) as Hne.
  destruct (steps_before_start_not_starting defn check)
    as (E1 & E2 & E3 & E4 & E5).
  unfold create in Htr.
  apply (bind_event_later _ _ _ _ _ _ _ _ _ E1 Hne) in Htr
    as ([] & m1 & t1 & p1 & R1 & -> & Htr).
  apply (bind_event_later _ _ _ _ _ _ _ _ _ E2 Hne) in Htr
    as ([] & m2 & t2 & p2 & R2 & -> & Htr).
  apply (bind_event_later _ _ _ _ _ _ _ _ _ E3 Hne) in Htr
    as ([] & m3 & t3 & p3 & R3 & -> & Htr).
  apply (bind_event_later _ _ _ _ _ _ _ _ _ E4 Hne) in Htr
    as ([] & m4 & t4 & p4 & R4 & -> & Htr).
  apply (bind_event_later _ _ _ _ _ _ _ _ _ E5 Hne) in Htr
    as ([] & m5 & t5 & p5 & R5 & -> & Htr).
  apply (bind_event_earlier not_starting) in Htr
    as (post1 & rest & Htr & -> & _);
    [| intros; apply discover_ip_not_starting | exact Hne].
  apply start_vm_event in Htr as (vm_id & pub & Evm & Epub & -> & -> & ->);
    [|exact He].
  exists (t1 ++ t2 ++ t3 ++ t4 ++ t5), vm_id, pub,
    (exit_status w (S (S (S (n_call m5))))).
  split; [by rewrite <- !app_assoc|].
  split.
  { specialize (E1 m). rewrite R1 in E1.
    specialize (E2 m1). rewrite R2 in E2.
    specialize (E3 m2). rewrite R3 in E3.
    specialize (E4 m3). rewrite R4 in E4.
    specialize (E5 m4). rewrite R5 in E5.
    unfold trace_of in *. simpl in *. by repeat apply Forall_app_2. }
  split; [done|]. split.
  - intros ->. simpl. do 2 eexists. split; [reflexivity|]. by simpl.
  - intros Hrc. apply Hfatal. simpl. apply Z.eqb_neq in Hrc. by rewrite Hrc.
Qed.

End StartOrder.

(** ** The trust record that is invalidated *)

Section Invalidation.

Variable w : World.
Variable depl : Deployment.
Variable name : string.

Lemma poll_ip_not_invalidating fuel : emits not_invalidating (poll_ip w fuel).
Proof. induction fuel as [|fuel IH]; simpl; walk. Qed.

Lemma start_not_invalidating headless :
  emits not_invalidating (_start w headless).
Proof. unfold _start. walk. Qed.

Lemma get_vm_state_not_invalidating :
  emits not_invalidating (_get_vm_state w).
Proof. unfold _get_vm_state, _get_vm_info. walk. Qed.

Lemma steps_before_discovery_not_invalidating defn check :
  emits not_invalidating (create_vm w depl name) /\
  emits not_invalidating (create_disk w depl name defn) /\
  emits not_invalidating (attach_disk w) /\
  emits not_invalidating (check_running w check) /\
  emits not_invalidating (ensure_key_pair w) /\
  emits not_invalidating (start_vm w defn).
Proof.
  unfold create_vm, create_disk, attach_disk, check_running, ensure_key_pair,
    start_vm.
  repeat split; walk;
    auto using get_vm_state_not_invalidating, start_not_invalidating.
Qed.

Lemma invalidating a : ~ not_invalidating (KnownHostsRemove a).
Proof. unfold not_invalidating. simpl. congruence. Qed.

(** An invalidation in [_wait_for_ip] means the whole of it ran: the last
    poll read the address that is invalidated, and the write that follows
    stores it. *)
Lemma wait_for_ip_event fuel m r m' pre a post :
  _wait_for_ip w name fuel m = (r, m', pre ++ KnownHostsRemove a :: post) ->
  exists vm_id outs out,
    r = inr tt /\ published out = true /\ a = address_of out /\
    pre = Stderr ("waiting for IP address of ‘" +:+ name +:+ "’...")
            :: still_waiting vm_id outs
            ++ [CheckOutput (get_property_argv vm_id ip_property) (Some out);
                Stderr (" " +:+ a +:+ newline)] /\
    post = [Write (self m')] /\
    self m' = set_ipv4 (Some a) (self m) /\
    stored m' = self m'.
Proof.
  intros Htr. unfold _wait_for_ip in Htr.
  apply (bind_event_later not_invalidating) in Htr
    as ([] & m1 & t1 & p1 & R1 & -> & Htr);
    [| walk | apply invalidating].
  apply (bind_event_later not_invalidating) in Htr
    as ([] & m2 & t2 & p2 & R2 & -> & Htr);
    [| apply poll_ip_not_invalidating | apply invalidating].
  exec_in R1. injection R1 as <- <-.
  apply poll_ip_inr in R2 as (vm_id & outs & out & Evm & Hp & -> & Hs & Hst).
  exec_in Htr. rewrite Hs in Htr. exec_in Htr.
  injection Htr as <- <- Htr. locate Htr; simplify_eq.
  exists vm_id, outs, out. exec. rewrite app_nil_r.
  by repeat split.
Qed.

Lemma create_invalidation defn check fuel m r m' pre a post :
  create w depl name defn check fuel m
    = (r, m', pre ++ KnownHostsRemove a :: post) ->
  exists before vm_id out,
    pre = before
          ++ [CheckOutput (get_property_argv vm_id ip_property) (Some out);
              Stderr (" " +:+ a +:+ newline)] /\
    published out = true /\ a = address_of out /\
    post = [Write (self m')] /\
    r = inr tt /\ _ipv4 (self m') = Some a /\ stored m' = self m'.
Proof.
  intros Htr.
  destruct (steps_before_discovery_not_invalidating defn check)
    as (E1 & E2 & E3 & E4 & E5 & E6).
  pose proof (invalidating a) as Hne.
  unfold create in Htr.
  apply (bind_event_later _ _ _ _ _ _ _ _ _ E1 Hne) in Htr
    as ([] & m1 & t1 & p1 & R1 & -> & Htr).
  apply (bind_event_later _ _ _ _ _ _ _ _ _ E2 Hne) in Htr
    as ([] & m2 & t2 & p2 & R2 & -> & Htr).
  apply (bind_event_later _ _ _ _ _ _ _ _ _ E3 Hne) in Htr
    as ([] & m3 & t3 & p3 & R3 & -> & Htr).
  apply (bind_event_later _ _ _ _ _ _ _ _ _ E4 Hne) in Htr
    as ([] & m4 & t4 & p4 & R4 & -> & Htr).
  apply (bind_event_later _ _ _ _ _ _ _ _ _ E5 Hne) in Htr
    as ([] & m5 & t5 & p5 & R5 & -> & Htr).
  apply (bind_event_later _ _ _ _ _ _ _ _ _ E6 Hne) in Htr
    as ([] & m6 & t6 & p6 & R6 & -> & Htr).
  rewrite discover_ip_run in Htr.
  destruct (negb (truthy (_ipv4 (self m6))) || check).
  - apply wait_for_ip_event in Htr
      as (vm_id & outs & out & -> & Hp & -> & -> & -> & Hs & Hst).
    eexists (t1 ++ t2 ++ t3 ++ t4 ++ t5 ++ t6 ++ _ :: still_waiting vm_id outs),
      vm_id, out.
    split; [repeat rewrite <- app_assoc; reflexivity|].
    rewrite Hst, Hs. by repeat split.
  - injection Htr as _ _ Htr. by destruct p6.
Qed.

Lemma start_invalidation fuel m r m' pre a post :
  start w name fuel m = (r, m', pre ++ KnownHostsRemove a :: post) ->
  exists before vm_id out rest,
    pre = before
          ++ [CheckOutput (get_property_argv vm_id ip_property) (Some out);
              Stderr (" " +:+ a +:+ newline)] /\
    published out = true /\ a = address_of out /\
    post = Write (self m') :: rest /\
    (rest = [] \/
     rest = [Warn
       "IP address has changed, you may need to run ‘charon deploy’"]) /\
    r = inr tt /\ _ipv4 (self m') = Some a /\ stored m' = self m'.
Proof.
  intros Htr. pose proof (invalidating a) as Hne. unfold start in Htr.
  apply (bind_event_later not_invalidating) in Htr
    as (st & m1 & t1 & p1 & R1 & -> & Htr);
    [| apply get_vm_state_not_invalidating | exact Hne].
  destruct (String.eqb st "running").
  { exec_in Htr. injection Htr as _ _ Htr. by destruct p1. }
  apply (bind_event_later not_invalidating) in Htr
    as ([] & m2 & t2 & p2 & R2 & -> & Htr); [| walk | exact Hne].
  rewrite bind_run in Htr. cbn [get_self] in Htr.
  match type of Htr with
  | context [mbind ?f (_start w false) m2] =>
      destruct (mbind f (_start w false) m2) as [[r' m''] t'] eqn:Hs
  end.
  rewrite app_nil_l in Htr. injection Htr as -> -> ->.
  apply (bind_event_later not_invalidating) in Hs
    as ([] & m3 & t3 & p3 & R3 & -> & Htr);
    [| apply start_not_invalidating | exact Hne].
  apply (bind_event_earlier not_invalidating) in Htr
    as (post1 & rest & Htr & -> & Hrest); [| walk | exact Hne].
  destruct (_wait_for_ip w name fuel m3) as [[r4 m4] t4] eqn:Hw.
  cbn [trace_of snd] in Htr. subst t4.
  pose proof Hw as Hw'.
  apply wait_for_ip_event in Hw'
    as (vm_id & outs & out & -> & Hp & -> & -> & -> & Hs4 & Hst4).
  specialize (Hrest _ _ eq_refl). rewrite bind_run in Hrest.
  cbn [get_self] in Hrest. unfold when, warn, emit in Hrest.
  exists (t1 ++ t2 ++ t3 ++ Stderr ("waiting for IP address of ‘" +:+ name
                                     +:+ "’...") :: still_waiting vm_id outs),
    vm_id, out, rest.
  split; [repeat rewrite <- app_assoc; reflexivity|].
  destruct (negb (bool_decide (_ipv4 (self m2) = _ipv4 (self m4))));
    exec_in Hrest; injection Hrest as <- <- <-;
    rewrite Hst4, Hs4; repeat split; auto.
Qed.

End Invalidation.

(** ** Lifecycle operations *)

Section Lifecycle.

Variable w : World.
Variable name : string.

Lemma bind_step {A B} (c : M A) (f : A -> M B) m a m1 t1 r m2 t2 :
  c m = (inr a, m1, t1) -> f a m1 = (r, m2, t2) ->
  mbind f c m = (r, m2, t1 ++ t2).
Proof. intros Hc Hf. by rewrite bind_run, Hc, Hf. Qed.

Lemma checked_call_run argv e m :
  checked_call w argv e m
    = ((if (exit_status w (n_call m) =? 0)%Z then inr tt else inl e),
       {| self := self m; stored := stored m; n_call := S (n_call m);
          n_output := n_output m; n_report := n_report m;
          n_isdir := n_isdir m; n_keys := n_keys m |},
       [Call argv (exit_status w (n_call m))]).
Proof.
  unfold checked_call. rewrite bind_run. cbn [call].
  by destruct (exit_status w (n_call m) =? 0)%Z.
Qed.

Lemma get_vm_state_ok m vm_id s :
  _vm_id (self m) = Some vm_id ->
  parse_vm_state (report w (n_report m)) = inr s ->
  _get_vm_state w m
    = (inr s,
       {| self := self m; stored := stored m; n_call := n_call m;
          n_output := n_output m; n_report := S (n_report m);
          n_isdir := n_isdir m; n_keys := n_keys m |},
       [query_event w vm_id (n_report m)]).
Proof. intros Evm Hs. by rewrite get_vm_state_run, Evm, Hs. Qed.

(** C9 (destroy convergence).  The machine is reported [running], then
    [stopping], then [poweroff] (or [aborted]).  Then [destroy] queries the
    state, issues [controlvm poweroff] once, and polls: after the poll that
    sees [stopping] it sleeps, after the poll that sees the final state it
    sleeps once more, and only then issues [unregistervm --delete], whose
    exit status decides the result.  These eight events are the whole
    run. *)
Theorem destroy_converges fuel m vm_id s3 :
  _vm_id (self m) = Some vm_id ->
  parse_vm_state (report w (n_report m)) = inr "running" ->
  parse_vm_state (report w (S (n_report m))) = inr "stopping" ->
  parse_vm_state (report w (S (S (n_report m)))) = inr s3 ->
  s3 = "poweroff" \/ s3 = "aborted" ->
  trace_of (destroy w (S (S fuel)) m)
    = [Log "destroying VirtualBox VM...";
       query_event w vm_id (n_report m);
       Call (poweroff_argv vm_id) (exit_status w (n_call m));
       query_event w vm_id (S (n_report m));
       Sleep 1;
       query_event w vm_id (S (S (n_report m)));
       Sleep 1;
       Call (unregistervm_argv vm_id) (exit_status w (S (n_call m)))] /\
  result_of (destroy w (S (S fuel)) m)
    = (if (exit_status w (S (n_call m)) =? 0)%Z then inr tt
       else inl UnableToUnregister) /\
  length (filter (fun e => powerOff e) (trace_of (destroy w (S (S fuel)) m)))
    = 1%nat.
Proof.
  intros Evm H1 H2 H3 Hs3.
  assert (String.eqb s3 "poweroff" || String.eqb s3 "aborted" = true) as Hoff.
  { by destruct Hs3 as [-> | ->]. }
  eassert (destroy w (S (S fuel)) m = _) as ->.
  { unfold destroy.
    eapply bind_step; [reflexivity|].
    eapply bind_step; [by apply get_vm_state_ok|].
    eapply bind_step.
    { change (String.eqb "running" "running") with true. cbn [when].
      eapply bind_step; [reflexivity|].
      eapply bind_step; [cbn [self]; rewrite Evm; reflexivity|].
      eapply bind_step; reflexivity. }
    eapply bind_step.
    { cbn [wait_off].
      eapply bind_step; [by apply get_vm_state_ok|].
      change (String.eqb "stopping" "poweroff" || String.eqb "stopping" "aborted")
        with false. cbv iota.
      eapply bind_step; [reflexivity|].
      eapply bind_step; [by apply get_vm_state_ok|].
      rewrite Hoff. reflexivity. }
    eapply bind_step; [reflexivity|].
    eapply bind_step; [reflexivity|].
    eapply bind_step; [cbn [self]; rewrite Evm; reflexivity|].
    apply checked_call_run. }
  cbn [trace_of result_of fst snd app self stored n_call n_output n_report
       n_isdir n_keys].
  repeat split.
Qed.

Lemma start_plain fuel : emits plain_start (start w name fuel).
Proof.
  assert (forall n, emits plain_start (poll_ip w n)) as Hpoll.
  { induction n as [|n IH]; simpl; walk. }
  unfold start, _get_vm_state, _get_vm_info, _start, _wait_for_ip.
  walk; apply Hpoll.
Qed.

End Lifecycle.

Section StartFlag.

Variable w : World.
Variable name : string.

Lemma bind_trace {A B} (c : M A) (f : A -> M B) m a m1 t1 :
  c m = (inr a, m1, t1) ->
  trace_of (mbind f c m) = t1 ++ trace_of (f a m1).
Proof.
  intros Hc. rewrite bind_run, Hc. by destruct (f a m1) as [[r m2] t2].
Qed.

Lemma bind_trace_prefix {A B} (c : M A) (f : A -> M B) m :
  exists rest, trace_of (mbind f c m) = trace_of (c m) ++ rest.
Proof.
  rewrite bind_run. destruct (c m) as [[[e|a] m1] t1].
  - exists []. by rewrite app_nil_r.
  - destruct (f a m1) as [[r m2] t2]. by exists t2.
Qed.

Lemma start_reaches_startvm headless m vm_id pub :
  _vm_id (self m) = Some vm_id ->
  _client_public_key (self m) = Some pub ->
  exit_status w (n_call m) = 0%Z ->
  exit_status w (S (n_call m)) = 0%Z ->
  exists rest,
    trace_of (_start w headless m)
      = [Call (set_property_argv vm_id ip_property EmptyString) 0;
         Call (set_property_argv vm_id key_property pub) 0;
         Call (startvm_argv vm_id headless)
              (exit_status w (S (S (n_call m))))] ++ rest.
Proof.
  intros Evm Epub H0 H1.
  pose proof (proj2 (Z.eqb_eq _ _) H0) as E0.
  pose proof (proj2 (Z.eqb_eq _ _) H1) as E1.
  unfold _start, startvm_argv. run.
  rewrite E0. run. rewrite E1. run.
  destruct (exit_status w (S (S (n_call m))) =? 0)%Z; run;
    rewrite H0, H1; destruct headless; by eexists.
Qed.

(** C10 (start ignores the headless flag).  No [startvm] that [start]
    issues carries [--type headless]: each is exactly
    [VBoxManage startvm <id>].  And when the machine is not reported
    running and the two guest properties are set, [start] does issue it:
    the run begins with the query, the log line, the two
    [guestproperty set] and [startvm] on the machine, without the flag. *)
Theorem start_ignores_headless fuel m vm_id pub s :
  _vm_id (self m) = Some vm_id ->
  _client_public_key (self m) = Some pub ->
  parse_vm_state (report w (n_report m)) = inr s ->
  s <> "running" ->
  exit_status w (n_call m) = 0%Z ->
  exit_status w (S (n_call m)) = 0%Z ->
  Forall plain_start (trace_of (start w name fuel m)) /\
  exists rest,
    trace_of (start w name fuel m)
      = [query_event w vm_id (n_report m);
         Log "restarting...";
         Call (set_property_argv vm_id ip_property EmptyString) 0;
         Call (set_property_argv vm_id key_property pub) 0;
         Call ["VBoxManage"; "startvm"; vm_id]
              (exit_status w (S (S (n_call m))))] ++ rest.
Proof.
  intros Evm Epub Hs Hne H0 H1.
  split; [apply start_plain|].
  unfold start.
  rewrite (bind_trace _ _ _ _ _ _ (get_vm_state_ok w m vm_id s Evm Hs)).
  apply String.eqb_neq in Hne. rewrite Hne.
  erewrite bind_trace by reflexivity.
  erewrite bind_trace by reflexivity.
  match goal with
  | |- context [trace_of (mbind ?f (_start w false) ?m1)] =>
      destruct (bind_trace_prefix (_start w false) f m1) as [rest ->];
      destruct (start_reaches_startvm false m1 vm_id pub Evm Epub H0 H1)
        as [rest' ->]
  end.
  exists (rest' ++ rest). cbn [n_call startvm_argv app]. reflexivity.
Qed.

End StartFlag.

(** ** Sample runs *)

Lemma create_idempotent_witness :
  provisioned (self (machine_of first_create)) /\
  create calm sample_depl "m1" sample_defn false 5 (machine_of first_create)
    = (inr tt, machine_of first_create, []).
Proof.
  assert (provisioned (self (machine_of first_create))) as H.
  { vm_compute. repeat split. }
  split; [exact H|].
  apply (create_idempotent calm sample_depl "m1" sample_defn 5
           (machine_of first_create) H).
Defined.

Lemma create_resumes_at_attach_witness :
  exists vm_id disk rest,
    _vm_id sample_detached = Some vm_id /\
    _disk sample_detached = Some disk /\
    trace_of (create calm sample_depl "m1" sample_defn false 5
                (boot sample_detached))
      = Call (storagectl_argv vm_id) 0 :: rest /\
    (0 = 0 ->
       exists rest',
         rest = Call (storageattach_argv vm_id disk) 0 :: rest')%Z /\
    Forall not_create_or_clone
      (trace_of (create calm sample_depl "m1" sample_defn false 5
                   (boot sample_detached))).
Proof.
  apply (create_resumes_at_attach calm sample_depl "m1" sample_defn 5
           (boot sample_detached)); reflexivity.
Defined.

Lemma destroy_converges_witness :
  result_of (destroy shutting_down 2 (boot sample_provisioned)) = inr tt /\
  length (filter (fun e => powerOff e)
            (trace_of (destroy shutting_down 2 (boot sample_provisioned))))
    = 1%nat.
Proof.
  assert (parse_vm_state (report shutting_down 0) = inr "running") as H1.
  { vm_compute. reflexivity. }
  assert (parse_vm_state (report shutting_down 1) = inr "stopping") as H2.
  { vm_compute. reflexivity. }
  assert (parse_vm_state (report shutting_down 2) = inr "poweroff") as H3.
  { vm_compute. reflexivity. }
  destruct (destroy_converges shutting_down 0 (boot sample_provisioned)
              "charon-u1-m1" "poweroff" eq_refl H1 H2 H3 (or_introl eq_refl))
    as (_ & Hr & Hn).
  split; [exact Hr | exact Hn].
Defined.

Lemma start_ignores_headless_witness :
  Forall plain_start
    (trace_of (start found_down "m1" 5 (boot sample_provisioned))) /\
  exists rest,
    trace_of (start found_down "m1" 5 (boot sample_provisioned))
      = [query_event found_down "charon-u1-m1" 0;
         Log "restarting...";
         Call (set_property_argv "charon-u1-m1" ip_property EmptyString) 0;
         Call (set_property_argv "charon-u1-m1" key_property "PUB") 0;
         Call ["VBoxManage"; "startvm"; "charon-u1-m1"] 0] ++ rest.
Proof.
  assert (parse_vm_state (report found_down 0) = inr "poweroff") as Hs.
  { vm_compute. reflexivity. }
  assert ("poweroff" <> "running") as Hne by discriminate.
  apply (start_ignores_headless found_down "m1" 5 (boot sample_provisioned)
           "charon-u1-m1" "PUB" "poweroff" eq_refl eq_refl Hs Hne
           eq_refl eq_refl).
Defined.

(** ** Runs that contradict the specification's wording *)

(** C7 as stated fails: the record held 192.168.56.101, the machine
    publishes 192.168.56.102, and the trust record that [create]
    invalidates is that of 192.168.56.102. *)
Lemma invalidation_not_previous :
  _ipv4 (stored (boot sample_provisioned)) = Some "192.168.56.101" /\
  In (KnownHostsRemove "192.168.56.102")
     (trace_of (create found_running sample_depl "m1" sample_defn true 5
                  (boot sample_provisioned))) /\
  ~ invalidates_previous (boot sample_provisioned)
      (trace_of (create found_running sample_depl "m1" sample_defn true 5
                   (boot sample_provisioned))).
Proof.
  assert (In (KnownHostsRemove "192.168.56.102")
            (trace_of (create found_running sample_depl "m1" sample_defn
                         true 5 (boot sample_provisioned)))) as Hin.
  { vm_compute. tauto. }
  split; [reflexivity|]. split; [exact Hin|].
  intros H. specialize (H _ Hin). discriminate H.
Qed.

(** C8 as stated fails: in a first [create], [modifyvm] is the event before
    the two [guestproperty set], not after them. *)
Lemma start_order_not_as_stated :
  trace_of first_create !! 10%nat
    = Some (Call (modifyvm_argv "charon-u1-m1" "512") 0) /\
  trace_of first_create !! 11%nat
    = Some (Call (set_property_argv "charon-u1-m1" ip_property EmptyString) 0)
  /\
  ~ precedes setGuestFact configureResource (trace_of first_create).
Proof.
  assert (trace_of first_create !! 10%nat
          = Some (Call (modifyvm_argv "charon-u1-m1" "512") 0)) as H10.
  { vm_compute. reflexivity. }
  assert (trace_of first_create !! 11%nat
          = Some (Call (set_property_argv "charon-u1-m1" ip_property
                          EmptyString) 0)) as H11.
  { vm_compute. reflexivity. }
  split; [exact H10|]. split; [exact H11|].
  intros H.
  specialize (H 11%nat 10%nat _ _ H11 eq_refl H10 eq_refl). lia.
Qed.

(** C6 fails on the code: [create] generates the key pair in memory and
    does not write the record.  In a first [create] the key pair is
    generated, [modifyvm], the two [guestproperty set] and [startvm] run,
    and only the write after [startvm] stores the keys; and when [modifyvm]
    fails the run ends with the keys in memory and none in the state file. *)
Theorem create_keys_not_persisted :
  (trace_of first_create !! 9%nat = Some (CreateKeyPair "PRIV" "PUB") /\
   trace_of first_create !! 13%nat
     = Some (Call (startvm_argv "charon-u1-m1" true) 0) /\
   _client_private_key (last_write (take 14 (trace_of first_create))
                          init_state) = None /\
   _client_private_key (last_write (take 15 (trace_of first_create))
                          init_state) = Some "PRIV") /\
  (result_of (create modify_fails sample_depl "m1" sample_defn false 5
                (boot init_state)) = inl UnableToModify /\
   In (CreateKeyPair "PRIV" "PUB")
      (trace_of (create modify_fails sample_depl "m1" sample_defn false 5
                   (boot init_state))) /\
   _client_private_key
     (self (machine_of (create modify_fails sample_depl "m1" sample_defn
                          false 5 (boot init_state)))) = Some "PRIV" /\
   _client_private_key
     (stored (machine_of (create modify_fails sample_depl "m1" sample_defn
                            false 5 (boot init_state)))) = None /\
   _client_public_key
     (stored (machine_of (create modify_fails sample_depl "m1" sample_defn
                            false 5 (boot init_state)))) = None).
Proof.
  split.
  - repeat split; vm_compute; reflexivity.
  - split; [vm_compute; reflexivity|].
    split; [vm_compute; tauto|].
    repeat split; vm_compute; reflexivity.
Qed.

(** * Further properties of the code *)

(** ** Reading the state of a machine *)

Lemma split_once_line c k v :
  ~ In c (list_ascii_of_string k) ->
  PyStr.split_once c (k +:+ String c v) = Some (k, v).
Proof.
  induction k as [|d k IH]; simpl; intros Hk.
  - by rewrite Ascii.eqb_refl.
  - destruct (Ascii.eqb c d) eqn:E.
    + apply Ascii.eqb_eq in E. subst. tauto.
    + rewrite IH; [done | tauto].
Qed.

Lemma split_once_none c s :
  ~ In c (list_ascii_of_string s) -> PyStr.split_once c s = None.
Proof.
  induction s as [|d s IH]; simpl; intros Hs; [done|].
  destruct (Ascii.eqb c d) eqn:E.
  - apply Ascii.eqb_eq in E. subst. tauto.
  - rewrite IH; [done | tauto].
Qed.

Lemma parse_vm_info_app l1 l2 acc :
  parse_vm_info (l1 ++ l2) acc
  = match parse_vm_info l1 acc with
    | inl e => inl e
    | inr a => parse_vm_info l2 a
    end.
Proof.
  revert acc. induction l1 as [|l l1 IH]; intros acc; simpl; [done|].
  by destruct (PyStr.split_once PyStr.equals l) as [[k v]|].
Qed.

Lemma parse_vm_info_keyed_but k lines acc :
  all_keyed_but k lines ->
  exists info, parse_vm_info lines acc = inr info /\ info !! k = acc !! k.
Proof.
  revert acc. induction lines as [|l lines IH]; intros acc Hall; simpl.
  - by exists acc.
  - destruct (Hall l (or_introl eq_refl)) as (k' & v & -> & Hk' & Hne).
    unfold line. rewrite split_once_line by exact Hk'.
    destruct (IH (<[k' := v]> acc)) as (info & -> & Hinfo).
    { intros l' Hl'. apply Hall. by right. }
    exists info. split; [done|]. by rewrite Hinfo, lookup_insert_ne.
Qed.

Lemma parse_vm_info_bad_line lines acc l :
  In l lines -> no_equals l -> parse_vm_info lines acc = inl ValueError.
Proof.
  revert acc. induction lines as [|l' lines IH]; intros acc Hin Hl; [done|].
  simpl. destruct Hin as [-> | Hin].
  - by rewrite split_once_none.
  - destruct (PyStr.split_once PyStr.equals l') as [[k v]|]; [|done].
    by apply IH.
Qed.

Lemma parse_vm_info_only_value_error lines acc e :
  parse_vm_info lines acc = inl e -> e = ValueError.
Proof.
  revert acc. induction lines as [|l lines IH]; intros acc; simpl; [done|].
  destruct (PyStr.split_once PyStr.equals l) as [[k v]|]; [apply IH|].
  congruence.
Qed.

Lemma parse_vm_state_nonempty lines :
  lines <> [] ->
  parse_vm_state lines
  = match parse_vm_info lines ∅ with
    | inl e => inl e
    | inr vminfo =>
        match vminfo !! "VMState" with
        | None => inl UnableToGetState
        | Some v => inr (PyStr.remove_char PyStr.dquote v)
        end
    end.
Proof. by destruct lines. Qed.

(** X1.  The ways [_get_vm_state] fails on a report.  An empty report is
    "unable to get info"; a report with a line that has no [=] fails in the
    unpacking of [l.split("=", 1)]; a report whose lines all have a key, none
    of them [VMState], is "unable to get state".  No other exception comes
    out of the parsing. *)
Theorem parse_vm_state_errors (lines : list string) :
  (lines = [] -> parse_vm_state lines = inl UnableToGetInfo) /\
  (forall l, In l lines -> no_equals l ->
     parse_vm_state lines = inl ValueError) /\
  (lines <> [] -> all_keyed_but "VMState" lines ->
     parse_vm_state lines = inl UnableToGetState) /\
  (forall e, parse_vm_state lines = inl e ->
     e = UnableToGetInfo \/ e = ValueError \/ e = UnableToGetState).
Proof.
  split; [by intros ->|]. split; [|split].
  - intros l Hin Hl. rewrite parse_vm_state_nonempty by (by destruct lines).
    by rewrite (parse_vm_info_bad_line _ _ l).
  - intros Hne Hall. rewrite parse_vm_state_nonempty by done.
    destruct (parse_vm_info_keyed_but "VMState" lines ∅ Hall)
      as (info & -> & Hinfo).
    by rewrite Hinfo, lookup_empty.
  - intros e. destruct lines as [|l lines]; [intros [= <-]; by left|].
    rewrite parse_vm_state_nonempty by done.
    destruct (parse_vm_info (l :: lines) ∅) as [e'|info] eqn:E.
    + apply parse_vm_info_only_value_error in E. intros [= <-]. auto.
    + destruct (info !! "VMState"); [done|]. intros [= <-]. auto.
Qed.

Lemma parse_vm_state_errors_witness :
  parse_vm_state ["VMState"] = inl ValueError /\
  parse_vm_state [line "name" "m1"] = inl UnableToGetState.
Proof.
  split.
  - apply (proj1 (proj2 (parse_vm_state_errors ["VMState"])) "VMState").
    + by left.
    + unfold no_equals. simpl. intros [H|[H|[H|[H|[H|[H|[H|H]]]]]]];
        try discriminate H; exact H.
  - apply (proj1 (proj2 (proj2 (parse_vm_state_errors [line "name" "m1"]))));
      [discriminate|].
    intros l [<- | []]. exists "name", "m1". split; [reflexivity|].
    split; [|discriminate].
    unfold no_equals. simpl. intros [H|[H|[H|[H|H]]]];
      try discriminate H; exact H.
Defined.

(** X2.  The report is read as a dictionary: when every line has a key, the
    state returned is the value of the last line whose key is [VMState],
    without its double quotes. *)
Theorem parse_vm_state_last_wins (before after : list string) (v : string) :
  (forall l, In l before -> exists k' v', l = line k' v' /\ no_equals k') ->
  all_keyed_but "VMState" after ->
  parse_vm_state (before ++ line "VMState" v :: after)
    = inr (PyStr.remove_char PyStr.dquote v).
Proof.
  intros Hbefore Hafter.
  rewrite parse_vm_state_nonempty by (by destruct before).
  rewrite parse_vm_info_app.
  assert (exists a, parse_vm_info before ∅ = inr a) as [a ->].
  { generalize (∅ : gmap string string).
    induction before as [|l before IH]; intros acc; simpl; [by eexists|].
    destruct (Hbefore l (or_introl eq_refl)) as (k' & v' & -> & Hk').
    unfold line. rewrite split_once_line by exact Hk'.
    apply IH. intros l' Hl'. apply Hbefore. by right. }
  cbn [parse_vm_info]. unfold line at 1.
  rewrite split_once_line.
  - destruct (parse_vm_info_keyed_but "VMState" after
                (<["VMState" := v]> a) Hafter) as (info & -> & Hinfo).
    by rewrite Hinfo, lookup_insert_eq.
  - simpl. intros [H|[H|[H|[H|[H|[H|[H|H]]]]]]]; try discriminate H; exact H.
Qed.

Lemma parse_vm_state_last_wins_witness :
  parse_vm_state
    ([line "VMState" (quoted "running")]
       ++ line "VMState" (quoted "poweroff") :: [line "name" "m1"])
    = inr "poweroff".
Proof.
  apply (parse_vm_state_last_wins
           [line "VMState" (quoted "running")] [line "name" "m1"]
           (quoted "poweroff")).
  - intros l [<- | []]. exists "VMState", (quoted "running").
    split; [reflexivity|]. unfold no_equals. simpl.
    intros [H|[H|[H|[H|[H|[H|[H|H]]]]]]]; try discriminate H; exact H.
  - intros l [<- | []]. exists "name", "m1". split; [reflexivity|].
    split; [|discriminate].
    unfold no_equals. simpl. intros [H|[H|[H|[H|H]]]];
      try discriminate H; exact H.
Defined.

Lemma remove_char_absent c s :
  ~ In c (list_ascii_of_string (PyStr.remove_char c s)).
Proof.
  induction s as [|d s IH]; simpl; [tauto|].
  destruct (Ascii.eqb c d) eqn:E; [exact IH|].
  simpl. intros [-> | H]; [|tauto].
  by rewrite Ascii.eqb_refl in E.
Qed.

(** X3.  The state [_get_vm_state] returns never contains a double
    quote. *)
Theorem parse_vm_state_unquoted (lines : list string) (s : string) :
  parse_vm_state lines = inr s ->
  ~ In PyStr.dquote (list_ascii_of_string s).
Proof.
  destruct lines as [|l lines]; [discriminate|].
  rewrite parse_vm_state_nonempty by done.
  destruct (parse_vm_info (l :: lines) ∅) as [e|info]; [discriminate|].
  destruct (info !! "VMState") as [v|]; [|discriminate].
  intros [= <-]. apply remove_char_absent.
Qed.

Lemma parse_vm_state_unquoted_witness :
  ~ In PyStr.dquote (list_ascii_of_string "running").
Proof.
  assert (parse_vm_state (state_report "running") = inr "running") as H.
  { vm_compute. reflexivity. }
  exact (parse_vm_state_unquoted (state_report "running") "running" H).
Defined.

(** ** Address discovery *)

Lemma rstrip_no_trailing_space s : ends_with_space (PyStr.rstrip s) = false.
Proof.
  induction s as [|c s IH]; [done|]. cbn [PyStr.rstrip].
  destruct (PyStr.rstrip s) as [|d r] eqn:E.
  - destruct (PyStr.is_space c) eqn:Ec; [done|]. simpl. exact Ec.
  - exact IH.
Qed.

Lemma take_drop_string n s : PyStr.take n s +:+ PyStr.drop n s = s.
Proof.
  revert s. induction n as [|n IH]; intros [|c s]; try done.
  change (String c (PyStr.take n s +:+ PyStr.drop n s) = String c s).
  f_equal. apply IH.
Qed.

Lemma published_address_nonempty out :
  published out = true -> PyStr.nonempty (address_of out) = true.
Proof.
  unfold published, address_of. intros Hp. apply String.eqb_eq in Hp.
  pose proof (rstrip_no_trailing_space out) as Hr.
  pose proof (take_drop_string 7 (PyStr.rstrip out)) as Htd.
  destruct (PyStr.drop 7 (PyStr.rstrip out)) as [|c r]; [|done].
  rewrite Hp in Htd. rewrite <- Htd in Hr. discriminate Hr.
Qed.

Section Discovery.

Variable w : World.
Variable name : string.

(** X4.  The address [_wait_for_ip] records is never empty: after any
    successful run the record in memory and the one in the state file hold
    the same non-empty address, so the assertion of [get_ssh_name] holds. *)
Theorem wait_for_ip_address_nonempty fuel m m' tr :
  _wait_for_ip w name fuel m = (inr tt, m', tr) ->
  exists a,
    _ipv4 (self m') = Some a /\ _ipv4 (stored m') = Some a /\
    PyStr.nonempty a = true /\ get_ssh_name (self m') = Some a.
Proof.
  intros H.
  apply wait_for_ip_inr in H
    as (vm_id & outs & out & _ & Hp & _ & Hs & Hst).
  apply published_address_nonempty in Hp.
  exists (address_of out). rewrite Hst, Hs. unfold get_ssh_name.
  cbn [_ipv4 set_ipv4 truthy]. by rewrite Hp.
Qed.

Lemma poll_ip_waits fuel (outs : list string) out m vm_id :
  _vm_id (self m) = Some vm_id ->
  (forall i o, outs !! i = Some o ->
     output w (n_output m + i) = Some o /\ published o = false) ->
  output w (n_output m + length outs) = Some out ->
  published out = true ->
  length outs < fuel ->
  poll_ip w fuel m
    = (inr tt,
       {| self := set_ipv4 (Some (address_of out)) (self m);
          stored := stored m; n_call := n_call m;
          n_output := n_output m + S (length outs);
          n_report := n_report m; n_isdir := n_isdir m;
          n_keys := n_keys m |},
       still_waiting vm_id outs
         ++ [CheckOutput (get_property_argv vm_id ip_property) (Some out);
             Stderr (" " +:+ address_of out +:+ newline)]).
Proof.
  revert fuel m. induction outs as [|o outs IH]; intros fuel m Evm Houts Hout Hp Hf.
  - destruct fuel as [|fuel]; [simpl in Hf; lia|].
    cbn [poll_ip length] in *. rewrite Nat.add_0_r in Hout. run.
    rewrite Hout. unfold published in Hp. rewrite Hp. run.
    by rewrite Nat.add_1_r.
  - destruct fuel as [|fuel]; [simpl in Hf; lia|].
    cbn [poll_ip length] in *. run.
    destruct (Houts 0%nat o eq_refl) as [Ho Hno].
    rewrite Nat.add_0_r in Ho. rewrite Ho.
    unfold published in Hno. rewrite Hno. run.
    match goal with
    | |- context [poll_ip w fuel ?m1] => rewrite (IH fuel m1 Evm)
    end.
    + cbn [self stored n_call n_output n_report n_isdir n_keys].
      replace (S (n_output m) + S (length outs))%nat
        with (n_output m + S (S (length outs)))%nat by lia.
      reflexivity.
    + intros i o' Hi. cbn [n_output].
      replace (S (n_output m) + i)%nat with (n_output m + S i)%nat by lia.
      by apply Houts.
    + cbn [n_output].
      replace (S (n_output m) + length outs)%nat
        with (n_output m + S (length outs))%nat by lia.
      exact Hout.
    + exact Hp.
    + lia.
Qed.

(** X5.  [_wait_for_ip] polls until the address is published: when the
    next outputs of [guestproperty get] are [outs], none of which publishes
    a value, followed by [out], which does, then with more fuel than
    [outs] has elements the run succeeds; it polls once per element of
    [outs], sleeping after each, reads [out], invalidates the trust record
    of its address and writes the record, which holds that address. *)
Theorem wait_for_ip_polls_until_published
    fuel (outs : list string) out m vm_id :
  _vm_id (self m) = Some vm_id ->
  (forall i o, outs !! i = Some o ->
     output w (n_output m + i) = Some o /\ published o = false) ->
  output w (n_output m + length outs) = Some out ->
  published out = true ->
  length outs < fuel ->
  exists m',
    _wait_for_ip w name fuel m
      = (inr tt, m', discovery_events name vm_id outs out (self m')) /\
    self m' = set_ipv4 (Some (address_of out)) (self m) /\
    stored m' = self m' /\
    n_output m' = (n_output m + S (length outs))%nat.
Proof.
  intros Evm Houts Hout Hp Hf.
  pose proof (poll_ip_waits fuel outs out m vm_id Evm Houts Hout Hp Hf)
    as Hpoll.
  exists {| self := set_ipv4 (Some (address_of out)) (self m);
            stored := set_ipv4 (Some (address_of out)) (self m);
            n_call := n_call m;
            n_output := n_output m + S (length outs);
            n_report := n_report m; n_isdir := n_isdir m;
            n_keys := n_keys m |}.
  split; [|by repeat split].
  unfold _wait_for_ip, discovery_events.
  rewrite bind_run. cbn [stderr_write emit].
  rewrite bind_run, Hpoll. run. rewrite <- app_assoc. reflexivity.
Qed.

End Discovery.

Lemma wait_for_ip_address_nonempty_witness :
  exists a,
    _ipv4 (self (machine_of (_wait_for_ip calm "m1" 5 (boot sample_detached))))
      = Some a /\
    _ipv4 (stored (machine_of
                     (_wait_for_ip calm "m1" 5 (boot sample_detached))))
      = Some a /\
    PyStr.nonempty a = true /\
    get_ssh_name
      (self (machine_of (_wait_for_ip calm "m1" 5 (boot sample_detached))))
      = Some a.
Proof.
  assert (_wait_for_ip calm "m1" 5 (boot sample_detached)
          = (inr tt,
             machine_of (_wait_for_ip calm "m1" 5 (boot sample_detached)),
             trace_of (_wait_for_ip calm "m1" 5 (boot sample_detached))))
    as Hrun.
  { vm_compute. reflexivity. }
  exact (wait_for_ip_address_nonempty calm "m1" 5 (boot sample_detached)
           _ _ Hrun).
Defined.

Lemma wait_for_ip_polls_until_published_witness :
  exists m',
    _wait_for_ip calm "m1" 5 (boot sample_detached)
      = (inr tt, m',
         discovery_events "m1" "charon-u1-m1" ["No value set!"]
           ("Value: 192.168.56.102" +:+ newline) (self m')) /\
    self m' = set_ipv4 (Some "192.168.56.102") sample_detached /\
    stored m' = self m' /\
    n_output m' = 2%nat.
Proof.
  apply (wait_for_ip_polls_until_published calm "m1" 5 ["No value set!"]
           ("Value: 192.168.56.102" +:+ newline) (boot sample_detached)
           "charon-u1-m1" eq_refl).
  - intros [|i] o H; simpl in H.
    + injection H as <-. split; reflexivity.
    + destruct i; discriminate H.
  - reflexivity.
  - reflexivity.
  - simpl. lia.
Defined.

(** ** What each step of [create] does to the record *)

Lemma nonempty_app_l a b :
  PyStr.nonempty a = true -> PyStr.nonempty (a +:+ b) = true.
Proof. by destruct a. Qed.

Lemma nonempty_app_r a b :
  PyStr.nonempty b = true -> PyStr.nonempty (a +:+ b) = true.
Proof. by destruct a. Qed.

Lemma set_disk_attached_same s :
  _disk_attached s = true -> set_disk_attached true s = s.
Proof. destruct s. simpl. by intros ->. Qed.

Lemma set_started_same s b : _started s = b -> set_started b s = s.
Proof. destruct s. simpl. by intros ->. Qed.

Section Steps.

Variable w : World.
Variable depl : Deployment.
Variable name : string.

Lemma create_vm_inr m m' tr :
  create_vm w depl name m = (inr tt, m', tr) ->
  self m' = (if truthy (_vm_id (self m)) then self m
             else set_vm_id (Some ("charon-" +:+ uuid depl +:+ "-" +:+ name))
                    (self m)) /\
  n_keys m' = n_keys m.
Proof.
  unfold create_vm. exec.
  destruct (truthy (_vm_id (self m))); run; [by intros [= <- <-]|].
  destruct (exit_status w (n_call m) =? 0)%Z; run; [|no_run].
  by intros [= <- <-].
Qed.

Lemma create_disk_inr defn m m' tr :
  create_disk w depl name defn m = (inr tt, m', tr) ->
  n_keys m' = n_keys m /\
  ((truthy (_disk (self m)) = true /\ self m' = self m) \/
   (truthy (_disk (self m)) = false /\
    exists h vm_id,
      home w = Some h /\ _vm_id (self m) = Some vm_id /\
      self m' = set_disk
                  (Some ((h +:+ "/VirtualBox VMs/" +:+ vm_id)
                           +:+ "/disk1.vdi"))
                  (self m))).
Proof.
  unfold create_disk. exec.
  destruct (truthy (_disk (self m))) eqn:Hd; run;
    [intros [= <- <-]; split; [done | by left]|].
  destruct (home w) as [h|]; run; [|no_run].
  destruct (_vm_id (self m)) as [vm_id|] eqn:Evm; run; [|no_run].
  destruct (is_dir w (n_isdir m)); run; [|no_run].
  destruct (String.eqb (base_image defn) "drv"); run.
  - destruct (output w (n_output m)) as [o|]; run; [|no_run].
    destruct (exit_status w (n_call m) =? 0)%Z; run; [|no_run].
    intros [= <- <-]. split; [done|]. right. split; [done|].
    by exists h, vm_id.
  - destruct (exit_status w (n_call m) =? 0)%Z; run; [|no_run].
    intros [= <- <-]. split; [done|]. right. split; [done|].
    by exists h, vm_id.
Qed.

Lemma attach_disk_inr m m' tr :
  attach_disk w m = (inr tt, m', tr) ->
  self m' = set_disk_attached true (self m) /\ n_keys m' = n_keys m.
Proof.
  unfold attach_disk. exec.
  destruct (_disk_attached (self m)) eqn:Ha; run.
  { intros [= <- <-]. by rewrite set_disk_attached_same. }
  destruct (_vm_id (self m)) as [vm_id|] eqn:Evm; run; [|no_run].
  destruct (exit_status w (n_call m) =? 0)%Z; run; [|no_run].
  destruct (_disk (self m)) as [disk|] eqn:Ed; run; [|no_run].
  destruct (exit_status w (S (n_call m)) =? 0)%Z; run; [|no_run].
  by intros [= <- <-].
Qed.

Lemma check_running_inr check m m' tr :
  check_running w check m = (inr tt, m', tr) ->
  exists b, self m' = set_started b (self m).
Proof.
  unfold check_running. destruct check; cbn [when].
  - rewrite bind_run, get_vm_state_run.
    destruct (_vm_id (self m)) as [vm_id|]; [|no_run].
    destruct (parse_vm_state (report w (n_report m))) as [e|st]; [no_run|].
    destruct (String.eqb st "running"); run; intros [= <- <-]; by eexists.
  - intros [= <- <-]. exists (_started (self m)).
    by rewrite set_started_same.
Qed.

Lemma ensure_key_pair_self m m' tr :
  ensure_key_pair w m = (inr tt, m', tr) ->
  self m' = (if truthy (_client_private_key (self m)) then self m
             else set_keys (Some (fst (key_pair w (n_keys m))))
                    (Some (snd (key_pair w (n_keys m)))) (self m)).
Proof.
  unfold ensure_key_pair. exec.
  destruct (truthy (_client_private_key (self m))); run;
    by intros [= <- <-].
Qed.

Lemma start_vm_self defn m m' tr :
  start_vm w defn m = (inr tt, m', tr) ->
  self m' = set_started true (self m).
Proof.
  destruct (_started (self m)) eqn:Hst.
  - rewrite (start_vm_skip w defn m Hst). intros [= <- <-].
    by rewrite set_started_same.
  - intros H. by apply (start_vm_inr w defn m m' tr Hst) in H
      as (? & ? & _ & _ & _ & ? & _).
Qed.

Lemma discover_ip_self check fuel m m' tr :
  discover_ip w name check fuel m = (inr tt, m', tr) ->
  truthy (_ipv4 (self m')) = true /\
  exists a, self m' = set_ipv4 a (self m).
Proof.
  rewrite discover_ip_run.
  destruct (negb (truthy (_ipv4 (self m))) || check) eqn:Hc.
  - intros H.
    apply wait_for_ip_inr in H as (vm_id & outs & out & _ & Hp & _ & Hs & _).
    rewrite Hs. cbn [_ipv4 set_ipv4 truthy].
    split; [by apply published_address_nonempty | by eexists].
  - intros [= <- <-]. apply orb_false_iff in Hc as [Hc _].
    apply negb_false_iff in Hc. split; [exact Hc|].
    exists (_ipv4 (self m)). by destruct (self m).
Qed.

(** The tests of [create] that a completed run leaves satisfied. *)
Lemma create_leaves_guards defn check fuel m m' tr :
  (forall n, PyStr.nonempty (fst (key_pair w n)) = true) ->
  create w depl name defn check fuel m = (inr tt, m', tr) ->
  truthy (_vm_id (self m')) = true /\
  truthy (_disk (self m')) = true /\
  _disk_attached (self m') = true /\
  truthy (_client_private_key (self m')) = true /\
  _started (self m') = true /\
  truthy (_ipv4 (self m')) = true.
Proof.
  intros Hkeys H.
  apply create_inr in H
    as (m1 & m2 & m3 & m4 & m5 & m6 & t1 & t2 & t3 & t4 & t5 & t6 & t7
        & H1 & H2 & H3 & H4 & H5 & H6 & H7 & ->).
  apply create_vm_inr in H1 as [H1 _]. apply create_disk_inr in H2 as [_ H2].
  apply attach_disk_inr in H3 as [H3 _].
  apply check_running_inr in H4 as [b H4].
  apply ensure_key_pair_self in H5. apply start_vm_self in H6.
  apply discover_ip_self in H7 as [Hip [a H7]].
  assert (truthy (_vm_id (self m1)) = true) as Hvm.
  { rewrite H1. destruct (truthy (_vm_id (self m))) eqn:E; [exact E|].
    cbn [_vm_id set_vm_id truthy]. by apply nonempty_app_l. }
  assert (truthy (_disk (self m2)) = true /\
          _vm_id (self m2) = _vm_id (self m1)) as [Hdisk E2].
  { destruct H2 as [[Hd ->] | [_ (h & vm_id & _ & _ & ->)]]; [done|].
    split; [|done]. cbn [_disk set_disk truthy]. by apply nonempty_app_r. }
  assert (truthy (_client_private_key (self m5)) = true /\
          _vm_id (self m5) = _vm_id (self m4) /\
          _disk (self m5) = _disk (self m4) /\
          _disk_attached (self m5) = _disk_attached (self m4))
    as (Hpriv & E5 & E5' & E5'').
  { rewrite H5.
    destruct (truthy (_client_private_key (self m4))) eqn:E; [done|].
    cbn [set_keys _client_private_key _vm_id _disk _disk_attached truthy].
    by rewrite Hkeys. }
  rewrite H7, H6. cbn [set_ipv4 set_started _vm_id _disk _disk_attached
                        _client_private_key _started _ipv4].
  rewrite H7 in Hip. cbn [set_ipv4 _ipv4] in Hip.
  rewrite E5, E5', E5'', H4, H3.
  cbn [set_started set_disk_attached _vm_id _disk _disk_attached].
  by rewrite E2.
Qed.

(** X6.  Two calls of [create] in succession: after a run of [create] that
    succeeded (with either value of [check], on any record), a second
    [create] with [check = false] causes no event and leaves everything as
    it is, provided the key generator never returns an empty private
    key. *)
Theorem create_twice defn check fuel fuel' m m' tr :
  (forall n, PyStr.nonempty (fst (key_pair w n)) = true) ->
  create w depl name defn check fuel m = (inr tt, m', tr) ->
  create w depl name defn false fuel' m' = (inr tt, m', []).
Proof.
  intros Hkeys H.
  destruct (create_leaves_guards defn check fuel m m' tr Hkeys H)
    as (Hvm & Hdisk & Hatt & Hpriv & Hst & Hip).
  unfold create.
  rewrite (bind_pure _ _ _ _ (create_vm_skip w depl name _ Hvm)).
  rewrite (bind_pure _ _ _ _ (create_disk_skip w depl name _ _ Hdisk)).
  rewrite (bind_pure _ _ _ _ (attach_disk_skip w _ Hatt)).
  rewrite (bind_pure _ _ _ _ (check_running_skip w _)).
  rewrite (bind_pure _ _ _ _ (ensure_key_pair_skip w _ Hpriv)).
  rewrite (bind_pure _ _ _ _ (start_vm_skip w _ _ Hst)).
  by apply discover_ip_skip.
Qed.

(** X7.  A first [create]: on a record with nothing set, a run of
    [create] with [check = false] that succeeds leaves the machine named
    [charon-<uuid>-<name>], the disk [disk1.vdi] in the directory of that
    machine under [$HOME/VirtualBox VMs], the disk attached, the machine
    started, the next key pair of the generator, and a non-empty address;
    the state file holds the same record. *)
Theorem create_fresh_record defn fuel m m' tr :
  self m = init_state ->
  create w depl name defn false fuel m = (inr tt, m', tr) ->
  exists h a,
    home w = Some h /\ PyStr.nonempty a = true /\
    self m'
      = {| _vm_id := Some ("charon-" +:+ uuid depl +:+ "-" +:+ name);
           _ipv4 := Some a;
           _disk :=
             Some ((h +:+ "/VirtualBox VMs/"
                      +:+ ("charon-" +:+ uuid depl +:+ "-" +:+ name))
                     +:+ "/disk1.vdi");
           _disk_attached := true;
           _started := true;
           _client_private_key := Some (fst (key_pair w (n_keys m)));
           _client_public_key := Some (snd (key_pair w (n_keys m))) |} /\
    stored m' = self m'.
Proof.
  intros Hinit H.
  apply create_inr in H
    as (m1 & m2 & m3 & m4 & m5 & m6 & t1 & t2 & t3 & t4 & t5 & t6 & t7
        & H1 & H2 & H3 & H4 & H5 & H6 & H7 & ->).
  apply create_vm_inr in H1 as [H1 K1].
  apply create_disk_inr in H2 as [K2 H2].
  apply attach_disk_inr in H3 as [H3 K3].
  rewrite check_running_skip in H4. injection H4 as <- <-.
  apply ensure_key_pair_self in H5. apply start_vm_self in H6.
  rewrite Hinit in H1. cbn [truthy _vm_id init_state] in H1.
  rewrite H1 in H2. cbn [set_vm_id _disk _vm_id init_state truthy] in H2.
  destruct H2 as [[Hd _] | [_ (h & vm_id & Hh & [= <-] & H2)]];
    [discriminate Hd|].
  rewrite H2 in H3. rewrite H3 in H5.
  cbn [set_disk set_disk_attached set_vm_id _client_private_key truthy
       _vm_id _ipv4 _disk _disk_attached _started _client_public_key] in H5.
  rewrite H5 in H6.
  rewrite discover_ip_run in H7. rewrite H6 in H7.
  cbn [set_started set_keys _ipv4 truthy negb orb] in H7.
  apply wait_for_ip_inr in H7
    as (vm_id & outs & out & _ & Hp & _ & Hs & Hst).
  exists h, (address_of out).
  split; [exact Hh|]. split; [by apply published_address_nonempty|].
  split; [|exact Hst].
  rewrite Hs, H6. cbn [set_ipv4 set_started set_keys _vm_id _ipv4 _disk
                        _disk_attached _started _client_private_key
                        _client_public_key].
  by rewrite K3, K2, K1.
Qed.

End Steps.

Lemma create_twice_witness :
  create calm sample_depl "m1" sample_defn false 0 (machine_of first_create)
    = (inr tt, machine_of first_create, []).
Proof.
  assert (forall n, PyStr.nonempty (fst (key_pair calm n)) = true) as Hkeys.
  { intros n. reflexivity. }
  assert (create calm sample_depl "m1" sample_defn false 5 (boot init_state)
          = (inr tt, machine_of first_create, trace_of first_create)) as Hrun.
  { vm_compute. reflexivity. }
  exact (create_twice calm sample_depl "m1" sample_defn false 5 0
           (boot init_state) (machine_of first_create)
           (trace_of first_create) Hkeys Hrun).
Defined.

Lemma create_fresh_record_witness :
  exists h a,
    home calm = Some h /\ PyStr.nonempty a = true /\
    self (machine_of first_create)
      = {| _vm_id := Some ("charon-" +:+ uuid sample_depl +:+ "-" +:+ "m1");
           _ipv4 := Some a;
           _disk :=
             Some ((h +:+ "/VirtualBox VMs/"
                      +:+ ("charon-" +:+ uuid sample_depl +:+ "-" +:+ "m1"))
                     +:+ "/disk1.vdi");
           _disk_attached := true;
           _started := true;
           _client_private_key := Some (fst (key_pair calm 0));
           _client_public_key := Some (snd (key_pair calm 0)) |} /\
    stored (machine_of first_create) = self (machine_of first_create).
Proof.
  assert (create calm sample_depl "m1" sample_defn false 5 (boot init_state)
          = (inr tt, machine_of first_create, trace_of first_create)) as Hrun.
  { vm_compute. reflexivity. }
  exact (create_fresh_record calm sample_depl "m1" sample_defn 5
           (boot init_state) (machine_of first_create)
           (trace_of first_create) eq_refl Hrun).
Defined.

(** ** What the operations never do *)

Section Never.

Variable w : World.
Variable depl : Deployment.
Variable name : string.

Lemma poll_ip_not_destroying fuel : emits not_destroying (poll_ip w fuel).
Proof. induction fuel as [|fuel IH]; simpl; walk. Qed.

Lemma poll_ip_starting_only fuel : emits starting_only (poll_ip w fuel).
Proof.
  induction fuel as [|fuel IH]; simpl; walk;
    try (apply emits_check_output; intros; intros H; discriminate H).
Qed.

(** X8.  [create] and [start] never power a machine off and never delete
    one: no event of any of their runs is [controlvm] or [unregistervm]. *)
Theorem create_and_start_never_destroy defn check fuel m :
  Forall not_destroying (trace_of (create w depl name defn check fuel m)) /\
  Forall not_destroying (trace_of (start w name fuel m)).
Proof.
  split.
  - generalize m. change (emits not_destroying
                            (create w depl name defn check fuel)).
    unfold create, create_vm, create_disk, attach_disk, check_running,
      ensure_key_pair, start_vm, discover_ip, _get_vm_state, _get_vm_info,
      _start, _wait_for_ip.
    walk; apply poll_ip_not_destroying.
  - generalize m. change (emits not_destroying (start w name fuel)).
    unfold start, _get_vm_state, _get_vm_info, _start, _wait_for_ip.
    walk; apply poll_ip_not_destroying.
Qed.

(** X9.  [start] does not reconfigure the machine: the only one-shot
    commands of any of its runs are [guestproperty] and [startvm]; in
    particular it issues no [modifyvm]. *)
Theorem start_only_starts fuel m :
  Forall starting_only (trace_of (start w name fuel m)) /\
  Forall (fun e => configureResource e = false)
    (trace_of (start w name fuel m)).
Proof.
  split.
  - generalize m. change (emits starting_only (start w name fuel)).
    unfold start, _get_vm_state, _get_vm_info, _start, _wait_for_ip.
    walk;
      try apply poll_ip_starting_only;
      try (apply emits_checked_call; intros rc _;
           first [left; reflexivity | right; reflexivity]).
  - generalize m.
    change (emits (fun e => configureResource e = false) (start w name fuel)).
    assert (forall n, emits (fun e => configureResource e = false)
                        (poll_ip w n)) as Hpoll.
    { induction n as [|n IH]; simpl; walk. }
    unfold start, _get_vm_state, _get_vm_info, _start, _wait_for_ip.
    walk; apply Hpoll.
Qed.

End Never.

(** ** The record after [destroy] *)

Lemma same_record_trans a b c :
  same_record a b -> same_record b c -> same_record a c.
Proof. unfold same_record. intros [-> ->] [-> ->]. done. Qed.

Lemma keeps_bind_rel {A B} (R : Machine -> Machine -> Prop)
    (c : M A) (f : A -> M B) :
  (forall a b c, R a b -> R b c -> R a c) ->
  keeps R c -> (forall a, keeps R (f a)) -> keeps R (mbind f c).
Proof.
  intros Htrans Hc Hf m. rewrite bind_run. specialize (Hc m).
  destruct (c m) as [[[e|a] m1] t1]; [exact Hc|].
  specialize (Hf a m1). destruct (f a m1) as [[r m2] t2].
  unfold machine_of in *. simpl in *. by eapply Htrans.
Qed.

Lemma keeps_record_as_str f : keeps same_record (as_str f).
Proof. by destruct f. Qed.

Lemma keeps_record_checked_call w argv e :
  keeps same_record (checked_call w argv e).
Proof.
  intros m. unfold checked_call. exec.
  by destruct (exit_status w (n_call m) =? 0)%Z.
Qed.

Lemma keeps_record_lift_exn {A} (r : exn + A) : keeps same_record (lift_exn r).
Proof. by destruct r. Qed.

Ltac record_walk :=
  repeat
    (intros;
     lazymatch goal with
     | |- keeps same_record (mbind _ _) =>
         apply (keeps_bind_rel same_record _ _ same_record_trans)
     | |- keeps _ (when ?c _) => unfold when
     | |- keeps _ (lift_exn _) => apply keeps_record_lift_exn
     | |- keeps _ (as_str _) => apply keeps_record_as_str
     | |- keeps _ (checked_call _ _ _) => apply keeps_record_checked_call
     | |- keeps _ (match ?x with _ => _ end) => destruct x
     | |- keeps same_record _ => solve [assumption | intros ?; split; reflexivity]
     end).

Section Destroy.

Variable w : World.

Lemma keeps_record_get_vm_state : keeps same_record (_get_vm_state w).
Proof. unfold _get_vm_state, _get_vm_info. record_walk. Qed.

Lemma keeps_record_wait_off fuel : keeps same_record (wait_off w fuel).
Proof.
  induction fuel as [|fuel IH]; cbn [wait_off]; record_walk.
  apply keeps_record_get_vm_state.
Qed.

Lemma destroy_not_writing fuel : emits not_writing (destroy w fuel).
Proof.
  assert (forall n, emits not_writing (wait_off w n)) as Hwait.
  { induction n as [|n IH]; cbn [wait_off];
      unfold _get_vm_state, _get_vm_info; walk. }
  unfold destroy, _get_vm_state, _get_vm_info. walk; apply Hwait.
Qed.

(** X10.  [destroy] leaves the record alone: whatever the run, the object
    in memory and the state file are as they were, and no event is a
    write.  After a machine has been deleted its record still names it. *)
Theorem destroy_leaves_record fuel m :
  same_record m (machine_of (destroy w fuel m)) /\
  Forall not_writing (trace_of (destroy w fuel m)).
Proof.
  split; [|apply destroy_not_writing].
  generalize m. change (keeps same_record (destroy w fuel)).
  unfold destroy. record_walk;
    auto using keeps_record_get_vm_state, keeps_record_wait_off.
Qed.

(** X11.  [destroy] powers off only a running machine: when the first
    state read is anything but [running], no [controlvm poweroff] is
    issued in the whole run. *)
Theorem destroy_skips_poweroff fuel m vm_id s :
  _vm_id (self m) = Some vm_id ->
  parse_vm_state (report w (n_report m)) = inr s ->
  s <> "running" ->
  Forall (fun e => powerOff e = false) (trace_of (destroy w fuel m)).
Proof.
  intros Evm Hs Hne. unfold destroy.
  erewrite bind_trace by reflexivity.
  rewrite (bind_trace _ _ _ _ _ _ (get_vm_state_ok w _ vm_id s Evm Hs)).
  apply String.eqb_neq in Hne. rewrite Hne. cbn [when].
  repeat (apply Forall_cons; split; [reflexivity|]).
  match goal with
  | |- Forall ?P (trace_of (?c ?m1)) => generalize m1; change (emits P c)
  end.
  assert (forall n, emits (fun e => powerOff e = false) (wait_off w n))
    as Hwait.
  { induction n as [|n IH]; cbn [wait_off];
      unfold _get_vm_state, _get_vm_info; walk. }
  walk; apply Hwait.
Qed.

End Destroy.

Lemma destroy_skips_poweroff_witness :
  Forall (fun e => powerOff e = false)
    (trace_of (destroy found_down 3 (boot sample_provisioned))).
Proof.
  assert (parse_vm_state (report found_down 0) = inr "poweroff") as Hs.
  { vm_compute. reflexivity. }
  assert ("poweroff" <> "running") as Hne by discriminate.
  exact (destroy_skips_poweroff found_down 3 (boot sample_provisioned)
           "charon-u1-m1" "poweroff" eq_refl Hs Hne).
Defined.

(** ** [start] and [_start] *)

Section Restart.

Variable w : World.
Variable name : string.

(** X12.  [start] on a running machine does nothing: one state query, no
    other event, and the record is not touched. *)
Theorem start_noop_when_running fuel m vm_id :
  _vm_id (self m) = Some vm_id ->
  parse_vm_state (report w (n_report m)) = inr "running" ->
  start w name fuel m
    = (inr tt, after_query m, [query_event w vm_id (n_report m)]).
Proof.
  intros Evm Hs. unfold start.
  rewrite bind_run, (get_vm_state_ok w m vm_id _ Evm Hs).
  reflexivity.
Qed.

Lemma still_waiting_not_warning vm_id outs :
  Forall not_warning (still_waiting vm_id outs).
Proof.
  induction outs as [|o outs IH]; [constructor|].
  cbn [still_waiting flat_map app]. by repeat constructor.
Qed.

(** X13.  [start] warns exactly when the address has changed: in a
    successful run on a machine that was not running, the warning is among
    the events if and only if the address in the record after the run
    differs from the one before it; either way the run succeeds. *)
Theorem start_warns_iff_changed fuel m m' tr s :
  parse_vm_state (report w (n_report m)) = inr s ->
  s <> "running" ->
  start w name fuel m = (inr tt, m', tr) ->
  (In address_changed tr <-> _ipv4 (self m') <> _ipv4 (self m)) /\
  _started (self m') = true /\ stored m' = self m'.
Proof.
  intros Hs Hne H. unfold start in H.
  apply bind_inr in H as (st & m1 & t1 & ? & H1 & H & ->).
  rewrite get_vm_state_run in H1.
  destruct (_vm_id (self m)) as [vm_id|] eqn:Evm; [|discriminate H1].
  rewrite Hs in H1. injection H1 as <- <- <-.
  apply String.eqb_neq in Hne. rewrite Hne in H.
  apply bind_inr in H as ([] & m2 & t2 & ? & H2 & H & ->).
  exec_in H2. injection H2 as <- <-.
  rewrite bind_run in H. cbn [get_self self] in H.
  match type of H with
  | context [mbind ?f (_start w false) ?m0] =>
      destruct (mbind f (_start w false) m0) as [[r5 m5] t5] eqn:H'
  end.
  rewrite app_nil_l in H. injection H as -> -> ->.
  apply bind_inr in H' as ([] & m3 & t3 & ? & H3 & H & ->).
  apply start_inr in H3 as (vm_id' & pub & _ & _ & -> & Hs3 & _).
  apply bind_inr in H as ([] & m4 & t4 & t6 & H4 & H & ->).
  apply wait_for_ip_inr in H4
    as (vm_id'' & outs & out & _ & _ & -> & Hs4 & Hst4).
  exec_in H. cbn [self] in Hs3.
  destruct (bool_decide (_ipv4 (self m) = _ipv4 (self m4))) eqn:Hd;
    exec_in H; injection H as <- <-.
  - apply bool_decide_eq_true in Hd.
    split; [|by rewrite Hst4, Hs4, Hs3].
    split; [|by intros Hc; rewrite Hd in Hc].
    intros Hin. exfalso.
    assert (Forall not_warning
              ([query_event w vm_id (n_report m)] ++ [Log "restarting..."]
               ++ (start_events vm_id' pub false
                     (set_started true (self m))
                   ++ discovery_events name vm_id'' outs out (self m4)
                   ++ []))) as Hall.
    { unfold start_events, discovery_events.
      repeat first [ apply Forall_cons; split; [exact I|]
                   | apply Forall_app; split
                   | apply still_waiting_not_warning
                   | apply Forall_nil_2 ]. }
    rewrite Forall_forall in Hall.
    exact (Hall _ (proj2 (list_elem_of_In _ _) Hin)).
  - apply bool_decide_eq_false in Hd.
    split; [|by rewrite Hst4, Hs4, Hs3].
    split; [intros _; congruence|]. intros _.
    unfold address_changed.
    repeat (apply in_or_app; right). by left.
Qed.

(** X14.  A run of [_start] that fails leaves the record alone: the
    object in memory and the state file are as they were, nothing is
    written, and the exception is that of the command that failed (or the
    [TypeError] of an argument that is [None]). *)
Theorem start_failure_leaves_record headless m e :
  result_of (_start w headless m) = inl e ->
  same_record m (machine_of (_start w headless m)) /\
  Forall not_writing (trace_of (_start w headless m)) /\
  (e = TypeError \/ e = UnableToClearIP \/ e = UnableToSetClientKey \/
   e = UnableToStart).
Proof.
  unfold _start. exec.
  destruct (_vm_id (self m)) as [vm_id|] eqn:Evm; run.
  2: { intros [= <-]. repeat split; auto. }
  destruct (exit_status w (n_call m) =? 0)%Z; run.
  2: { intros [= <-]. repeat split; auto. by repeat constructor. }
  destruct (_client_public_key (self m)) as [pub|] eqn:Epub; run.
  2: { intros [= <-]. repeat split; auto. by repeat constructor. }
  destruct (exit_status w (S (n_call m)) =? 0)%Z; run.
  2: { intros [= <-]. repeat split; auto 6. by repeat constructor. }
  destruct (exit_status w (S (S (n_call m))) =? 0)%Z; run.
  - discriminate.
  - intros [= <-]. repeat split; auto 6. by repeat constructor.
Qed.

End Restart.

Lemma start_noop_when_running_witness :
  start found_running "m1" 5 (boot sample_provisioned)
    = (inr tt, after_query (boot sample_provisioned),
       [query_event found_running "charon-u1-m1" 0]).
Proof.
  assert (parse_vm_state (report found_running 0) = inr "running") as Hs.
  { vm_compute. reflexivity. }
  exact (start_noop_when_running found_running "m1" 5
           (boot sample_provisioned) "charon-u1-m1" eq_refl Hs).
Defined.

Lemma start_warns_iff_changed_witness :
  In address_changed
    (trace_of (start found_down "m1" 5 (boot sample_provisioned))).
Proof.
  assert (parse_vm_state (report found_down 0) = inr "poweroff") as Hs.
  { vm_compute. reflexivity. }
  assert ("poweroff" <> "running") as Hne by discriminate.
  assert (start found_down "m1" 5 (boot sample_provisioned)
          = (inr tt,
             machine_of (start found_down "m1" 5 (boot sample_provisioned)),
             trace_of (start found_down "m1" 5 (boot sample_provisioned))))
    as Hrun.
  { vm_compute. reflexivity. }
  destruct (start_warns_iff_changed found_down "m1" 5
              (boot sample_provisioned) _ _ "poweroff" Hs Hne Hrun)
    as [[_ Hwarn] _].
  apply Hwarn. vm_compute. discriminate.
Defined.

Lemma start_failure_leaves_record_witness :
  same_record (boot sample_provisioned)
    (machine_of (_start (scripted [0; 1]%Z [] []) true
                   (boot sample_provisioned))).
Proof.
  assert (result_of (_start (scripted [0; 1]%Z [] []) true
                       (boot sample_provisioned))
          = inl UnableToSetClientKey) as Hr.
  { vm_compute. reflexivity. }
  exact (proj1 (start_failure_leaves_record (scripted [0; 1]%Z [] []) true
                  (boot sample_provisioned) UnableToSetClientKey Hr)).
Defined.

(** ** [stop] *)

Section Stopping.

Variable w : World.
Variable run_command : string -> M unit.

(** X15.  [stop] on a machine that is not running does nothing: one state
    query, no shutdown request, and the record is not touched. *)
Theorem stop_noop_unless_running fuel m vm_id s :
  _vm_id (self m) = Some vm_id ->
  parse_vm_state (report w (n_report m)) = inr s ->
  s <> "running" ->
  stop w run_command fuel m
    = (inr tt, after_query m, [query_event w vm_id (n_report m)]).
Proof.
  intros Evm Hs Hne. unfold stop.
  rewrite bind_run, (get_vm_state_ok w m vm_id _ Evm Hs).
  apply String.eqb_neq in Hne. rewrite Hne. reflexivity.
Qed.

(** X16.  A [stop] that goes through records it: when the machine was
    running and the run succeeds, the last event is the write of the
    record, which has [_started] false and is the record left in memory and
    in the state file. *)
Theorem stop_persists_stopped fuel m m' tr :
  parse_vm_state (report w (n_report m)) = inr "running" ->
  stop w run_command fuel m = (inr tt, m', tr) ->
  exists before,
    tr = before ++ [Write (self m')] /\
    _started (self m') = false /\ stored m' = self m'.
Proof.
  intros Hs H. unfold stop in H.
  apply bind_inr in H as (st & m1 & t1 & ? & H1 & H & ->).
  rewrite get_vm_state_run in H1.
  destruct (_vm_id (self m)) as [vm_id|]; [|discriminate H1].
  rewrite Hs in H1. injection H1 as <- <- <-.
  change (negb (String.eqb "running" "running")) with false in H.
  cbv iota in H.
  apply bind_inr in H as ([] & m2 & t2 & ? & _ & H & ->).
  apply bind_inr in H as ([] & m3 & t3 & ? & _ & H & ->).
  apply bind_inr in H as ([] & m4 & t4 & ? & _ & H & ->).
  apply bind_inr in H as ([] & m5 & t5 & t6 & H5 & H & ->).
  exec_in H5. injection H5 as <- <-. exec_in H. injection H as <- <-.
  exists ([query_event w vm_id (n_report m)] ++ t2 ++ t3 ++ t4).
  split; [|done]. cbn [self set_started]. by rewrite <- !app_assoc.
Qed.

End Stopping.

Section Loops.

Variable w : World.

Lemma wait_poweroff_aborted fuel m vm_id :
  _vm_id (self m) = Some vm_id ->
  (forall k, parse_vm_state (report w (n_report m + k)) = inr "aborted") ->
  result_of (wait_poweroff w fuel m) = inl OutOfFuel.
Proof.
  revert m. induction fuel as [|fuel IH]; intros m Evm Hall; [done|].
  cbn [wait_poweroff].
  pose proof (Hall 0%nat) as H0. rewrite Nat.add_0_r in H0.
  rewrite bind_run, (get_vm_state_ok w m vm_id _ Evm H0).
  change (String.eqb "aborted" "poweroff") with false. cbv iota.
  rewrite bind_run. cbn [sleep emit].
  specialize (IH (after_query m) Evm). unfold after_query in IH.
  match goal with
  | |- context [wait_poweroff w fuel ?m1] =>
      destruct (wait_poweroff w fuel m1) as [[r m2] t2]
  end.
  cbn [result_of fst] in *. apply IH. intros k. cbn [n_report].
  replace (S (n_report m) + k)%nat with (n_report m + S k)%nat by lia.
  apply Hall.
Qed.

(** X17.  The two polling loops differ: the loop of [destroy] ends as soon
    as the machine is reported [aborted], the loop of [stop] does not; on a
    machine that stays [aborted] the loop of [stop] never ends, whatever
    the bound on its iterations. *)
Theorem aborted_ends_destroy_not_stop fuel m vm_id :
  _vm_id (self m) = Some vm_id ->
  (forall k, parse_vm_state (report w (n_report m + k)) = inr "aborted") ->
  wait_off w (S fuel) m
    = (inr tt, after_query m, [query_event w vm_id (n_report m)]) /\
  result_of (wait_poweroff w fuel m) = inl OutOfFuel.
Proof.
  intros Evm Hall. split; [|by eapply wait_poweroff_aborted].
  cbn [wait_off].
  pose proof (Hall 0%nat) as H0. rewrite Nat.add_0_r in H0.
  rewrite bind_run, (get_vm_state_ok w m vm_id _ Evm H0).
  reflexivity.
Qed.

End Loops.

Lemma stop_noop_unless_running_witness :
  stop found_down (fun _ => ret tt) 5 (boot sample_provisioned)
    = (inr tt, after_query (boot sample_provisioned),
       [query_event found_down "charon-u1-m1" 0]).
Proof.
  assert (parse_vm_state (report found_down 0) = inr "poweroff") as Hs.
  { vm_compute. reflexivity. }
  assert ("poweroff" <> "running") as Hne by discriminate.
  exact (stop_noop_unless_running found_down (fun _ => ret tt) 5
           (boot sample_provisioned) "charon-u1-m1" "poweroff" eq_refl Hs Hne).
Defined.

Lemma stop_persists_stopped_witness :
  _started (stored (machine_of
     (stop (scripted [] ["running"] []) (fun _ => ret tt) 5
        (boot sample_provisioned)))) = false.
Proof.
  pose (run := stop (scripted [] ["running"] []) (fun _ => ret tt) 5
                 (boot sample_provisioned)).
  assert (parse_vm_state (report (scripted [] ["running"] []) 0)
          = inr "running") as Hs.
  { vm_compute. reflexivity. }
  assert (run = (inr tt, machine_of run, trace_of run)) as Hrun.
  { vm_compute. reflexivity. }
  destruct (stop_persists_stopped (scripted [] ["running"] [])
              (fun _ => ret tt) 5 (boot sample_provisioned) _ _ Hs Hrun)
    as (before & _ & Hst & Hstored).
  subst run. rewrite Hstored. exact Hst.
Defined.

Lemma aborted_ends_destroy_not_stop_witness :
  wait_off stays_aborted 8 (boot sample_provisioned)
    = (inr tt, after_query (boot sample_provisioned),
       [query_event stays_aborted "charon-u1-m1" 0]) /\
  result_of (wait_poweroff stays_aborted 7 (boot sample_provisioned))
    = inl OutOfFuel.
Proof.
  assert (forall k,
            parse_vm_state
              (report stays_aborted (n_report (boot sample_provisioned) + k))
            = inr "aborted") as Hall.
  { intros k. vm_compute. reflexivity. }
  exact (aborted_ends_destroy_not_stop stays_aborted 7
           (boot sample_provisioned) "charon-u1-m1" eq_refl Hall).
Defined.

(** ** More on [create] *)

Section Revalidate.

Variable w : World.
Variable depl : Deployment.
Variable name : string.

(** X18.  Re-validation of a machine that is running: on a record whose
    machine, disk, attachment and keys are in place, [create] with
    [check = true] and a machine reported [running] queries the state, sets
    [_started] in memory, and goes straight to the address discovery: it
    issues no one-shot command, and its result is that of
    [_wait_for_ip]. *)
Theorem create_check_running defn fuel m vm_id :
  _vm_id (self m) = Some vm_id ->
  truthy (_vm_id (self m)) = true ->
  truthy (_disk (self m)) = true ->
  _disk_attached (self m) = true ->
  truthy (_client_private_key (self m)) = true ->
  parse_vm_state (report w (n_report m)) = inr "running" ->
  create w depl name defn true fuel m
    = (result_of (_wait_for_ip w name fuel
                    (with_self (set_started true) (after_query m))),
       machine_of (_wait_for_ip w name fuel
                     (with_self (set_started true) (after_query m))),
       query_event w vm_id (n_report m)
         :: trace_of (_wait_for_ip w name fuel
                        (with_self (set_started true) (after_query m)))).
Proof.
  intros Evm Hvm Hdisk Hatt Hpriv Hs. unfold create.
  rewrite (bind_pure _ _ _ _ (create_vm_skip w depl name _ Hvm)).
  rewrite (bind_pure _ _ _ _ (create_disk_skip w depl name _ _ Hdisk)).
  rewrite (bind_pure _ _ _ _ (attach_disk_skip w _ Hatt)).
  assert (check_running w true m
          = (inr tt, with_self (set_started true) (after_query m),
             [query_event w vm_id (n_report m)])) as Hcheck.
  { unfold check_running. cbn [when].
    rewrite bind_run, (get_vm_state_ok w m vm_id _ Evm Hs). reflexivity. }
  rewrite bind_run, Hcheck.
  rewrite (bind_pure _ _ _ _
             (ensure_key_pair_skip w
                (with_self (set_started true) (after_query m)) Hpriv)).
  rewrite (bind_pure _ _ _ _
             (start_vm_skip w defn
                (with_self (set_started true) (after_query m)) eq_refl)).
  rewrite discover_ip_run, orb_true_r.
  by destruct (_wait_for_ip w name fuel
                 (with_self (set_started true) (after_query m)))
    as [[r m'] t].
Qed.

(** X19.  A failure while the disk is being made leaves the record
    alone: whatever makes the second step of [create] fail, the object in
    memory and the state file are as they were and nothing is written; and
    unless the failure is that of [clonehd] itself, no one-shot command was
    issued. *)
Theorem create_disk_failure defn m e :
  result_of (create_disk w depl name defn m) = inl e ->
  same_record m (machine_of (create_disk w depl name defn m)) /\
  Forall not_writing (trace_of (create_disk w depl name defn m)) /\
  (e = KeyError \/ e = TypeError \/ e = CannotFindDirectory \/
   e = UnableToBuildBaseImage \/ e = UnableToCopyDisk) /\
  (e <> UnableToCopyDisk ->
   Forall (fun ev => mutating ev = false)
     (trace_of (create_disk w depl name defn m))).
Proof.
  unfold create_disk. exec.
  destruct (truthy (_disk (self m))); run; [discriminate|].
  destruct (home w) as [h|]; run.
  2: { intros [= <-]. repeat split; auto. }
  destruct (_vm_id (self m)) as [vm_id|]; run.
  2: { intros [= <-]. repeat split; auto. }
  destruct (is_dir w (n_isdir m)); run.
  2: { intros [= <-]. repeat split; auto; by repeat constructor. }
  destruct (String.eqb (base_image defn) "drv"); run.
  - destruct (output w (n_output m)) as [o|]; run.
    2: { intros [= <-]. repeat split; auto 6; by repeat constructor. }
    destruct (exit_status w (n_call m) =? 0)%Z; run; [discriminate|].
    intros [= <-]. repeat split; auto 6; by repeat constructor.
  - destruct (exit_status w (n_call m) =? 0)%Z; run; [discriminate|].
    intros [= <-]. repeat split; auto 6; by repeat constructor.
Qed.

End Revalidate.

Lemma create_check_running_witness :
  result_of (create found_running sample_depl "m1" sample_defn true 5
               (boot sample_provisioned))
    = result_of (_wait_for_ip found_running "m1" 5
                   (with_self (set_started true)
                      (after_query (boot sample_provisioned)))).
Proof.
  assert (parse_vm_state (report found_running 0) = inr "running") as Hs.
  { vm_compute. reflexivity. }
  rewrite (create_check_running found_running sample_depl "m1" sample_defn 5
             (boot sample_provisioned) "charon-u1-m1"
             eq_refl eq_refl eq_refl eq_refl eq_refl Hs).
  reflexivity.
Defined.

Lemma create_disk_failure_witness :
  same_record (boot (set_vm_id (Some "charon-u1-m1") init_state))
    (machine_of (create_disk no_directory sample_depl "m1" sample_defn
                   (boot (set_vm_id (Some "charon-u1-m1") init_state)))).
Proof.
  assert (result_of (create_disk no_directory sample_depl "m1" sample_defn
                       (boot (set_vm_id (Some "charon-u1-m1") init_state)))
          = inl CannotFindDirectory) as Hr.
  { vm_compute. reflexivity. }
  exact (proj1 (create_disk_failure no_directory sample_depl "m1" sample_defn
                  (boot (set_vm_id (Some "charon-u1-m1") init_state))
                  CannotFindDirectory Hr)).
Defined.

(** ** More on the persisted form *)

(** X20.  [deserialise] needs the nested group: a mapping that
    deserialises has a mapping under [virtualbox]; and a mapping without
    that key, and without the two top-level keys, fails with the
    [AttributeError] of [None.get]. *)
Theorem deserialise_requires_group (d : gmap string value) :
  (forall s, deserialise d = inr s ->
     exists y, d !! "virtualbox" = Some (VDict y)) /\
  (d !! "vmId" = None -> d !! "privateIpv4" = None ->
   d !! "virtualbox" = None -> deserialise d = inl AttributeError).
Proof.
  split.
  - intros s H. apply deserialise_inr in H as (y & Hy & _). by exists y.
  - intros Hv Hi Hg. unfold deserialise, get_str. by rewrite Hv, Hi, Hg.
Qed.

Lemma deserialise_requires_group_witness :
  deserialise ∅ = inl AttributeError.
Proof.
  assert ((∅ : gmap string value) !! "vmId" = None) as Hv by reflexivity.
  assert ((∅ : gmap string value) !! "privateIpv4" = None) as Hi
    by reflexivity.
  assert ((∅ : gmap string value) !! "virtualbox" = None) as Hg
    by reflexivity.
  exact (proj2 (deserialise_requires_group ∅) Hv Hi Hg).
Defined.

Lemma set_if_kept k f (d : gmap string value) :
  set_if (truthy (kept f)) k (str_value (kept f)) d
  = set_if (truthy f) k (str_value f) d.
Proof. by destruct f as [[|c s]|]. Qed.

(** X21.  What has been read back is stable: the record that
    [deserialise] returns for a serialised record serialises to the same
    mapping, and reads back as itself. *)
Theorem read_back_is_stable
    (base : gmap string value) (x x' : VirtualBoxState) :
  base !! "vmId" = None -> base !! "privateIpv4" = None ->
  deserialise (serialise base x) = inr x' ->
  serialise base x' = serialise base x /\
  deserialise (serialise base x') = inr x'.
Proof.
  intros Hv Hi H. rewrite deserialise_serialise in H by done.
  injection H as <-.
  assert (serialise base (round_trip x) = serialise base x) as Hs.
  { unfold serialise, round_trip. cbv zeta.
    cbn [_vm_id _ipv4 _disk _disk_attached _started _client_private_key
         _client_public_key].
    by rewrite !set_if_kept. }
  split; [exact Hs|]. rewrite Hs. by apply deserialise_serialise.
Qed.

Lemma read_back_is_stable_witness :
  serialise ∅ (round_trip (set_vm_id (Some EmptyString) sample_state))
    = serialise ∅ (set_vm_id (Some EmptyString) sample_state).
Proof.
  assert ((∅ : gmap string value) !! "vmId" = None) as Hv by reflexivity.
  assert ((∅ : gmap string value) !! "privateIpv4" = None) as Hi
    by reflexivity.
  assert (deserialise
            (serialise ∅ (set_vm_id (Some EmptyString) sample_state))
          = inr (round_trip (set_vm_id (Some EmptyString) sample_state)))
    as Hd.
  { vm_compute. reflexivity. }
  exact (proj1 (read_back_is_stable ∅ _ _ Hv Hi Hd)).
Defined.

(** ** The image of the disk, and a discovery that fails *)

Section Image.

Variable w : World.
Variable depl : Deployment.
Variable name : string.

(** X22.  Where the disk is cloned from: with the machine directory in
    place, the disk step of [create] clones the definition's base image as
    it is, and runs no build; only when the base image is the word [drv]
    does it run [nix-build] first, and then it clones what that printed,
    stripped of trailing white space.  The destination is [disk1.vdi] in
    the machine directory. *)
Theorem create_disk_source defn m h vm_id :
  truthy (_disk (self m)) = false ->
  home w = Some h ->
  _vm_id (self m) = Some vm_id ->
  is_dir w (n_isdir m) = true ->
  let dir := h +:+ "/VirtualBox VMs/" +:+ vm_id in
  (base_image defn <> "drv" ->
   exists rest,
     trace_of (create_disk w depl name defn m)
       = IsDir dir true
           :: Call ["VBoxManage"; "clonehd"; base_image defn;
                    dir +:+ "/disk1.vdi"]
                (exit_status w (n_call m))
           :: rest) /\
  (base_image defn = "drv" ->
   forall o, output w (n_output m) = Some o ->
   exists argv rest,
     hd_error argv = Some "nix-build" /\
     trace_of (create_disk w depl name defn m)
       = IsDir dir true
           :: CheckOutput argv (Some o)
           :: Call ["VBoxManage"; "clonehd"; PyStr.rstrip o;
                    dir +:+ "/disk1.vdi"]
                (exit_status w (n_call m))
           :: rest).
Proof.
  intros Hd Hh Evm Hdir dir. subst dir. split.
  - intros Hne. apply String.eqb_neq in Hne.
    unfold create_disk. exec. rewrite Hd, Hh. run. rewrite Hdir, Hne. run.
    destruct (exit_status w (n_call m) =? 0)%Z; run; by eexists.
  - intros Heq o Ho. apply String.eqb_eq in Heq.
    unfold create_disk. exec. rewrite Hd, Hh. run. rewrite Hdir, Heq. run.
    rewrite Ho. run.
    destruct (exit_status w (n_call m) =? 0)%Z; run;
      eexists (_ :: _), _; (split; [reflexivity|]); reflexivity.
Qed.

Lemma poll_ip_inl fuel m e :
  result_of (poll_ip w fuel m) = inl e ->
  same_record m (machine_of (poll_ip w fuel m)) /\
  Forall quiet (trace_of (poll_ip w fuel m)) /\
  (e = TypeError \/ e = UnableToGetIP \/ e = OutOfFuel).
Proof.
  revert m. induction fuel as [|fuel IH]; intros m; cbn [poll_ip]; exec.
  { intros [= <-]. repeat split; auto. }
  destruct (_vm_id (self m)) as [vm_id|] eqn:Evm; run.
  2: { intros [= <-]. repeat split; auto. }
  destruct (output w (n_output m)) as [o|]; run.
  2: { intros [= <-]. repeat split; auto. by repeat constructor. }
  destruct (String.eqb (PyStr.take 7 (PyStr.rstrip o)) "Value: "); run;
    [discriminate|].
  match goal with
  | |- context [poll_ip w fuel ?m1] =>
      specialize (IH m1);
      destruct (poll_ip w fuel m1) as [[r m2] t2]
  end.
  cbn [result_of machine_of trace_of fst snd] in *.
  intros Hr. destruct (IH Hr) as ([Hs Hst] & Ht & He).
  cbn [self stored] in Hs, Hst.
  repeat split; auto. by repeat constructor.
Qed.

(** X23.  A discovery that fails changes nothing: when [_wait_for_ip]
    ends in an exception (the [guestproperty get] failed, or, in this
    model, the bound on the polls was reached), the record in memory and
    the state file are as they were, nothing was written and no trust
    record was invalidated. *)
Theorem wait_for_ip_failure fuel m e :
  result_of (_wait_for_ip w name fuel m) = inl e ->
  same_record m (machine_of (_wait_for_ip w name fuel m)) /\
  Forall quiet (trace_of (_wait_for_ip w name fuel m)) /\
  (e = TypeError \/ e = UnableToGetIP \/ e = OutOfFuel).
Proof.
  unfold _wait_for_ip. rewrite bind_run. cbn [stderr_write emit].
  rewrite bind_run.
  destruct (poll_ip w fuel m) as [[[e'|[]] m1] t1] eqn:Hpoll.
  - pose proof (poll_ip_inl fuel m e') as H. rewrite Hpoll in H.
    cbn [result_of machine_of trace_of fst snd] in *.
    intros [= <-]. destruct (H eq_refl) as (Hs & Ht & He).
    repeat split; try apply Hs; auto. by constructor.
  - apply poll_ip_inr in Hpoll as (vm_id & outs & out & _ & _ & _ & Hs & _).
    exec. rewrite Hs. exec. discriminate.
Qed.

End Image.

Lemma create_disk_source_witness :
  exists rest,
    trace_of (create_disk calm sample_depl "m1" sample_defn
                (boot (set_vm_id (Some "charon-u1-m1") init_state)))
      = IsDir "/home/alice/VirtualBox VMs/charon-u1-m1" true
          :: Call ["VBoxManage"; "clonehd"; "/images/base.vdi";
                   "/home/alice/VirtualBox VMs/charon-u1-m1/disk1.vdi"] 0
          :: rest.
Proof.
  assert (base_image sample_defn <> "drv") as Hne by discriminate.
  exact (proj1 (create_disk_source calm sample_depl "m1" sample_defn
                  (boot (set_vm_id (Some "charon-u1-m1") init_state))
                  "/home/alice" "charon-u1-m1"
                  eq_refl eq_refl eq_refl eq_refl) Hne).
Defined.

Lemma wait_for_ip_failure_witness :
  same_record (boot sample_detached)
    (machine_of (_wait_for_ip no_directory "m1" 5 (boot sample_detached))).
Proof.
  assert (result_of (_wait_for_ip no_directory "m1" 5 (boot sample_detached))
          = inl UnableToGetIP) as Hr.
  { vm_compute. reflexivity. }
  exact (proj1 (wait_for_ip_failure no_directory "m1" 5
                  (boot sample_detached) UnableToGetIP Hr)).
Defined.

(** ** What a failed command leaves in the record *)

Lemma settled_refl e m : settled e m m.
Proof. by left. Qed.

Lemma settled_trans e a b c : settled e a b -> settled e b c -> settled e a c.
Proof.
  unfold settled. intros [[Hs Hd]|Hb] [[Hs' Hd']|Hc]; auto.
  - left. split; [congruence | auto].
  - right. intros H. rewrite Hs'. auto.
Qed.

Lemma step_done_fields e s s' :
  _vm_id s' = _vm_id s -> _disk s' = _disk s ->
  _disk_attached s' = _disk_attached s -> _started s' = _started s ->
  step_done e s' = step_done e s.
Proof. unfold step_done. by intros -> -> -> ->. Qed.

Lemma settled_kept e m m' : same_progress m m' -> settled e m m'.
Proof.
  intros (Hst & H1 & H2 & H3 & H4). left. split; [exact Hst|].
  by rewrite (step_done_fields e _ _ H1 H2 H3 H4).
Qed.

Lemma settled_written e m m' : stored m' = self m' -> settled e m m'.
Proof. intros H. right. by rewrite H. Qed.

Lemma settled_started e m m' :
  stored m' = stored m -> self m' = set_started true (self m) ->
  settled e m m'.
Proof.
  intros Hst Hs. unfold settled, step_done. rewrite Hs, Hst.
  cbn [set_started _vm_id _disk _disk_attached _started].
  destruct (createResource e); [by left|].
  destruct (cloneDisk e); [by left|].
  destruct (attachStorage e); [by left|].
  destruct (configureResource e || setGuestFact e || startResource e);
    [by right | by left].
Qed.

Lemma same_progress_refl m : same_progress m m.
Proof. by repeat split. Qed.

Lemma same_progress_trans a b c :
  same_progress a b -> same_progress b c -> same_progress a c.
Proof.
  unfold same_progress.
  intros (-> & -> & -> & -> & ->) (-> & -> & -> & -> & ->). done.
Qed.

(** Decides the tests of a computation one after the other. *)
Ltac branch :=
  repeat
    (exec;
     match goal with
     | |- context [negb ?x] => destruct x eqn:?
     | |- context [match ?x with _ => _ end] =>
         lazymatch type of x with
         | bool => destruct x eqn:?
         | option _ => destruct x eqn:?
         end
     end);
  exec.

Ltac settle :=
  first
    [ apply settled_refl
    | apply settled_written; reflexivity
    | apply settled_kept; repeat split; reflexivity
    | apply settled_started; reflexivity ].

(** Finds the failed command in a trace that is known event by event. *)
Ltac failed_step :=
  let Heq := fresh "Heq" in
  let He := fresh "He" in
  intros ? ? ? Heq He; locate Heq; subst; simpl in He;
  try discriminate He;
  try (match goal with
       | H : (_ =? 0)%Z = true |- _ => rewrite H in He; discriminate He
       end);
  unfold step_done, createResource, cloneDisk, attachStorage,
    configureResource, setGuestFact, startResource, subcommand;
  simpl; try assumption; try reflexivity.

Lemma later_fields_refl i s : later_fields i s s.
Proof. by repeat split. Qed.

Lemma later_fields_mono i j s0 s :
  i <= j -> later_fields i s0 s -> later_fields j s0 s.
Proof.
  unfold later_fields. intros Hij (H2 & H3 & H4 & H5 & H7).
  repeat apply conj; intros; first [apply H2 | apply H3 | apply H4
                                   | apply H5 | apply H7]; lia.
Qed.

Lemma later_fields_trans i a b c :
  later_fields i a b -> later_fields i b c -> later_fields i a c.
Proof.
  unfold later_fields.
  intros (H2 & H3 & H4 & H5 & H7) (G2 & G3 & G4 & G5 & G7).
  repeat apply conj; intros Hi.
  - by rewrite (G2 Hi), (H2 Hi).
  - by rewrite (G3 Hi), (H3 Hi).
  - by rewrite (G4 Hi), (H4 Hi).
  - destruct (G5 Hi) as [-> ->]. exact (H5 Hi).
  - by rewrite (G7 Hi), (H7 Hi).
Qed.

Lemma not_ahead_refl i m : not_ahead i m m.
Proof. split; [apply later_fields_refl | by left]. Qed.

(** After a step that is framed, nothing is ahead of that step. *)
Lemma not_ahead_step i m0 m m' :
  not_ahead i m0 m -> framed (S i) m m' -> not_ahead (S i) m0 m'.
Proof.
  intros [Hmem Hfile] [Hstep Hstore].
  assert (later_fields (S i) (self m0) (self m')) as Hmem'.
  { eapply later_fields_trans; [|exact Hstep].
    eapply later_fields_mono; [|exact Hmem]. lia. }
  split; [exact Hmem'|].
  destruct Hstore as [->| ->]; [|by right].
  destruct Hfile as [->|Hfile]; [by left | right].
  eapply later_fields_mono; [|exact Hfile]. lia.
Qed.

(** Closes the frame condition of a step whose tests have been decided. *)
Ltac frame :=
  split;
    [ repeat apply conj; intros; try split; first [reflexivity | lia]
    | first [left; reflexivity | right; reflexivity] ].

(** Finds the step of the failed command in a trace that is known event
    by event. *)
Ltac failed_stage :=
  let Heq := fresh "Heq" in
  let He := fresh "He" in
  intros ? ? ? Heq He; locate Heq; subst; simpl in He;
  try discriminate He;
  try (match goal with
       | H : (_ =? 0)%Z = true |- _ => rewrite H in He; discriminate He
       end);
  reflexivity.

Section FailedStep.

Context {A B : Type}.

Lemma fails_unfinished_bind (c : M A) (f : A -> M B) :
  fatal c -> fails_unfinished c -> (forall a, fails_unfinished (f a)) ->
  fails_unfinished (mbind f c).
Proof.
  intros Hfatal Hc Hf m pre e post. rewrite bind_run.
  specialize (Hfatal m). specialize (Hc m).
  destruct (c m) as [[[x|a] m1] t1];
    unfold aborts_at_failure, trace_of, machine_of, result_of in *;
    simpl in *.
  - intros Heq He. eapply Hc; eauto.
  - specialize (Hf a m1). destruct (f a m1) as [[r2 m2] t2].
    simpl in *. intros Heq He. symmetry in Heq.
    apply split_at_event in Heq as [(p & -> & ->)|(p & -> & ->)].
    + destruct (Hfatal _ _ _ eq_refl He) as [_ []].
    + eapply Hf; eauto.
Qed.

Lemma not_failing_unfinished (c : M A) :
  emits not_failing c -> fails_unfinished c.
Proof.
  intros Hc m pre e post Heq He. specialize (Hc m). rewrite Heq in Hc.
  apply Forall_app in Hc as [_ Hc]. apply Forall_cons in Hc as [Hc _].
  unfold not_failing in Hc. congruence.
Qed.

Lemma not_failing_staged i (c : M A) : emits not_failing c -> staged i c.
Proof.
  intros Hc m pre e post Heq He. specialize (Hc m). rewrite Heq in Hc.
  apply Forall_app in Hc as [_ Hc]. apply Forall_cons in Hc as [Hc _].
  unfold not_failing in Hc. congruence.
Qed.

Lemma not_failing_behind i (c : M A) :
  emits not_failing c -> stays_behind i c.
Proof.
  intros Hc m0 m pre e post _ Heq He. specialize (Hc m). rewrite Heq in Hc.
  apply Forall_app in Hc as [_ Hc]. apply Forall_cons in Hc as [Hc _].
  unfold not_failing in Hc. congruence.
Qed.

Lemma stays_behind_bind i (c : M A) (f : A -> M B) :
  fatal c -> keeps (framed (S i)) c -> staged (S i) c ->
  (forall a, stays_behind (S i) (f a)) ->
  stays_behind i (mbind f c).
Proof.
  intros Hfatal Hframed Hstaged Hf m0 m pre e post Hinv.
  rewrite bind_run.
  specialize (Hfatal m). specialize (Hframed m). specialize (Hstaged m).
  pose proof (not_ahead_step i m0 m _ Hinv Hframed) as Hnext.
  destruct (c m) as [[[x|a] m1] t1];
    unfold aborts_at_failure, trace_of, machine_of, result_of in *;
    simpl in *.
  - intros Heq He. by rewrite (Hstaged _ _ _ Heq He).
  - specialize (Hf a m0 m1). destruct (f a m1) as [[r2 m2] t2].
    simpl in *. intros Heq He. symmetry in Heq.
    apply split_at_event in Heq as [(p & -> & ->)|(p & -> & ->)].
    + destruct (Hfatal _ _ _ eq_refl He) as [_ []].
    + eapply Hf; eauto.
Qed.

End FailedStep.

Section Atomicity.

Variable w : World.
Variable depl : Deployment.
Variable name : string.

Lemma poll_ip_same_progress fuel m :
  same_progress m (machine_of (poll_ip w fuel m)).
Proof.
  revert m. induction fuel as [|fuel IH]; intros m; cbn [poll_ip]; exec;
    [apply same_progress_refl|].
  destruct (_vm_id (self m)) as [vm_id|] eqn:Evm; run;
    [|apply same_progress_refl].
  destruct (output w (n_output m)) as [o|]; run; [|by repeat split].
  destruct (String.eqb (PyStr.take 7 (PyStr.rstrip o)) "Value: "); run;
    [by repeat split|].
  match goal with
  | |- context [poll_ip w fuel ?m1] =>
      specialize (IH m1);
      destruct (poll_ip w fuel m1) as [[r m2] t2]
  end.
  cbn [machine_of fst snd] in *.
  eapply same_progress_trans; [|exact IH]. by repeat split.
Qed.

Lemma settled_wait_for_ip e fuel : keeps (settled e) (_wait_for_ip w name fuel).
Proof.
  intros m. unfold _wait_for_ip. rewrite bind_run. cbn [stderr_write emit].
  rewrite bind_run.
  pose proof (poll_ip_same_progress fuel m) as Hp.
  destruct (poll_ip w fuel m) as [[[x|[]] m1] t1];
    cbn [machine_of fst snd] in *.
  - by apply settled_kept.
  - exec. destruct (_ipv4 (self m1)); exec.
    + by apply settled_written.
    + by apply settled_kept.
Qed.

Lemma settled_create_vm e : keeps (settled e) (create_vm w depl name).
Proof. intros m. unfold create_vm. branch; settle. Qed.

Lemma settled_create_disk e defn :
  keeps (settled e) (create_disk w depl name defn).
Proof. intros m. unfold create_disk. branch; settle. Qed.

Lemma settled_attach_disk e : keeps (settled e) (attach_disk w).
Proof. intros m. unfold attach_disk. branch; settle. Qed.

Lemma settled_check_running e check : keeps (settled e) (check_running w check).
Proof.
  intros m. unfold check_running, when. destruct check; [|apply settled_refl].
  rewrite bind_run, get_vm_state_run.
  destruct (_vm_id (self m)); [|apply settled_refl].
  destruct (parse_vm_state (report w (n_report m))) as [x|st];
    [by apply settled_kept|].
  destruct (String.eqb st "running"); exec; settle.
Qed.

Lemma settled_ensure_key_pair e : keeps (settled e) (ensure_key_pair w).
Proof. intros m. unfold ensure_key_pair. branch; settle. Qed.

Lemma settled_start_vm e defn : keeps (settled e) (start_vm w defn).
Proof. intros m. unfold start_vm, _start. branch; settle. Qed.

Lemma settled_discover_ip e check fuel :
  keeps (settled e) (discover_ip w name check fuel).
Proof.
  intros m. unfold discover_ip. rewrite bind_run. cbn [get_self]. unfold when.
  destruct (negb (truthy (_ipv4 (self m))) || check).
  - pose proof (settled_wait_for_ip e fuel m) as H.
    destruct (_wait_for_ip w name fuel m) as [[r m1] t1]. exact H.
  - apply settled_refl.
Qed.

Lemma settled_create e defn check fuel :
  keeps (settled e) (create w depl name defn check fuel).
Proof.
  unfold create.
  repeat (apply (keeps_bind_rel (settled e) _ _ (settled_trans e));
          [|intros _]);
    auto using settled_create_vm, settled_create_disk, settled_attach_disk,
      settled_check_running, settled_ensure_key_pair, settled_start_vm,
      settled_discover_ip.
Qed.

Lemma unfinished_create_vm : fails_unfinished (create_vm w depl name).
Proof. intros m. unfold create_vm. branch; failed_step. Qed.

Lemma unfinished_create_disk defn :
  fails_unfinished (create_disk w depl name defn).
Proof. intros m. unfold create_disk. branch; failed_step. Qed.

Lemma unfinished_attach_disk : fails_unfinished (attach_disk w).
Proof. intros m. unfold attach_disk. branch; failed_step. Qed.

Lemma unfinished_start_vm defn : fails_unfinished (start_vm w defn).
Proof. intros m. unfold start_vm, _start. branch; failed_step. Qed.

Lemma poll_ip_not_failing fuel : emits not_failing (poll_ip w fuel).
Proof. induction fuel as [|fuel IH]; simpl; walk. Qed.

Lemma later_checks_not_failing check fuel :
  emits not_failing (check_running w check) /\
  emits not_failing (ensure_key_pair w) /\
  emits not_failing (discover_ip w name check fuel).
Proof.
  unfold check_running, ensure_key_pair, discover_ip, _wait_for_ip,
    _get_vm_state, _get_vm_info.
  repeat apply conj; walk; apply poll_ip_not_failing.
Qed.

Lemma fatal_steps defn check :
  fatal (create_vm w depl name) /\ fatal (create_disk w depl name defn) /\
  fatal (attach_disk w) /\ fatal (check_running w check) /\
  fatal (ensure_key_pair w) /\ fatal (start_vm w defn).
Proof.
  unfold create_vm, create_disk, attach_disk, check_running, ensure_key_pair,
    start_vm.
  repeat apply conj; walk; auto using fatal_get_vm_state, fatal_start.
Qed.

Lemma unfinished_create defn check fuel :
  fails_unfinished (create w depl name defn check fuel).
Proof.
  destruct (fatal_steps defn check) as (F1 & F2 & F3 & F4 & F5 & F6).
  destruct (later_checks_not_failing check fuel) as (N4 & N5 & N7).
  unfold create.
  repeat (apply fails_unfinished_bind; [assumption | | intros _]);
    auto using unfinished_create_vm, unfinished_create_disk,
      unfinished_attach_disk, unfinished_start_vm, not_failing_unfinished.
Qed.

Lemma framed_create_vm : keeps (framed 1) (create_vm w depl name).
Proof. intros m. unfold create_vm. branch; frame. Qed.

Lemma framed_create_disk defn :
  keeps (framed 2) (create_disk w depl name defn).
Proof. intros m. unfold create_disk. branch; frame. Qed.

Lemma framed_attach_disk : keeps (framed 3) (attach_disk w).
Proof. intros m. unfold attach_disk. branch; frame. Qed.

Lemma framed_check_running check : keeps (framed 4) (check_running w check).
Proof.
  intros m. unfold check_running, when. destruct check; [|frame].
  rewrite bind_run, get_vm_state_run.
  destruct (_vm_id (self m)); [|frame].
  destruct (parse_vm_state (report w (n_report m))) as [x|st]; [frame|].
  destruct (String.eqb st "running"); exec; frame.
Qed.

Lemma framed_ensure_key_pair : keeps (framed 5) (ensure_key_pair w).
Proof. intros m. unfold ensure_key_pair. branch; frame. Qed.

Lemma framed_start_vm defn : keeps (framed 6) (start_vm w defn).
Proof. intros m. unfold start_vm, _start. branch; frame. Qed.

Lemma staged_create_vm : staged 1 (create_vm w depl name).
Proof. intros m. unfold create_vm. branch; failed_stage. Qed.

Lemma staged_create_disk defn : staged 2 (create_disk w depl name defn).
Proof. intros m. unfold create_disk. branch; failed_stage. Qed.

Lemma staged_attach_disk : staged 3 (attach_disk w).
Proof. intros m. unfold attach_disk. branch; failed_stage. Qed.

Lemma staged_start_vm defn : staged 6 (start_vm w defn).
Proof. intros m. unfold start_vm, _start. branch; failed_stage. Qed.

Lemma behind_create defn check fuel :
  stays_behind 0 (create w depl name defn check fuel).
Proof.
  destruct (fatal_steps defn check) as (F1 & F2 & F3 & F4 & F5 & F6).
  destruct (later_checks_not_failing check fuel) as (N4 & N5 & N7).
  unfold create.
  apply (stays_behind_bind 0);
    [exact F1 | apply framed_create_vm | apply staged_create_vm | intros _].
  apply (stays_behind_bind 1);
    [exact F2 | apply framed_create_disk | apply staged_create_disk
    | intros _].
  apply (stays_behind_bind 2);
    [exact F3 | apply framed_attach_disk | apply staged_attach_disk
    | intros _].
  apply (stays_behind_bind 3);
    [exact F4 | apply framed_check_running
    | by apply not_failing_staged | intros _].
  apply (stays_behind_bind 4);
    [exact F5 | apply framed_ensure_key_pair
    | by apply not_failing_staged | intros _].
  apply (stays_behind_bind 5);
    [exact F6 | apply framed_start_vm | apply staged_start_vm | intros _].
  by apply not_failing_behind.
Qed.

(** C3 (atomicity on backend command failure).  In any run of [create], a
    one-shot command that returns a non-zero exit status is the last event
    of the run, and the run ends in an exception.  The state file holds
    what the last [write()] before that command committed (what it held at
    the start when there was none).  No field whose step did not complete
    is persisted.  The field that the step of the failed command would
    have set is unset in the object in memory; and it is unset in the state
    file, unless the state file is exactly what it was when [create] was
    called and the field was unset in memory then.  The fields of the
    steps after that step are those the object in memory had when [create]
    was called: in memory; and in the state file, unless the state file is
    exactly what it was when [create] was called. *)
Theorem create_atomic_on_failure defn check fuel m pre e post :
  trace_of (create w depl name defn check fuel m) = pre ++ e :: post ->
  failed_call e = true ->
  post = [] /\
  failed (result_of (create w depl name defn check fuel m)) /\
  stored (machine_of (create w depl name defn check fuel m))
    = last_write pre (stored m) /\
  step_done e (self (machine_of (create w depl name defn check fuel m)))
    = false /\
  (step_done e (stored (machine_of (create w depl name defn check fuel m)))
     = false \/
   (stored (machine_of (create w depl name defn check fuel m)) = stored m /\
    step_done e (self m) = false)) /\
  later_fields (stage e) (self m)
    (self (machine_of (create w depl name defn check fuel m))) /\
  (stored (machine_of (create w depl name defn check fuel m)) = stored m \/
   later_fields (stage e) (self m)
     (stored (machine_of (create w depl name defn check fuel m)))).
Proof.
  intros Htr He.
  destruct (fatal_create w depl name defn check fuel m pre e post Htr He)
    as [-> Hfail].
  pose proof (unfinished_create defn check fuel m pre e [] Htr He) as Hun.
  pose proof (behind_create defn check fuel m m pre e [] (not_ahead_refl 0 m)
                Htr He) as [Hmem Hfile].
  split; [done | split; [done|]]. split.
  { rewrite (committed_create w depl name defn check fuel m), Htr.
    rewrite last_write_app. by destruct e. }
  split; [exact Hun|]. split; [|by split].
  destruct (settled_create e defn check fuel m) as [[Hst Hd]|Hd]; auto.
Qed.

End Atomicity.

Lemma create_atomic_on_failure_witness :
  failed (result_of (create clone_fails sample_depl "m1" sample_defn false 5
                       (boot init_state))) /\
  stored (machine_of (create clone_fails sample_depl "m1" sample_defn false 5
                        (boot init_state)))
    = set_vm_id (Some "charon-u1-m1") init_state /\
  truthy (_disk (self (machine_of
                         (create clone_fails sample_depl "m1" sample_defn
                            false 5 (boot init_state))))) = false.
Proof.
  pose (run := create clone_fails sample_depl "m1" sample_defn false 5
                 (boot init_state)).
  assert (trace_of run
          = take 4 (trace_of run)
              ++ Call ["VBoxManage"; "clonehd"; "/images/base.vdi";
                       "/home/alice/VirtualBox VMs/charon-u1-m1/disk1.vdi"] 1
              :: []) as Htr.
  { vm_compute. reflexivity. }
  destruct (create_atomic_on_failure clone_fails sample_depl "m1" sample_defn
              false 5 (boot init_state) _ _ _ Htr eq_refl)
    as (_ & Hfail & Hstored & Hself & _).
  split; [exact Hfail|]. split; [|exact Hself].
  subst run. rewrite Hstored. vm_compute. reflexivity.
Defined.

(** ** Forward runs of the start step and of the discovery *)

Lemma until_failure_all calls :
  all_succeed calls = true -> until_failure calls = calls.
Proof.
  induction calls as [|e calls IH]; [done|]. cbn [all_succeed forallb].
  intros [He H]%andb_prop. apply negb_true_iff in He.
  cbn [until_failure]. rewrite He. f_equal. by apply IH.
Qed.

Section Forward.

Variable w : World.
Variable depl : Deployment.
Variable name : string.

Lemma ensure_key_pair_run m :
  ensure_key_pair w m =
    if truthy (_client_private_key (self m)) then (inr tt, m, [])
    else
      (inr tt,
       {| self := set_keys (Some (fst (key_pair w (n_keys m))))
                    (Some (snd (key_pair w (n_keys m)))) (self m);
          stored := stored m; n_call := n_call m; n_output := n_output m;
          n_report := n_report m; n_isdir := n_isdir m;
          n_keys := S (n_keys m) |},
       [CreateKeyPair (fst (key_pair w (n_keys m)))
          (snd (key_pair w (n_keys m)))]).
Proof.
  unfold ensure_key_pair. exec.
  by destruct (truthy (_client_private_key (self m))).
Qed.

(** The key-pair step changes the keys and nothing else. *)
Lemma ensure_key_pair_fields m :
  result_of (ensure_key_pair w m) = inr tt /\
  _vm_id (self (machine_of (ensure_key_pair w m))) = _vm_id (self m) /\
  _started (self (machine_of (ensure_key_pair w m))) = _started (self m) /\
  _ipv4 (self (machine_of (ensure_key_pair w m))) = _ipv4 (self m) /\
  stored (machine_of (ensure_key_pair w m)) = stored m /\
  n_call (machine_of (ensure_key_pair w m)) = n_call m /\
  n_output (machine_of (ensure_key_pair w m)) = n_output m /\
  n_report (machine_of (ensure_key_pair w m)) = n_report m /\
  n_isdir (machine_of (ensure_key_pair w m)) = n_isdir m.
Proof.
  rewrite ensure_key_pair_run.
  by destruct (truthy (_client_private_key (self m))).
Qed.

(** The start step, from a record that is not started: the four commands
    as far as they succeed, and the write when all of them do. *)
Lemma start_vm_run defn m vm_id pub :
  _started (self m) = false ->
  _vm_id (self m) = Some vm_id ->
  _client_public_key (self m) = Some pub ->
  (all_succeed (start_step_calls w defn vm_id pub (n_call m)) = true ->
   start_vm w defn m
     = (inr tt,
        started_machine m (set_started true (self m)),
        start_step_calls w defn vm_id pub (n_call m)
          ++ [Write (set_started true (self m))])) /\
  (all_succeed (start_step_calls w defn vm_id pub (n_call m)) = false ->
   trace_of (start_vm w defn m)
     = until_failure (start_step_calls w defn vm_id pub (n_call m)) /\
   failed (result_of (start_vm w defn m)) /\
   self (machine_of (start_vm w defn m)) = self m /\
   stored (machine_of (start_vm w defn m)) = stored m).
Proof.
  intros Hst Evm Epub.
  unfold start_vm, _start, start_step_calls, all_succeed, started_machine,
    startvm_argv.
  cbn [until_failure forallb failed_call]. run.
  destruct (exit_status w (n_call m) =? 0)%Z; run;
    [|split; [discriminate | intros _; by repeat split]].
  destruct (exit_status w (S (n_call m)) =? 0)%Z; run;
    [|split; [discriminate | intros _; by repeat split]].
  destruct (exit_status w (S (S (n_call m))) =? 0)%Z; run;
    [|split; [discriminate | intros _; by repeat split]].
  destruct (exit_status w (S (S (S (n_call m)))) =? 0)%Z; run;
    destruct (headless defn);
    (split; [try discriminate; intros _; reflexivity
            | try discriminate; intros _; by repeat split]).
Qed.

(** The key-pair step, the start step and the discovery, from a record
    that is not started. *)
Lemma start_tail defn check fuel m vm_id pub :
  _started (self m) = false ->
  _vm_id (self m) = Some vm_id ->
  _client_public_key (self (machine_of (ensure_key_pair w m))) = Some pub ->
  let m5 := machine_of (ensure_key_pair w m) in
  let up := set_started true (self m5) in
  let calls := start_step_calls w defn vm_id pub (n_call m) in
  let k := (ensure_key_pair w;; start_vm w defn;;
            discover_ip w name check fuel) in
  (all_succeed calls = true ->
   k m = (result_of (discover_ip w name check fuel (started_machine m5 up)),
          machine_of (discover_ip w name check fuel (started_machine m5 up)),
          trace_of (ensure_key_pair w m) ++ calls
            ++ Write up
            :: trace_of (discover_ip w name check fuel
                           (started_machine m5 up)))) /\
  (all_succeed calls = false ->
   trace_of (k m) = trace_of (ensure_key_pair w m) ++ until_failure calls /\
   failed (result_of (k m)) /\
   self (machine_of (k m)) = self m5 /\
   stored (machine_of (k m)) = stored m).
Proof.
  intros Hst Evm Epub m5 up calls k. subst m5 up calls k.
  destruct (ensure_key_pair_fields m)
    as (Hr & Hvm & Hst5 & _ & Hsto & Hnc & _).
  rewrite bind_run.
  destruct (ensure_key_pair w m) as [[r5 m5] t5].
  cbn [result_of machine_of trace_of fst snd] in *. subst r5.
  rewrite Hst in Hst5. rewrite Evm in Hvm.
  destruct (start_vm_run defn m5 vm_id pub Hst5 Hvm Epub) as [Hok Hko].
  rewrite Hnc in Hok, Hko.
  rewrite bind_run. split.
  - intros Hall. rewrite (Hok Hall).
    destruct (discover_ip w name check fuel _) as [[r7 m7] t7].
    cbn [result_of machine_of trace_of fst snd].
    by rewrite <- app_assoc.
  - intros Hall. destruct (Hko Hall) as (Htr & Hfail & Hself & Hstored).
    destruct (start_vm w defn m5) as [[[x|[]] m6] t6];
      cbn [result_of machine_of trace_of fst snd failed] in *; [|done].
    subst t6. rewrite Hself, Hstored. by repeat split.
Qed.

End Forward.

(** ** The order of the start step *)

Section StartStep.

Variable w : World.
Variable depl : Deployment.
Variable name : string.

(** C8, as amended (start-step command order).  First part: the record
    has its machine, its disk and the attachment, [_started] is false and
    [create] is called without [check], so that the start step runs.  After
    the events of the key-pair step, the one-shot commands are [modifyvm]
    with the definition's memory size, the [guestproperty set] that clears
    the address, the [guestproperty set] that publishes the public key and
    [startvm] with the definition's headless flag, in this order, each
    issued once the one before it has returned 0.  When all four succeed
    the next event is the write of the record with [_started] true; when
    one fails the run stops at it with an exception, [_started] still false
    in memory and the state file untouched.  Second part: in every run of
    [create], whatever the record and [check], wherever [startvm] is issued
    the three events before it are [modifyvm] and the two
    [guestproperty set], successful and in this order, and no such command
    comes before them. *)
Theorem create_start_order :
  (forall defn fuel m vm_id pub,
     _vm_id (self m) = Some vm_id ->
     truthy (_vm_id (self m)) = true ->
     truthy (_disk (self m)) = true ->
     _disk_attached (self m) = true ->
     _started (self m) = false ->
     _client_public_key (self (machine_of (ensure_key_pair w m)))
       = Some pub ->
     let run := create w depl name defn false fuel m in
     let keys := trace_of (ensure_key_pair w m) in
     let calls := start_step_calls w defn vm_id pub (n_call m) in
     let up := set_started true (self (machine_of (ensure_key_pair w m))) in
     (all_succeed calls = true ->
      exists rest, trace_of run = keys ++ calls ++ Write up :: rest) /\
     (all_succeed calls = false ->
      trace_of run = keys ++ until_failure calls /\
      failed (result_of run) /\
      _started (self (machine_of run)) = false /\
      stored (machine_of run) = stored m)) /\
  (forall defn check fuel m r m' pre e post,
     create w depl name defn check fuel m = (r, m', pre ++ e :: post) ->
     startResource e = true ->
     exists before vm_id pub rc,
       pre = before
             ++ [Call (modifyvm_argv vm_id (memory_size defn)) 0;
                 Call (set_property_argv vm_id ip_property EmptyString) 0;
                 Call (set_property_argv vm_id key_property pub) 0] /\
       Forall not_starting before /\
       e = Call (startvm_argv vm_id (headless defn)) rc /\
       (rc = 0%Z ->
          exists up rest,
            post = Write up :: rest /\ _started up = true /\
            _client_public_key up = Some pub) /\
       (rc <> 0%Z -> post = [] /\ failed r)).
Proof.
  split; [|intros; by eapply create_startvm_event].
  intros defn fuel m vm_id pub Evm Hvm Hdisk Hatt Hst Epub run keys calls up.
  subst run keys calls up.
  unfold create.
  rewrite (bind_pure _ _ _ _ (create_vm_skip w depl name _ Hvm)).
  rewrite (bind_pure _ _ _ _ (create_disk_skip w depl name _ _ Hdisk)).
  rewrite (bind_pure _ _ _ _ (attach_disk_skip w _ Hatt)).
  rewrite (bind_pure _ _ _ _ (check_running_skip w _)).
  destruct (start_tail w name defn false fuel m vm_id pub Hst Evm Epub)
    as [Hok Hko].
  split.
  - intros Hall. rewrite (Hok Hall). cbn [trace_of snd]. by eexists.
  - intros Hall. destruct (Hko Hall) as (Htr & Hfail & Hself & Hstored).
    repeat split; try done.
    rewrite Hself. destruct (ensure_key_pair_fields w m) as (_ & _ & H & _).
    by rewrite H.
Qed.

End StartStep.

Lemma create_start_order_witness :
  exists rest,
    trace_of (create calm sample_depl "m1" sample_defn false 5
                (boot (set_disk_attached true sample_detached)))
      = [CreateKeyPair "PRIV" "PUB"]
        ++ [Call (modifyvm_argv "charon-u1-m1" "512") 0;
            Call (set_property_argv "charon-u1-m1" ip_property EmptyString) 0;
            Call (set_property_argv "charon-u1-m1" key_property "PUB") 0;
            Call (startvm_argv "charon-u1-m1" true) 0]
        ++ Write (set_started true
                    (set_keys (Some "PRIV") (Some "PUB")
                       (set_disk_attached true sample_detached)))
        :: rest.
Proof.
  assert (all_succeed
            (start_step_calls calm sample_defn "charon-u1-m1" "PUB" 0)
          = true) as Hall.
  { vm_compute. reflexivity. }
  exact (proj1 (proj1 (create_start_order calm sample_depl "m1")
                  sample_defn 5
                  (boot (set_disk_attached true sample_detached))
                  "charon-u1-m1" "PUB"
                  eq_refl eq_refl eq_refl eq_refl eq_refl eq_refl) Hall).
Defined.

(** ** Re-validation of a machine that went down *)

Section Revalidation.

Variable w : World.
Variable depl : Deployment.
Variable name : string.

Lemma wait_for_ip_run fuel (outs : list string) out m vm_id :
  _vm_id (self m) = Some vm_id ->
  publishes_after w (n_output m) outs out ->
  length outs < fuel ->
  _wait_for_ip w name fuel m
    = (inr tt,
       {| self := set_ipv4 (Some (address_of out)) (self m);
          stored := set_ipv4 (Some (address_of out)) (self m);
          n_call := n_call m;
          n_output := n_output m + S (length outs);
          n_report := n_report m; n_isdir := n_isdir m;
          n_keys := n_keys m |},
       discovery_events name vm_id outs out
         (set_ipv4 (Some (address_of out)) (self m))).
Proof.
  intros Evm (Houts & Hout & Hp) Hf.
  pose proof (poll_ip_waits w fuel outs out m vm_id Evm Houts Hout Hp Hf)
    as Hpoll.
  unfold _wait_for_ip, discovery_events.
  rewrite bind_run. cbn [stderr_write emit].
  rewrite bind_run, Hpoll. run. rewrite <- app_assoc. reflexivity.
Qed.

(** [_wait_for_ip] begins with its message and a poll. *)
Lemma wait_for_ip_begins fuel m vm_id :
  _vm_id (self m) = Some vm_id ->
  0 < fuel ->
  exists rest,
    trace_of (_wait_for_ip w name fuel m)
      = Stderr ("waiting for IP address of ‘" +:+ name +:+ "’...")
          :: CheckOutput (get_property_argv vm_id ip_property)
               (output w (n_output m))
          :: rest.
Proof.
  intros Evm Hf. destruct fuel as [|fuel]; [lia|].
  unfold _wait_for_ip, get_property_argv. rewrite bind_run.
  cbn [stderr_write emit]. rewrite bind_run. cbn [poll_ip]. run.
  destruct (output w (n_output m)) as [o|]; run; [|by eexists].
  destruct (String.eqb (PyStr.take 7 (PyStr.rstrip o)) "Value: "); run;
    [by eexists|].
  match goal with
  | |- context [poll_ip w fuel ?m1] =>
      destruct (poll_ip w fuel m1) as [[[x|[]] m2] t2]
  end; run; [by eexists|].
  destruct (_ipv4 (self m2)); run; by eexists.
Qed.

(** The consistency check on a machine that is reported down. *)
Lemma check_running_reset m vm_id s :
  _vm_id (self m) = Some vm_id ->
  parse_vm_state (report w (n_report m)) = inr s ->
  s <> "running" ->
  check_running w true m
    = (inr tt,
       {| self := set_started false (self m);
          stored := set_started false (self m);
          n_call := n_call m; n_output := n_output m;
          n_report := S (n_report m); n_isdir := n_isdir m;
          n_keys := n_keys m |},
       [query_event w vm_id (n_report m);
        Log "VirtualBox VM went down, restarting...";
        Write (set_started false (self m))]).
Proof.
  intros Evm Hs Hne. unfold check_running. cbn [when].
  rewrite bind_run, (get_vm_state_ok w m vm_id s Evm Hs).
  apply String.eqb_neq in Hne. rewrite Hne. reflexivity.
Qed.

(** C5 (check-forced re-validation).  The record has its machine, its disk
    and the attachment, whatever [_started] and the address it holds;
    [create] is called with [check = true] and the state query of this call
    reports something other than [running].  Then, in every world, the run
    begins with the query, the log line and the write of the record with
    [_started] reset to false, followed by the events of the key-pair step
    and by the commands of the start step, [modifyvm], the two
    [guestproperty set] and [startvm], each issued once the one before it
    has returned 0.  When one of them fails the run stops at it with an
    exception and the state file holds the record with [_started] false.
    When all four succeed, the record is written with [_started] true and
    the address discovery starts with a poll of the guest property,
    whatever address the record holds; and
    when the polls then read [outs], which publish nothing, and [out],
    which publishes an address, within the bound on the polls, the run
    succeeds: it ends with the events of the discovery and leaves, in
    memory and in the state file, the record with [_started] true and the
    address just published. *)
Theorem create_check_restarts defn fuel m vm_id pub s :
  _vm_id (self m) = Some vm_id ->
  truthy (_vm_id (self m)) = true ->
  truthy (_disk (self m)) = true ->
  _disk_attached (self m) = true ->
  parse_vm_state (report w (n_report m)) = inr s ->
  s <> "running" ->
  _client_public_key (self (machine_of (ensure_key_pair w m))) = Some pub ->
  let run := create w depl name defn true fuel m in
  let down := set_started false (self m) in
  let up := set_started true (self (machine_of (ensure_key_pair w m))) in
  let calls := start_step_calls w defn vm_id pub (n_call m) in
  let head :=
    [query_event w vm_id (n_report m);
     Log "VirtualBox VM went down, restarting...";
     Write down]
      ++ trace_of (ensure_key_pair w m) ++ until_failure calls in
  (all_succeed calls = false ->
   trace_of run = head /\ failed (result_of run) /\
   stored (machine_of run) = down) /\
  (all_succeed calls = true ->
   0 < fuel ->
   exists rest,
     trace_of run
       = head ++ Write up
           :: Stderr ("waiting for IP address of ‘" +:+ name +:+ "’...")
           :: CheckOutput (get_property_argv vm_id ip_property)
                (output w (n_output m))
           :: rest) /\
  (all_succeed calls = true ->
   forall outs out,
     publishes_after w (n_output m) outs out ->
     length outs < fuel ->
     exists m',
       run = (inr tt, m',
              head ++ Write up
                :: discovery_events name vm_id outs out (self m')) /\
       self m' = set_ipv4 (Some (address_of out)) up /\
       stored m' = self m').
Proof.
  intros Evm Hvm Hdisk Hatt Hs Hne Epub run down up calls head.
  subst run down up calls head.
  unfold create.
  rewrite (bind_pure _ _ _ _ (create_vm_skip w depl name _ Hvm)).
  rewrite (bind_pure _ _ _ _ (create_disk_skip w depl name _ _ Hdisk)).
  rewrite (bind_pure _ _ _ _ (attach_disk_skip w _ Hatt)).
  rewrite bind_run, (check_running_reset m vm_id s Evm Hs Hne).
  match goal with
  | |- context [mbind ?f (ensure_key_pair w) ?m4] => set (m4' := m4)
  end.
  assert (ensure_key_pair w m4'
          = (inr tt,
             {| self := set_started false
                          (self (machine_of (ensure_key_pair w m)));
                stored := set_started false (self m);
                n_call := n_call m; n_output := n_output m;
                n_report := S (n_report m); n_isdir := n_isdir m;
                n_keys := n_keys (machine_of (ensure_key_pair w m)) |},
             trace_of (ensure_key_pair w m))) as Hkeys.
  { rewrite !ensure_key_pair_run. subst m4'.
    cbn [self set_started _client_private_key].
    by destruct (truthy (_client_private_key (self m))). }
  assert (_client_public_key (self (machine_of (ensure_key_pair w m4')))
          = Some pub) as Epub'.
  { rewrite Hkeys. exact Epub. }
  destruct (start_tail w name defn true fuel m4' vm_id pub
              eq_refl Evm Epub') as [Hok Hko].
  rewrite Hkeys in Hok, Hko.
  cbn [machine_of trace_of result_of fst snd self n_call m4'] in Hok, Hko.
  split; [|split].
  - intros Hall. destruct (Hko Hall) as (Htr & Hfail & _ & Hstored).
    match goal with
    | |- context [mbind ?f (ensure_key_pair w) m4'] =>
        destruct (mbind f (ensure_key_pair w) m4') as [[r m'] t]
    end.
    cbn [machine_of trace_of result_of fst snd] in *. subst t.
    by repeat split.
  - intros Hall Hfuel. rewrite (Hok Hall), (until_failure_all _ Hall).
    rewrite discover_ip_run, orb_true_r.
    destruct (ensure_key_pair_fields w m) as (_ & Evm5 & _).
    rewrite Evm in Evm5.
    match goal with
    | |- context [_wait_for_ip w name fuel ?m6] =>
        destruct (wait_for_ip_begins fuel m6 vm_id Evm5 Hfuel) as [rest ->]
    end.
    exists rest. cbn [trace_of snd]. by rewrite <- !app_assoc.
  - intros Hall outs out Hpub Hf.
    rewrite (Hok Hall), (until_failure_all _ Hall).
    rewrite discover_ip_run, orb_true_r.
    destruct (ensure_key_pair_fields w m) as (_ & Evm5 & _).
    rewrite Evm in Evm5.
    erewrite wait_for_ip_run; [|exact Evm5 | exact Hpub | exact Hf].
    eexists. split.
    { cbn [result_of machine_of trace_of fst snd self started_machine].
      rewrite <- !app_assoc. f_equal. }
    split; reflexivity.
Qed.

End Revalidation.

Lemma create_check_restarts_witness :
  exists m',
    create found_down sample_depl "m1" sample_defn true 5
      (boot sample_provisioned)
      = (inr tt, m',
         ([query_event found_down "charon-u1-m1" 0;
           Log "VirtualBox VM went down, restarting...";
           Write (set_started false sample_provisioned)]
            ++ []
            ++ [Call (modifyvm_argv "charon-u1-m1" "512") 0;
                Call (set_property_argv "charon-u1-m1" ip_property
                        EmptyString) 0;
                Call (set_property_argv "charon-u1-m1" key_property "PUB") 0;
                Call (startvm_argv "charon-u1-m1" true) 0])
           ++ Write sample_provisioned
           :: discovery_events "m1" "charon-u1-m1" []
                ("Value: 192.168.56.102" +:+ newline) (self m')) /\
    _started (stored m') = true /\
    _ipv4 (stored m') = Some "192.168.56.102".
Proof.
  assert (parse_vm_state (report found_down 0) = inr "poweroff") as Hs.
  { vm_compute. reflexivity. }
  assert ("poweroff" <> "running") as Hne by discriminate.
  assert (all_succeed
            (start_step_calls found_down sample_defn "charon-u1-m1" "PUB" 0)
          = true) as Hall.
  { vm_compute. reflexivity. }
  assert (publishes_after found_down 0 []
            ("Value: 192.168.56.102" +:+ newline)) as Hpub.
  { split; [|split].
    - intros i o H. destruct i; discriminate H.
    - reflexivity.
    - vm_compute. reflexivity. }
  assert (length (@nil string) < 5) as Hf by (simpl; lia).
  destruct (proj2 (proj2
              (create_check_restarts found_down sample_depl "m1" sample_defn
                 5 (boot sample_provisioned) "charon-u1-m1" "PUB" "poweroff"
                 eq_refl eq_refl eq_refl eq_refl Hs Hne eq_refl))
              Hall [] ("Value: 192.168.56.102" +:+ newline) Hpub Hf)
    as (m' & Hrun & Hself & Hstored).
  exists m'. split; [exact Hrun|].
  rewrite Hstored, Hself. split; vm_compute; reflexivity.
Defined.

(** ** The completion of the discovery and the trust record *)

Section Completion.

Variable w : World.
Variable depl : Deployment.
Variable name : string.

Lemma discovered_poll vm_id o :
  discovered (CheckOutput
                ["VBoxManage"; "guestproperty"; "get"; vm_id; ip_property]
                (Some o))
    = if published o then Some (address_of o) else None.
Proof. reflexivity. Qed.

Lemma poll_ip_discovered fuel m pre e post a :
  trace_of (poll_ip w fuel m) = pre ++ e :: post ->
  discovered e = Some a ->
  post = [Stderr (" " +:+ a +:+ newline)] /\
  result_of (poll_ip w fuel m) = inr tt /\
  self (machine_of (poll_ip w fuel m)) = set_ipv4 (Some a) (self m) /\
  stored (machine_of (poll_ip w fuel m)) = stored m.
Proof.
  revert m pre. induction fuel as [|fuel IH]; intros m pre; cbn [poll_ip];
    exec; [by destruct pre|].
  destruct (_vm_id (self m)) as [vm_id|] eqn:Evm; run; [|by destruct pre].
  destruct (output w (n_output m)) as [o|]; run.
  2: { intros Heq He. locate Heq; subst; discriminate He. }
  destruct (String.eqb (PyStr.take 7 (PyStr.rstrip o)) "Value: ") eqn:Hp; run.
  - intros Heq He. locate Heq; subst; try discriminate He.
    rewrite discovered_poll in He. unfold published, address_of in He.
    rewrite Hp in He. injection He as <-. by repeat split.
  - match goal with
    | |- context [poll_ip w fuel ?m1] =>
        specialize (IH m1);
        destruct (poll_ip w fuel m1) as [[r m2] t2]
    end.
    cbn [result_of machine_of trace_of fst snd self stored] in *.
    intros Heq He.
    destruct pre as [|e0 [|e1 [|e2 pre]]]; cbn [app] in Heq.
    + injection Heq as <- _. rewrite discovered_poll in He.
      unfold published in He. rewrite Hp in He. discriminate He.
    + injection Heq as _ <- _. discriminate He.
    + injection Heq as _ _ <- _. discriminate He.
    + injection Heq as _ _ _ Heq. exact (IH pre Heq He).
Qed.

Lemma steps_not_discovering defn check headless :
  emits not_discovering (create_vm w depl name) /\
  emits not_discovering (create_disk w depl name defn) /\
  emits not_discovering (attach_disk w) /\
  emits not_discovering (check_running w check) /\
  emits not_discovering (ensure_key_pair w) /\
  emits not_discovering (start_vm w defn) /\
  emits not_discovering (_get_vm_state w) /\
  emits not_discovering (_start w headless).
Proof.
  unfold create_vm, create_disk, attach_disk, check_running, ensure_key_pair,
    start_vm, _start, _get_vm_state, _get_vm_info.
  repeat apply conj; walk.
Qed.

Lemma discovering a e : discovered e = Some a -> ~ not_discovering e.
Proof. unfold not_discovering. congruence. Qed.

(** When a poll of [_wait_for_ip] reads an address, the events that follow
    are the echo, the invalidation of the trust record of that address and
    the write of the record that holds it. *)
Lemma wait_for_ip_discovered fuel m r m' pre e post a :
  _wait_for_ip w name fuel m = (r, m', pre ++ e :: post) ->
  discovered e = Some a ->
  post = [Stderr (" " +:+ a +:+ newline); KnownHostsRemove a;
          Write (self m')] /\
  r = inr tt /\
  self m' = set_ipv4 (Some a) (self m) /\
  stored m' = self m'.
Proof.
  intros Htr He. pose proof (discovering a e He) as Hne.
  unfold _wait_for_ip in Htr.
  apply (bind_event_later not_discovering) in Htr
    as ([] & m1 & t1 & p1 & R1 & -> & Htr); [| walk | exact Hne].
  exec_in R1. injection R1 as <- <-.
  apply (bind_event_earlier not_discovering) in Htr
    as (post1 & rest & Htr & -> & Hrest); [| walk | exact Hne].
  destruct (poll_ip_discovered fuel m p1 e post1 a Htr He)
    as (-> & Hr & Hs & Hst).
  pose proof (run_eta (poll_ip w fuel m)) as Hrun.
  rewrite Hr, Htr in Hrun. specialize (Hrest _ _ Hrun).
  exec_in Hrest. rewrite Hs in Hrest. exec_in Hrest.
  injection Hrest as <- <- <-. cbn [self stored].
  rewrite Hs. by repeat split.
Qed.

Lemma create_discovered defn check fuel m r m' pre e post a :
  create w depl name defn check fuel m = (r, m', pre ++ e :: post) ->
  discovered e = Some a ->
  post = [Stderr (" " +:+ a +:+ newline); KnownHostsRemove a;
          Write (self m')] /\
  r = inr tt /\ _ipv4 (self m') = Some a /\ stored m' = self m'.
Proof.
  intros Htr He. pose proof (discovering a e He) as Hne.
  destruct (steps_not_discovering defn check false)
    as (E1 & E2 & E3 & E4 & E5 & E6 & _).
  unfold create in Htr.
  apply (bind_event_later _ _ _ _ _ _ _ _ _ E1 Hne) in Htr
    as ([] & m1 & t1 & p1 & R1 & -> & Htr).
  apply (bind_event_later _ _ _ _ _ _ _ _ _ E2 Hne) in Htr
    as ([] & m2 & t2 & p2 & R2 & -> & Htr).
  apply (bind_event_later _ _ _ _ _ _ _ _ _ E3 Hne) in Htr
    as ([] & m3 & t3 & p3 & R3 & -> & Htr).
  apply (bind_event_later _ _ _ _ _ _ _ _ _ E4 Hne) in Htr
    as ([] & m4 & t4 & p4 & R4 & -> & Htr).
  apply (bind_event_later _ _ _ _ _ _ _ _ _ E5 Hne) in Htr
    as ([] & m5 & t5 & p5 & R5 & -> & Htr).
  apply (bind_event_later _ _ _ _ _ _ _ _ _ E6 Hne) in Htr
    as ([] & m6 & t6 & p6 & R6 & -> & Htr).
  rewrite discover_ip_run in Htr.
  destruct (negb (truthy (_ipv4 (self m6))) || check).
  - apply (wait_for_ip_discovered _ _ _ _ _ _ _ a) in Htr
      as (-> & -> & Hs & Hst); [|exact He].
    rewrite Hst, Hs. by repeat split.
  - injection Htr as _ _ Htr. by destruct p6.
Qed.

Lemma start_discovered fuel m r m' pre e post a :
  start w name fuel m = (r, m', pre ++ e :: post) ->
  discovered e = Some a ->
  exists rest,
    post = [Stderr (" " +:+ a +:+ newline); KnownHostsRemove a;
            Write (self m')] ++ rest /\
    (rest = [] \/ rest = [address_changed]) /\
    r = inr tt /\ _ipv4 (self m') = Some a /\ stored m' = self m'.
Proof.
  intros Htr He. pose proof (discovering a e He) as Hne.
  destruct (steps_not_discovering
              {| base_image := EmptyString; memory_size := EmptyString;
                 headless := false |} false false)
    as (_ & _ & _ & _ & _ & _ & Eq & Es).
  unfold start in Htr.
  apply (bind_event_later not_discovering) in Htr
    as (st & m1 & t1 & p1 & R1 & -> & Htr); [| exact Eq | exact Hne].
  destruct (String.eqb st "running").
  { exec_in Htr. injection Htr as _ _ Htr. by destruct p1. }
  apply (bind_event_later not_discovering) in Htr
    as ([] & m2 & t2 & p2 & R2 & -> & Htr); [| walk | exact Hne].
  rewrite bind_run in Htr. cbn [get_self] in Htr.
  match type of Htr with
  | context [mbind ?f (_start w false) m2] =>
      destruct (mbind f (_start w false) m2) as [[r' m''] t'] eqn:Hs
  end.
  rewrite app_nil_l in Htr. injection Htr as -> -> ->.
  apply (bind_event_later not_discovering) in Hs
    as ([] & m3 & t3 & p3 & R3 & -> & Htr); [| exact Es | exact Hne].
  apply (bind_event_earlier not_discovering) in Htr
    as (post1 & rest & Htr & -> & Hrest); [| walk | exact Hne].
  destruct (_wait_for_ip w name fuel m3) as [[r4 m4] t4] eqn:Hw.
  cbn [trace_of snd] in Htr. subst t4.
  pose proof Hw as Hw'.
  apply (wait_for_ip_discovered _ _ _ _ _ _ _ a) in Hw'
    as (-> & -> & Hs4 & Hst4); [|exact He].
  specialize (Hrest _ _ eq_refl). rewrite bind_run in Hrest.
  cbn [get_self] in Hrest. unfold when, warn, emit in Hrest.
  exists rest.
  destruct (negb (bool_decide (_ipv4 (self m2) = _ipv4 (self m4))));
    exec_in Hrest; injection Hrest as <- <- <-;
    rewrite ?Hst4, Hs4; repeat split; auto.
Qed.

Lemma start_ok headless m vm_id pub :
  _vm_id (self m) = Some vm_id ->
  _client_public_key (self m) = Some pub ->
  exit_status w (n_call m) = 0%Z ->
  exit_status w (S (n_call m)) = 0%Z ->
  exit_status w (S (S (n_call m))) = 0%Z ->
  _start w headless m
    = (inr tt,
       {| self := set_started true (self m);
          stored := set_started true (self m);
          n_call := S (S (S (n_call m))); n_output := n_output m;
          n_report := n_report m; n_isdir := n_isdir m;
          n_keys := n_keys m |},
       start_events vm_id pub headless (set_started true (self m))).
Proof.
  intros Evm Epub H0 H1 H2.
  pose proof (proj2 (Z.eqb_eq _ _) H0) as E0.
  pose proof (proj2 (Z.eqb_eq _ _) H1) as E1.
  pose proof (proj2 (Z.eqb_eq _ _) H2) as E2.
  unfold _start, start_events, startvm_argv. run.
  rewrite E0. run. rewrite E1. run. rewrite E2. run.
  rewrite H0, H1, H2. by destruct headless.
Qed.

(** [create] on a record whose machine is provisioned and started, when
    the discovery is due: it goes to the discovery, which completes. *)
Lemma create_completes defn check fuel m vm_id (outs : list string) out :
  _vm_id (self m) = Some vm_id ->
  truthy (_vm_id (self m)) = true ->
  truthy (_disk (self m)) = true ->
  _disk_attached (self m) = true ->
  truthy (_client_private_key (self m)) = true ->
  _started (self m) = true ->
  (check = true ->
   parse_vm_state (report w (n_report m)) = inr "running") ->
  (check = false -> truthy (_ipv4 (self m)) = false) ->
  publishes_after w (n_output m) outs out ->
  length outs < fuel ->
  exists m',
    create w depl name defn check fuel m
      = (inr tt, m',
         (if check then [query_event w vm_id (n_report m)] else [])
           ++ discovery_events name vm_id outs out (self m')) /\
    self m' = set_ipv4 (Some (address_of out)) (self m) /\
    stored m' = self m'.
Proof.
  intros Evm Hvm Hdisk Hatt Hpriv Hst Hrun Hip Hpub Hf. unfold create.
  rewrite (bind_pure _ _ _ _ (create_vm_skip w depl name _ Hvm)).
  rewrite (bind_pure _ _ _ _ (create_disk_skip w depl name _ _ Hdisk)).
  rewrite (bind_pure _ _ _ _ (attach_disk_skip w _ Hatt)).
  destruct check.
  - assert (check_running w true m
            = (inr tt, after_query m, [query_event w vm_id (n_report m)]))
      as Hcheck.
    { assert (with_self (set_started true) (after_query m) = after_query m)
        as Hsame.
      { unfold with_self, after_query.
        cbn [self stored n_call n_output n_report n_isdir n_keys].
        by rewrite (set_started_same _ _ Hst). }
      rewrite <- Hsame. unfold check_running. cbn [when].
      rewrite bind_run, (get_vm_state_ok w m vm_id _ Evm (Hrun eq_refl)).
      reflexivity. }
    rewrite bind_run, Hcheck.
    rewrite (bind_pure _ _ _ _
               (ensure_key_pair_skip w (after_query m) Hpriv)).
    rewrite (bind_pure _ _ _ _ (start_vm_skip w defn (after_query m) Hst)).
    rewrite discover_ip_run, orb_true_r.
    rewrite (wait_for_ip_run w name fuel outs out (after_query m) vm_id
               Evm Hpub Hf).
    eexists. split; [f_equal|]. by split.
  - rewrite (bind_pure _ _ _ _ (check_running_skip w m)).
    rewrite (bind_pure _ _ _ _ (ensure_key_pair_skip w m Hpriv)).
    rewrite (bind_pure _ _ _ _ (start_vm_skip w defn m Hst)).
    rewrite discover_ip_run, (Hip eq_refl). cbn [negb orb].
    rewrite (wait_for_ip_run w name fuel outs out m vm_id Evm Hpub Hf).
    eexists. split; [f_equal|]. by split.
Qed.

(** [start] on a machine that is not running, when its three commands
    succeed: the discovery completes. *)
Lemma start_completes fuel m vm_id pub s (outs : list string) out :
  _vm_id (self m) = Some vm_id ->
  _client_public_key (self m) = Some pub ->
  parse_vm_state (report w (n_report m)) = inr s ->
  s <> "running" ->
  exit_status w (n_call m) = 0%Z ->
  exit_status w (S (n_call m)) = 0%Z ->
  exit_status w (S (S (n_call m))) = 0%Z ->
  publishes_after w (n_output m) outs out ->
  length outs < fuel ->
  exists m',
    start w name fuel m
      = (inr tt, m',
         [query_event w vm_id (n_report m); Log "restarting..."]
           ++ start_events vm_id pub false (set_started true (self m))
           ++ discovery_events name vm_id outs out (self m')
           ++ (if bool_decide (_ipv4 (self m) = Some (address_of out))
               then [] else [address_changed])) /\
    self m' = set_ipv4 (Some (address_of out)) (set_started true (self m)) /\
    stored m' = self m'.
Proof.
  intros Evm Epub Hs Hne H0 H1 H2 Hpub Hf. unfold start.
  rewrite bind_run, (get_vm_state_ok w m vm_id s Evm Hs).
  apply String.eqb_neq in Hne. rewrite Hne.
  rewrite bind_run. cbn [log emit]. rewrite bind_run. cbn [get_self].
  rewrite bind_run.
  match goal with
  | |- context [_start w false ?m1] =>
      rewrite (start_ok false m1 vm_id pub Evm Epub H0 H1 H2)
  end.
  rewrite bind_run.
  match goal with
  | |- context [_wait_for_ip w name fuel ?m3] =>
      rewrite (wait_for_ip_run w name fuel outs out m3 vm_id Evm Hpub Hf)
  end.
  exec. unfold address_changed.
  destruct (bool_decide (_ipv4 (self m) = Some (address_of out))); exec;
    (eexists; split; [f_equal|]; by split).
Qed.

(** C7, as amended (trust-record invalidation).  Parts 1 and 2: in every
    run of [create] or of [start], when the discovery completes, that is
    when a poll of the guest property reads an address, the events that
    follow are the line that echoes the address, the invalidation of the
    trust record of that address, the one just read and not the one the
    record held before, and the write of the record with that address,
    which is the record left in memory and in the state file; the
    operation succeeds ([start] may still warn that the address has
    changed).  Parts 3 and 4: conversely, wherever a trust record is
    invalidated in a run of [create] or of [start], the two events before
    it are the poll that read its address and the echo.  Parts 5 and 6:
    the discovery does complete: in [create] on a record whose machine is
    provisioned and started, when [check] is set and the machine is
    reported running or when the record has no address, and in [start] on a
    machine that is reported down and whose three commands succeed, once
    the polls read [outs], which publish nothing, and [out], which
    publishes an address, the run succeeds with the events of the
    discovery, among them the invalidation of the trust record of that
    address, whatever address the record held. *)
Theorem invalidation_targets_new_address :
  (forall defn check fuel m r m' pre e post a,
     create w depl name defn check fuel m = (r, m', pre ++ e :: post) ->
     discovered e = Some a ->
     post = [Stderr (" " +:+ a +:+ newline); KnownHostsRemove a;
             Write (self m')] /\
     r = inr tt /\ _ipv4 (self m') = Some a /\ stored m' = self m') /\
  (forall fuel m r m' pre e post a,
     start w name fuel m = (r, m', pre ++ e :: post) ->
     discovered e = Some a ->
     exists rest,
       post = [Stderr (" " +:+ a +:+ newline); KnownHostsRemove a;
               Write (self m')] ++ rest /\
       (rest = [] \/ rest = [address_changed]) /\
       r = inr tt /\ _ipv4 (self m') = Some a /\ stored m' = self m') /\
  (forall defn check fuel m r m' pre a post,
     create w depl name defn check fuel m
       = (r, m', pre ++ KnownHostsRemove a :: post) ->
     exists before vm_id out,
       pre = before
             ++ [CheckOutput (get_property_argv vm_id ip_property) (Some out);
                 Stderr (" " +:+ a +:+ newline)] /\
       published out = true /\ a = address_of out /\
       post = [Write (self m')] /\
       r = inr tt /\ _ipv4 (self m') = Some a /\ stored m' = self m') /\
  (forall fuel m r m' pre a post,
     start w name fuel m = (r, m', pre ++ KnownHostsRemove a :: post) ->
     exists before vm_id out rest,
       pre = before
             ++ [CheckOutput (get_property_argv vm_id ip_property) (Some out);
                 Stderr (" " +:+ a +:+ newline)] /\
       published out = true /\ a = address_of out /\
       post = Write (self m') :: rest /\
       (rest = [] \/ rest = [address_changed]) /\
       r = inr tt /\ _ipv4 (self m') = Some a /\ stored m' = self m') /\
  (forall defn check fuel m vm_id (outs : list string) out,
     _vm_id (self m) = Some vm_id ->
     truthy (_vm_id (self m)) = true ->
     truthy (_disk (self m)) = true ->
     _disk_attached (self m) = true ->
     truthy (_client_private_key (self m)) = true ->
     _started (self m) = true ->
     (check = true ->
      parse_vm_state (report w (n_report m)) = inr "running") ->
     (check = false -> truthy (_ipv4 (self m)) = false) ->
     publishes_after w (n_output m) outs out ->
     length outs < fuel ->
     exists m',
       create w depl name defn check fuel m
         = (inr tt, m',
            (if check then [query_event w vm_id (n_report m)] else [])
              ++ discovery_events name vm_id outs out (self m')) /\
       self m' = set_ipv4 (Some (address_of out)) (self m) /\
       stored m' = self m') /\
  (forall fuel m vm_id pub s (outs : list string) out,
     _vm_id (self m) = Some vm_id ->
     _client_public_key (self m) = Some pub ->
     parse_vm_state (report w (n_report m)) = inr s ->
     s <> "running" ->
     exit_status w (n_call m) = 0%Z ->
     exit_status w (S (n_call m)) = 0%Z ->
     exit_status w (S (S (n_call m))) = 0%Z ->
     publishes_after w (n_output m) outs out ->
     length outs < fuel ->
     exists m',
       start w name fuel m
         = (inr tt, m',
            [query_event w vm_id (n_report m); Log "restarting..."]
              ++ start_events vm_id pub false (set_started true (self m))
              ++ discovery_events name vm_id outs out (self m')
              ++ (if bool_decide (_ipv4 (self m) = Some (address_of out))
                  then [] else [address_changed])) /\
       self m'
         = set_ipv4 (Some (address_of out)) (set_started true (self m)) /\
       stored m' = self m').
Proof.
  repeat apply conj.
  - intros. by eapply create_discovered.
  - intros. by eapply start_discovered.
  - intros. by eapply create_invalidation.
  - intros. by eapply start_invalidation.
  - intros. by eapply create_completes.
  - intros. by eapply start_completes.
Qed.

End Completion.

Lemma invalidation_targets_new_address_witness :
  _ipv4 (stored (boot sample_provisioned)) = Some "192.168.56.101" /\
  drop 3 (trace_of (create found_running sample_depl "m1" sample_defn true 5
                      (boot sample_provisioned)))
    = [Stderr (" " +:+ "192.168.56.102" +:+ newline);
       KnownHostsRemove "192.168.56.102";
       Write (self (machine_of
                      (create found_running sample_depl "m1" sample_defn
                         true 5 (boot sample_provisioned))))] /\
  _ipv4 (self (machine_of
                 (create found_running sample_depl "m1" sample_defn true 5
                    (boot sample_provisioned)))) = Some "192.168.56.102" /\
  stored (machine_of (create found_running sample_depl "m1" sample_defn true
                        5 (boot sample_provisioned)))
    = self (machine_of (create found_running sample_depl "m1" sample_defn
                          true 5 (boot sample_provisioned))).
Proof.
  pose (run := create found_running sample_depl "m1" sample_defn true 5
                 (boot sample_provisioned)).
  assert (run = (result_of run, machine_of run,
                 take 2 (trace_of run)
                   ++ CheckOutput
                        (get_property_argv "charon-u1-m1" ip_property)
                        (Some ("Value: 192.168.56.102" +:+ newline))
                   :: drop 3 (trace_of run))) as Hrun.
  { vm_compute. reflexivity. }
  assert (discovered
            (CheckOutput (get_property_argv "charon-u1-m1" ip_property)
               (Some ("Value: 192.168.56.102" +:+ newline)))
          = Some "192.168.56.102") as He.
  { vm_compute. reflexivity. }
  destruct (proj1 (invalidation_targets_new_address found_running sample_depl
                     "m1")
              sample_defn true 5 (boot sample_provisioned) _ _ _ _ _ _
              Hrun He)
    as (Hpost & _ & Hip & Hst).
  split; [reflexivity|]. subst run. split; [exact Hpost|].
  split; [exact Hip | exact Hst].
Defined.
